(** * Baseline engine of linux-less-persistence (llp.core.baseline, llp.core.models)

    A shallow embedding of the finding model, the stable identifier, the
    baseline construction, its JSON (de)serialisation and the baseline diff,
    followed by the properties the specification states about them.

    Conventions of the embedding.
    - A Python [str] is represented by the sequence of bytes of its UTF-8
      encoding, as a [string].  [str.encode("utf-8")] is therefore the
      identity on the representation, and comparing two [str] values with
      [<] (code point order) is the lexicographic order on these bytes.
      A surrogate that stands alone in a [str] is held as the three bytes
      that the encoding scheme gives a code point of its range; such a
      string has no UTF-8 encoding, and the functions of [Strict] raise
      where [str.encode] does.  The baseline functions outside [Strict] are
      the functions on strings that can be encoded.
    - A Python value that can be stored in a finding or come out of
      [json.loads] is a [value]; a [float] is an IEEE 754 binary64 number.
    - A Python [dict] is an association list in insertion order whose keys
      are pairwise distinct; [d[k] = v] is [dict_set].
    - A raised exception is the [Raise] case of [res].
    - The library functions the code calls ([hashlib.sha256], [json.dumps],
      [json.loads], [sorted], [str], [==]) are embedded from their
      documented behaviour, so that every definition below runs. *)

From Stdlib Require Import ZArith Lia Ascii DecimalString DecimalZ.
From stdpp Require Import gmap strings list sorting.

Set Warnings "-register-all,-clear-no-such-hyp".


(** * hashlib.sha256 (FIPS 180-4) on byte lists *)

Module SHA256.
Local Open Scope Z_scope.

Definition wrap32 (x : Z) : Z := Z.land x 0xFFFFFFFF.
Definition add32 (x y : Z) : Z := wrap32 (x + y).
Definition rotr (n x : Z) : Z :=
  Z.lor (Z.shiftr x n) (wrap32 (Z.shiftl x (32 - n))).

Definition Ch (x y z : Z) : Z := Z.lxor (Z.land x y) (Z.land (Z.lnot x) z).
Definition Maj (x y z : Z) : Z :=
  Z.lxor (Z.lxor (Z.land x y) (Z.land x z)) (Z.land y z).
Definition Sigma0 (x : Z) : Z := Z.lxor (Z.lxor (rotr 2 x) (rotr 13 x)) (rotr 22 x).
Definition Sigma1 (x : Z) : Z := Z.lxor (Z.lxor (rotr 6 x) (rotr 11 x)) (rotr 25 x).
Definition sigma0 (x : Z) : Z := Z.lxor (Z.lxor (rotr 7 x) (rotr 18 x)) (Z.shiftr x 3).
Definition sigma1 (x : Z) : Z := Z.lxor (Z.lxor (rotr 17 x) (rotr 19 x)) (Z.shiftr x 10).

(** The first primes, by trial division *)
Definition is_prime (n : nat) : bool :=
  forallb (fun d => negb (Nat.eqb (n mod d) 0)) (seq 2 (n - 2)).

Definition primes (k : nat) : list Z :=
  take k (map Z.of_nat (List.filter is_prime (seq 2 400))).

(** The integer cube root, one bit at a time from bit 39 down *)
Definition cbrt_step (n r : Z) (i : nat) : Z :=
  let r' := r + 2 ^ Z.of_nat i in
  if r' * r' * r' <=? n then r' else r.

Definition cbrt (n : Z) : Z := fold_left (cbrt_step n) (rev (seq 0 40)) 0.

(** The round constants: the first 32 bits of the fractional parts of the
    cube roots of the first 64 primes. *)
Definition K : list Z :=
  Eval vm_compute in map (fun p => wrap32 (cbrt (p * 2 ^ 96))) (primes 64).

(** The eight working words, kept as a record. *)
Record state := State { sa : Z; sb : Z; sc : Z; sd : Z; se : Z; sf : Z; sg : Z; sh : Z }.

(** The initial hash value: the first 32 bits of the fractional parts of
    the square roots of the first 8 primes. *)
Definition H0 : state :=
  Eval vm_compute in
    match map (fun p => wrap32 (Z.sqrt (p * 2 ^ 64))) (primes 8) with
    | [a; b; c; d; e; f; g; h] => State a b c d e f g h
    | _ => State 0 0 0 0 0 0 0 0
    end.

(** Padding: the byte 0x80, zero bytes up to 56 modulo 64, then the bit
    length on eight bytes, most significant first. *)
Definition be_bytes (n : nat) (x : Z) : list Z :=
  map (fun i : nat => Z.land (Z.shiftr x (8 * Z.of_nat i)) 0xFF) (rev (seq 0 n)).

Definition pad (msg : list Z) : list Z :=
  let len := Z.of_nat (length msg) in
  msg ++ [0x80] ++ replicate (Z.to_nat ((55 - len) mod 64)) 0 ++ be_bytes 8 (8 * len).

Fixpoint words (bs : list Z) : list Z :=
  match bs with
  | b0 :: b1 :: b2 :: b3 :: rest =>
      Z.lor (Z.lor (Z.shiftl b0 24) (Z.shiftl b1 16)) (Z.lor (Z.shiftl b2 8) b3)
      :: words rest
  | _ => []
  end.

Fixpoint blocks (fuel : nat) (ws : list Z) : list (list Z) :=
  match fuel, ws with
  | S fuel', _ :: _ => take 16 ws :: blocks fuel' (drop 16 ws)
  | _, _ => []
  end.

(** Message schedule: [n] more words after the ones in [w]. *)
Fixpoint schedule (n : nat) (w : list Z) : list Z :=
  match n with
  | O => w
  | S n' =>
      let i := length w in
      let at_ (k : nat) := nth (i - k) w 0 in
      schedule n'
        (w ++ [add32 (add32 (add32 (sigma1 (at_ 2%nat)) (at_ 7%nat)) (sigma0 (at_ 15%nat)))
                 (at_ 16%nat)])
  end.

Definition round (s : state) (kw : Z * Z) : state :=
  let '(k, w) := kw in
  let t1 := add32 (add32 (add32 (add32 (sh s) (Sigma1 (se s))) (Ch (se s) (sf s) (sg s))) k) w in
  let t2 := add32 (Sigma0 (sa s)) (Maj (sa s) (sb s) (sc s)) in
  State (add32 t1 t2) (sa s) (sb s) (sc s) (add32 (sd s) t1) (se s) (sf s) (sg s).

Definition compress (h : state) (block : list Z) : state :=
  let s := fold_left round (zip K (schedule 48 block)) h in
  State (add32 (sa h) (sa s)) (add32 (sb h) (sb s)) (add32 (sc h) (sc s))
        (add32 (sd h) (sd s)) (add32 (se h) (se s)) (add32 (sf h) (sf s))
        (add32 (sg h) (sg s)) (add32 (sh h) (sh s)).

Definition digest_state (msg : list Z) : state :=
  let ws := words (pad msg) in
  fold_left compress (blocks (length ws) ws) H0.

Definition state_words (s : state) : list Z :=
  [sa s; sb s; sc s; sd s; se s; sf s; sg s; sh s].

(** Lowercase hexadecimal. *)
Definition hex_digit (d : Z) : ascii :=
  match d with
  | 0 => "0" | 1 => "1" | 2 => "2" | 3 => "3" | 4 => "4" | 5 => "5" | 6 => "6" | 7 => "7"
  | 8 => "8" | 9 => "9" | 10 => "a" | 11 => "b" | 12 => "c" | 13 => "d" | 14 => "e" | _ => "f"
  end%char.

Definition hex_nibbles (n : nat) (x : Z) : list ascii :=
  map (fun i : nat => hex_digit (Z.land (Z.shiftr x (4 * Z.of_nat i)) 0xF)) (rev (seq 0 n)).

Definition hex_word (x : Z) : string := String.string_of_list_ascii (hex_nibbles 8 x).

Fixpoint concat_str (l : list string) : string :=
  match l with
  | [] => ""
  | s :: l' => s +:+ concat_str l'
  end.

(** [hashlib.sha256(msg).hexdigest()] *)
Definition hexdigest (msg : list Z) : string :=
  concat_str (map hex_word (state_words (digest_state msg))).

End SHA256.

(** [s.encode("utf-8")]: a [str] is held as its UTF-8 bytes. *)
Definition encode_utf8 (s : string) : list Z :=
  map (fun c => Z.of_N (N_of_ascii c)) (String.list_ascii_of_string s).

Definition sha256_hex (s : string) : string := SHA256.hexdigest (encode_utf8 s).
Arguments sha256_hex : simpl never.


(** * float: IEEE 754 binary64 numbers, [float(text)] and [repr] *)

Module Float.
Local Open Scope Z_scope.

(** A finite float is [m * 2 ^ e], negated when [neg] holds, in normal
    form: [0 <= m < 2 ^ 53], [-1074 <= e <= 971], and [2 ^ 52 <= m] unless
    [e = -1074]; zero is [m = 0] at [e = -1074]. *)
Inductive t : Type :=
| Nan
| Inf (neg : bool)
| Fin (neg : bool) (m : Z) (e : Z).

Definition zero (neg : bool) : t := Fin neg 0 (-1074).

(** The integer nearest to [num / den], the even one of two equally near *)
Definition nearest_even (num den : Z) : Z :=
  let q := num / den in
  let r := num mod den in
  if 2 * r <? den then q
  else if den <? 2 * r then q + 1
  else if Z.even q then q else q + 1.

(** [p / (q * 2 ^ e)] as a fraction of integers *)
Definition scaled (p q e : Z) : Z * Z :=
  if 0 <=? e then (p, q * 2 ^ e) else (p * 2 ^ (- e), q).

(** The float nearest to [p / q], for [0 <= p] and [0 < q]: rounding to
    nearest, ties to even, overflow to infinity. *)
Definition of_ratio (neg : bool) (p q : Z) : t :=
  if p =? 0 then zero neg
  else
    let e1 := Z.max (-1074) (Z.log2 p - Z.log2 q - 53) in
    let '(n1, d1) := scaled p q e1 in
    let e2 := if 2 ^ 53 <=? n1 / d1 then e1 + 1 else e1 in
    let '(n2, d2) := scaled p q e2 in
    let m := nearest_even n2 d2 in
    let '(m3, e3) := if m =? 2 ^ 53 then (2 ^ 52, e2 + 1) else (m, e2) in
    if 971 <? e3 then Inf neg else Fin neg m3 e3.

(** The float nearest to [digits * 10 ^ e10], [digits] having [nd] decimal
    digits: beyond 10^309 every decimal reads as infinity, below 10^-324 as
    zero. *)
Definition of_decimal (neg : bool) (digits e10 : Z) : t :=
  let nd := Z.of_nat (Decimal.nb_digits (N.to_uint (Z.to_N digits))) in
  if digits =? 0 then zero neg
  else if 309 <? e10 + nd then Inf neg
  else if e10 + nd <? -323 then zero neg
  else if 0 <=? e10 then of_ratio neg (digits * 10 ^ e10) 1
  else of_ratio neg digits (10 ^ (- e10)).

Definition is_float (m e : Z) (x : t) : bool :=
  match x with
  | Fin _ m' e' => (m' =? m) && (e' =? e)
  | _ => false
  end.

(** The position of the decimal point: the least [k] with
    [p / q < 10 ^ k], looked for from [k] on. *)
Fixpoint decimal_point (fuel : nat) (p q k : Z) : Z :=
  match fuel with
  | O => k
  | S fuel' =>
      if (if 0 <=? k then p <? q * 10 ^ k else p * 10 ^ (- k) <? q) then k
      else decimal_point fuel' p q (k + 1)
  end.

(** The shortest decimal that reads back as the float [m * 2 ^ e], [0 < m]:
    the digits as a number [c] and the exponent [s] of [c * 10 ^ s],
    trying [n], [n + 1], ... digits (17 digits always read back).  Of two
    decimals of the same length the nearer one is taken, the even one when
    they are equally near. *)
Fixpoint shortest (fuel : nat) (m e p q k : Z) (n : Z) : Z * Z :=
  match fuel with
  | O => (0, 0)
  | S fuel' =>
      let s := k - n in
      let '(num, den) := if 0 <=? s then (p, q * 10 ^ s) else (p * 10 ^ (- s), q) in
      let lo := num / den in
      let r := num mod den in
      let ok_lo := is_float m e (of_decimal false lo s) in
      let ok_hi := is_float m e (of_decimal false (lo + 1) s) in
      if ok_lo && ok_hi then
        if 2 * r <? den then (lo, s)
        else if den <? 2 * r then (lo + 1, s)
        else if Z.even lo then (lo, s) else (lo + 1, s)
      else if ok_lo then (lo, s)
      else if ok_hi then (lo + 1, s)
      else shortest fuel' m e p q k (n + 1)
  end.

Fixpoint strip_zeros (fuel : nat) (c s : Z) : Z * Z :=
  match fuel with
  | O => (c, s)
  | S fuel' => if (c mod 10 =? 0) && negb (c =? 0) then strip_zeros fuel' (c / 10) (s + 1)
               else (c, s)
  end.

Definition digits_of (c : Z) : string := NilEmpty.string_of_uint (N.to_uint (Z.to_N c)).

Fixpoint zeros (n : nat) : string :=
  match n with
  | O => ""
  | S n' => String "0" (zeros n')
  end.

Fixpoint str_drop (n : nat) (s : string) : string :=
  match n, s with
  | S n', String _ s' => str_drop n' s'
  | _, _ => s
  end.

Fixpoint str_prefix (n : nat) (s : string) : string :=
  match n, s with
  | S n', String c s' => String c (str_prefix n' s')
  | _, _ => ""
  end.

(** The digits [ds] with the decimal point after [decpt] of them, in the
    format of [repr]: an exponent when [decpt <= -4] or [16 < decpt]. *)
Definition format (ds : string) (decpt : Z) : string :=
  let nd := Z.of_nat (String.length ds) in
  if (decpt <=? -4) || (16 <? decpt) then
    let ex := decpt - 1 in
    let exs := digits_of (Z.abs ex) in
    str_prefix 1 ds
    +:+ (if nd =? 1 then "" else "." +:+ str_drop 1 ds)
    +:+ "e" +:+ (if ex <? 0 then "-" else "+")
    +:+ (if Z.abs ex <? 10 then "0" else "") +:+ exs
  else if decpt <=? 0 then "0." +:+ zeros (Z.to_nat (- decpt)) +:+ ds
  else if nd <=? decpt then ds +:+ zeros (Z.to_nat (decpt - nd)) +:+ ".0"
  else str_prefix (Z.to_nat decpt) ds +:+ "." +:+ str_drop (Z.to_nat decpt) ds.

(** [repr(x)] of a finite float *)
Definition repr_finite (neg : bool) (m e : Z) : string :=
  (if neg then "-" else "") +:+
  (if m =? 0 then "0.0"
   else
     let '(p, q) := scaled m 1 (- e) in
     let k0 := ((Z.log2 p - Z.log2 q) * 30103) / 100000 - 2 in
     let k := decimal_point 8 p q k0 in
     let '(c, s) := shortest 17 m e p q k 1 in
     let '(c', s') := strip_zeros 20 c s in
     let ds := digits_of c' in
     format ds (Z.of_nat (String.length ds) + s')).

(** [repr(x)] and [str(x)] *)
Definition repr (x : t) : string :=
  match x with
  | Nan => "nan"
  | Inf neg => if neg then "-inf" else "inf"
  | Fin neg m e => repr_finite neg m e
  end.

(** The text of [x] in [json.dumps] *)
Definition json (x : t) : string :=
  match x with
  | Nan => "NaN"
  | Inf neg => if neg then "-Infinity" else "Infinity"
  | Fin neg m e => repr_finite neg m e
  end.

(** [x == y] *)
Definition eqb (x y : t) : bool :=
  match x, y with
  | Fin s1 m1 e1, Fin s2 m2 e2 =>
      ((m1 =? 0) && (m2 =? 0)) || (Bool.eqb s1 s2 && (m1 =? m2) && (e1 =? e2))
  | Inf s1, Inf s2 => Bool.eqb s1 s2
  | _, _ => false
  end.

(** [x == n] for an [int] [n]: the numbers are compared exactly *)
Definition eqb_int (x : t) (n : Z) : bool :=
  match x with
  | Fin s m e =>
      let v := if s then - m else m in
      if 0 <=? e then n =? v * 2 ^ e else n * 2 ^ (- e) =? v
  | _ => false
  end.

End Float.

(** * Python values, exceptions and dictionaries *)

(** A dictionary: association list in insertion order, keys pairwise
    distinct. *)
Definition dict (A : Type) : Type := list (string * A).

Inductive value : Type :=
| VNone
| VBool (b : bool)
| VInt (n : Z)
| VFloat (x : Float.t)
| VStr (s : string)
| VList (l : list value)
| VDict (d : dict value).

Inductive exn : Type :=
| AttributeError
| KeyError
| JSONDecodeError
| UnicodeEncodeError.

Inductive res (A : Type) : Type :=
| Ok (a : A)
| Raise (e : exn).
Arguments Ok {A} a.
Arguments Raise {A} e.

Definition bind {A B : Type} (m : res A) (k : A -> res B) : res B :=
  match m with
  | Ok a => k a
  | Raise e => Raise e
  end.

Notation "'do' x <- m ; k" := (bind m (fun x => k))
  (at level 10, x name, m at level 100, k at level 200).

Fixpoint mapM {A B : Type} (f : A -> res B) (l : list A) : res (list B) :=
  match l with
  | [] => Ok []
  | x :: l' => do y <- f x; do ys <- mapM f l'; Ok (y :: ys)
  end.

Section Dict.
Context {A : Type}.

(** [d.get(k)], with [None] standing for an absent key *)
Fixpoint dict_get (k : string) (d : dict A) : option A :=
  match d with
  | [] => None
  | (k', v) :: d' => if String.eqb k k' then Some v else dict_get k d'
  end.

(** [d[k] = v]: a present key keeps its place, a new one goes last *)
Fixpoint dict_set (k : string) (v : A) (d : dict A) : dict A :=
  match d with
  | [] => [(k, v)]
  | (k', v') :: d' =>
      if String.eqb k k' then (k', v) :: d' else (k', v') :: dict_set k v d'
  end.

(** [d[k]] *)
Definition dict_getitem (k : string) (d : dict A) : res A :=
  match dict_get k d with
  | Some v => Ok v
  | None => Raise KeyError
  end.

(** [d.keys()] *)
Definition dict_keys (d : dict A) : list string := map fst d.

End Dict.

(** [o.get(k)] on an arbitrary object: only a dict has the method. *)
Definition py_get (o : value) (k : string) : res value :=
  match o with
  | VDict d => Ok (default VNone (dict_get k d))
  | _ => Raise AttributeError
  end.

(** [o.get(k, dflt)] *)
Definition py_get_default (o : value) (k : string) (dflt : value) : res value :=
  match o with
  | VDict d => Ok (default dflt (dict_get k d))
  | _ => Raise AttributeError
  end.

(** [o.keys()] *)
Definition py_keys (o : value) : res (list string) :=
  match o with
  | VDict d => Ok (dict_keys d)
  | _ => Raise AttributeError
  end.

(** [o[k]] for a key [k] that is a [str]; used on dictionaries only. *)
Definition py_getitem (o : value) (k : string) : res value :=
  match o with
  | VDict d => dict_getitem k d
  | _ => Raise KeyError
  end.

(** Python's [==] on values ([True == 1], [1.0 == 1], dictionaries
    compared without regard to order). *)
Fixpoint py_eq (a b : value) {struct a} : bool :=
  match a, b with
  | VNone, VNone => true
  | VBool x, VBool y => Bool.eqb x y
  | VBool x, VInt n | VInt n, VBool x => Z.eqb n (if x then 1 else 0)
  | VInt n, VInt m => Z.eqb n m
  | VFloat x, VFloat y => Float.eqb x y
  | VFloat x, VInt n | VInt n, VFloat x => Float.eqb_int x n
  | VFloat x, VBool b | VBool b, VFloat x => Float.eqb_int x (if b then 1 else 0)
  | VStr s, VStr t => String.eqb s t
  | VList l, VList m =>
      (fix go (l m : list value) {struct l} : bool :=
         match l, m with
         | [], [] => true
         | x :: l', y :: m' => py_eq x y && go l' m'
         | _, _ => false
         end) l m
  | VDict d, VDict e =>
      Nat.eqb (length d) (length e) &&
      (fix go (d : dict value) {struct d} : bool :=
         match d with
         | [] => true
         | (k, v) :: d' =>
             match dict_get k e with
             | Some w => py_eq v w
             | None => false
             end && go d'
         end) d
  | _, _ => false
  end.

Definition py_ne (a b : value) : bool := negb (py_eq a b).

(** * str() and repr() *)

Definition dquote : ascii := "034"%char.
Definition squote : ascii := "039"%char.
Definition backslash : ascii := "092"%char.
Definition newline : ascii := "010"%char.

Definition contains_char (c : ascii) (s : string) : bool :=
  existsb (Ascii.eqb c) (String.list_ascii_of_string s).

Definition hex_str (n : nat) (x : N) : string :=
  String.string_of_list_ascii (SHA256.hex_nibbles n (Z.of_N x)).

(** [repr(n)] of an [int]: decimal, with a sign for negative numbers *)
Definition int_repr (n : Z) : string := NilEmpty.string_of_int (Z.to_int n).

(** The code points from U+0080 on for which [str.isprintable] is false,
    as inclusive ranges: the categories Cc, Cf, Cs, Co, Cn, Zl, Zp and Zs
    of Unicode 14.0.0, the character database of CPython 3.11. *)
Definition nonprintable : list (N * N) :=
  Eval vm_compute in
  [ (128, 160); (173, 173); (888, 889); (896, 899); (907, 907); (909, 909); (930, 930);
    (1328, 1328); (1367, 1368); (1419, 1420); (1424, 1424); (1480, 1487); (1515, 1518);
    (1525, 1541); (1564, 1564); (1757, 1757); (1806, 1807); (1867, 1868); (1970, 1983);
    (2043, 2044); (2094, 2095); (2111, 2111); (2140, 2141); (2143, 2143); (2155, 2159);
    (2191, 2199); (2274, 2274); (2436, 2436); (2445, 2446); (2449, 2450); (2473, 2473);
    (2481, 2481); (2483, 2485); (2490, 2491); (2501, 2502); (2505, 2506); (2511, 2518);
    (2520, 2523); (2526, 2526); (2532, 2533); (2559, 2560); (2564, 2564); (2571, 2574);
    (2577, 2578); (2601, 2601); (2609, 2609); (2612, 2612); (2615, 2615); (2618, 2619);
    (2621, 2621); (2627, 2630); (2633, 2634); (2638, 2640); (2642, 2648); (2653, 2653);
    (2655, 2661); (2679, 2688); (2692, 2692); (2702, 2702); (2706, 2706); (2729, 2729);
    (2737, 2737); (2740, 2740); (2746, 2747); (2758, 2758); (2762, 2762); (2766, 2767);
    (2769, 2783); (2788, 2789); (2802, 2808); (2816, 2816); (2820, 2820); (2829, 2830);
    (2833, 2834); (2857, 2857); (2865, 2865); (2868, 2868); (2874, 2875); (2885, 2886);
    (2889, 2890); (2894, 2900); (2904, 2907); (2910, 2910); (2916, 2917); (2936, 2945);
    (2948, 2948); (2955, 2957); (2961, 2961); (2966, 2968); (2971, 2971); (2973, 2973);
    (2976, 2978); (2981, 2983); (2987, 2989); (3002, 3005); (3011, 3013); (3017, 3017);
    (3022, 3023); (3025, 3030); (3032, 3045); (3067, 3071); (3085, 3085); (3089, 3089);
    (3113, 3113); (3130, 3131); (3141, 3141); (3145, 3145); (3150, 3156); (3159, 3159);
    (3163, 3164); (3166, 3167); (3172, 3173); (3184, 3190); (3213, 3213); (3217, 3217);
    (3241, 3241); (3252, 3252); (3258, 3259); (3269, 3269); (3273, 3273); (3278, 3284);
    (3287, 3292); (3295, 3295); (3300, 3301); (3312, 3312); (3315, 3327); (3341, 3341);
    (3345, 3345); (3397, 3397); (3401, 3401); (3408, 3411); (3428, 3429); (3456, 3456);
    (3460, 3460); (3479, 3481); (3506, 3506); (3516, 3516); (3518, 3519); (3527, 3529);
    (3531, 3534); (3541, 3541); (3543, 3543); (3552, 3557); (3568, 3569); (3573, 3584);
    (3643, 3646); (3676, 3712); (3715, 3715); (3717, 3717); (3723, 3723); (3748, 3748);
    (3750, 3750); (3774, 3775); (3781, 3781); (3783, 3783); (3790, 3791); (3802, 3803);
    (3808, 3839); (3912, 3912); (3949, 3952); (3992, 3992); (4029, 4029); (4045, 4045);
    (4059, 4095); (4294, 4294); (4296, 4300); (4302, 4303); (4681, 4681); (4686, 4687);
    (4695, 4695); (4697, 4697); (4702, 4703); (4745, 4745); (4750, 4751); (4785, 4785);
    (4790, 4791); (4799, 4799); (4801, 4801); (4806, 4807); (4823, 4823); (4881, 4881);
    (4886, 4887); (4955, 4956); (4989, 4991); (5018, 5023); (5110, 5111); (5118, 5119);
    (5760, 5760); (5789, 5791); (5881, 5887); (5910, 5918); (5943, 5951); (5972, 5983);
    (5997, 5997); (6001, 6001); (6004, 6015); (6110, 6111); (6122, 6127); (6138, 6143);
    (6158, 6158); (6170, 6175); (6265, 6271); (6315, 6319); (6390, 6399); (6431, 6431);
    (6444, 6447); (6460, 6463); (6465, 6467); (6510, 6511); (6517, 6527); (6572, 6575);
    (6602, 6607); (6619, 6621); (6684, 6685); (6751, 6751); (6781, 6782); (6794, 6799);
    (6810, 6815); (6830, 6831); (6863, 6911); (6989, 6991); (7039, 7039); (7156, 7163);
    (7224, 7226); (7242, 7244); (7305, 7311); (7355, 7356); (7368, 7375); (7419, 7423);
    (7958, 7959); (7966, 7967); (8006, 8007); (8014, 8015); (8024, 8024); (8026, 8026);
    (8028, 8028); (8030, 8030); (8062, 8063); (8117, 8117); (8133, 8133); (8148, 8149);
    (8156, 8156); (8176, 8177); (8181, 8181); (8191, 8207); (8232, 8239); (8287, 8303);
    (8306, 8307); (8335, 8335); (8349, 8351); (8385, 8399); (8433, 8447); (8588, 8591);
    (9255, 9279); (9291, 9311); (11124, 11125); (11158, 11158); (11508, 11512);
    (11558, 11558); (11560, 11564); (11566, 11567); (11624, 11630); (11633, 11646);
    (11671, 11679); (11687, 11687); (11695, 11695); (11703, 11703); (11711, 11711);
    (11719, 11719); (11727, 11727); (11735, 11735); (11743, 11743); (11870, 11903);
    (11930, 11930); (12020, 12031); (12246, 12271); (12284, 12288); (12352, 12352);
    (12439, 12440); (12544, 12548); (12592, 12592); (12687, 12687); (12772, 12783);
    (12831, 12831); (42125, 42127); (42183, 42191); (42540, 42559); (42744, 42751);
    (42955, 42959); (42962, 42962); (42964, 42964); (42970, 42993); (43053, 43055);
    (43066, 43071); (43128, 43135); (43206, 43213); (43226, 43231); (43348, 43358);
    (43389, 43391); (43470, 43470); (43482, 43485); (43519, 43519); (43575, 43583);
    (43598, 43599); (43610, 43611); (43715, 43738); (43767, 43776); (43783, 43784);
    (43791, 43792); (43799, 43807); (43815, 43815); (43823, 43823); (43884, 43887);
    (44014, 44015); (44026, 44031); (55204, 55215); (55239, 55242); (55292, 63743);
    (64110, 64111); (64218, 64255); (64263, 64274); (64280, 64284); (64311, 64311);
    (64317, 64317); (64319, 64319); (64322, 64322); (64325, 64325); (64451, 64466);
    (64912, 64913); (64968, 64974); (64976, 65007); (65050, 65055); (65107, 65107);
    (65127, 65127); (65132, 65135); (65141, 65141); (65277, 65280); (65471, 65473);
    (65480, 65481); (65488, 65489); (65496, 65497); (65501, 65503); (65511, 65511);
    (65519, 65531); (65534, 65535); (65548, 65548); (65575, 65575); (65595, 65595);
    (65598, 65598); (65614, 65615); (65630, 65663); (65787, 65791); (65795, 65798);
    (65844, 65846); (65935, 65935); (65949, 65951); (65953, 65999); (66046, 66175);
    (66205, 66207); (66257, 66271); (66300, 66303); (66340, 66348); (66379, 66383);
    (66427, 66431); (66462, 66462); (66500, 66503); (66518, 66559); (66718, 66719);
    (66730, 66735); (66772, 66775); (66812, 66815); (66856, 66863); (66916, 66926);
    (66939, 66939); (66955, 66955); (66963, 66963); (66966, 66966); (66978, 66978);
    (66994, 66994); (67002, 67002); (67005, 67071); (67383, 67391); (67414, 67423);
    (67432, 67455); (67462, 67462); (67505, 67505); (67515, 67583); (67590, 67591);
    (67593, 67593); (67638, 67638); (67641, 67643); (67645, 67646); (67670, 67670);
    (67743, 67750); (67760, 67807); (67827, 67827); (67830, 67834); (67868, 67870);
    (67898, 67902); (67904, 67967); (68024, 68027); (68048, 68049); (68100, 68100);
    (68103, 68107); (68116, 68116); (68120, 68120); (68150, 68151); (68155, 68158);
    (68169, 68175); (68185, 68191); (68256, 68287); (68327, 68330); (68343, 68351);
    (68406, 68408); (68438, 68439); (68467, 68471); (68498, 68504); (68509, 68520);
    (68528, 68607); (68681, 68735); (68787, 68799); (68851, 68857); (68904, 68911);
    (68922, 69215); (69247, 69247); (69290, 69290); (69294, 69295); (69298, 69375);
    (69416, 69423); (69466, 69487); (69514, 69551); (69580, 69599); (69623, 69631);
    (69710, 69713); (69750, 69758); (69821, 69821); (69827, 69839); (69865, 69871);
    (69882, 69887); (69941, 69941); (69960, 69967); (70007, 70015); (70112, 70112);
    (70133, 70143); (70162, 70162); (70207, 70271); (70279, 70279); (70281, 70281);
    (70286, 70286); (70302, 70302); (70314, 70319); (70379, 70383); (70394, 70399);
    (70404, 70404); (70413, 70414); (70417, 70418); (70441, 70441); (70449, 70449);
    (70452, 70452); (70458, 70458); (70469, 70470); (70473, 70474); (70478, 70479);
    (70481, 70486); (70488, 70492); (70500, 70501); (70509, 70511); (70517, 70655);
    (70748, 70748); (70754, 70783); (70856, 70863); (70874, 71039); (71094, 71095);
    (71134, 71167); (71237, 71247); (71258, 71263); (71277, 71295); (71354, 71359);
    (71370, 71423); (71451, 71452); (71468, 71471); (71495, 71679); (71740, 71839);
    (71923, 71934); (71943, 71944); (71946, 71947); (71956, 71956); (71959, 71959);
    (71990, 71990); (71993, 71994); (72007, 72015); (72026, 72095); (72104, 72105);
    (72152, 72153); (72165, 72191); (72264, 72271); (72355, 72367); (72441, 72703);
    (72713, 72713); (72759, 72759); (72774, 72783); (72813, 72815); (72848, 72849);
    (72872, 72872); (72887, 72959); (72967, 72967); (72970, 72970); (73015, 73017);
    (73019, 73019); (73022, 73022); (73032, 73039); (73050, 73055); (73062, 73062);
    (73065, 73065); (73103, 73103); (73106, 73106); (73113, 73119); (73130, 73439);
    (73465, 73647); (73649, 73663); (73714, 73726); (74650, 74751); (74863, 74863);
    (74869, 74879); (75076, 77711); (77811, 77823); (78895, 82943); (83527, 92159);
    (92729, 92735); (92767, 92767); (92778, 92781); (92863, 92863); (92874, 92879);
    (92910, 92911); (92918, 92927); (92998, 93007); (93018, 93018); (93026, 93026);
    (93048, 93052); (93072, 93759); (93851, 93951); (94027, 94030); (94088, 94094);
    (94112, 94175); (94181, 94191); (94194, 94207); (100344, 100351); (101590, 101631);
    (101641, 110575); (110580, 110580); (110588, 110588); (110591, 110591);
    (110883, 110927); (110931, 110947); (110952, 110959); (111356, 113663);
    (113771, 113775); (113789, 113791); (113801, 113807); (113818, 113819);
    (113824, 118527); (118574, 118575); (118599, 118607); (118724, 118783);
    (119030, 119039); (119079, 119080); (119155, 119162); (119275, 119295);
    (119366, 119519); (119540, 119551); (119639, 119647); (119673, 119807);
    (119893, 119893); (119965, 119965); (119968, 119969); (119971, 119972);
    (119975, 119976); (119981, 119981); (119994, 119994); (119996, 119996);
    (120004, 120004); (120070, 120070); (120075, 120076); (120085, 120085);
    (120093, 120093); (120122, 120122); (120127, 120127); (120133, 120133);
    (120135, 120137); (120145, 120145); (120486, 120487); (120780, 120781);
    (121484, 121498); (121504, 121504); (121520, 122623); (122655, 122879);
    (122887, 122887); (122905, 122906); (122914, 122914); (122917, 122917);
    (122923, 123135); (123181, 123183); (123198, 123199); (123210, 123213);
    (123216, 123535); (123567, 123583); (123642, 123646); (123648, 124895);
    (124903, 124903); (124908, 124908); (124911, 124911); (124927, 124927);
    (125125, 125126); (125143, 125183); (125260, 125263); (125274, 125277);
    (125280, 126064); (126133, 126208); (126270, 126463); (126468, 126468);
    (126496, 126496); (126499, 126499); (126501, 126502); (126504, 126504);
    (126515, 126515); (126520, 126520); (126522, 126522); (126524, 126529);
    (126531, 126534); (126536, 126536); (126538, 126538); (126540, 126540);
    (126544, 126544); (126547, 126547); (126549, 126550); (126552, 126552);
    (126554, 126554); (126556, 126556); (126558, 126558); (126560, 126560);
    (126563, 126563); (126565, 126566); (126571, 126571); (126579, 126579);
    (126584, 126584); (126589, 126589); (126591, 126591); (126602, 126602);
    (126620, 126624); (126628, 126628); (126634, 126634); (126652, 126703);
    (126706, 126975); (127020, 127023); (127124, 127135); (127151, 127152);
    (127168, 127168); (127184, 127184); (127222, 127231); (127406, 127461);
    (127491, 127503); (127548, 127551); (127561, 127567); (127570, 127583);
    (127590, 127743); (128728, 128732); (128749, 128751); (128765, 128767);
    (128884, 128895); (128985, 128991); (129004, 129007); (129009, 129023);
    (129036, 129039); (129096, 129103); (129114, 129119); (129160, 129167);
    (129198, 129199); (129202, 129279); (129620, 129631); (129646, 129647);
    (129653, 129655); (129661, 129663); (129671, 129679); (129709, 129711);
    (129723, 129727); (129734, 129743); (129754, 129759); (129768, 129775);
    (129783, 129791); (129939, 129939); (129995, 130031); (130042, 131071);
    (173792, 173823); (177977, 177983); (178206, 178207); (183970, 183983);
    (191457, 194559); (195102, 196607); (201547, 917759); (918000, 1114111) ]%N.

Definition isprintable (cp : N) : bool :=
  negb (existsb (fun r : N * N => N.leb r.1 cp && N.leb cp r.2) nonprintable).

(** The payload of a continuation byte of UTF-8 *)
Definition continuation (c : ascii) : option N :=
  let n := N_of_ascii c in
  if N.leb 0x80 n && N.leb n 0xBF then Some (n - 0x80)%N else None.

(** The character at the head of [s]: its code point and the number of
    bytes it is written on.  A surrogate is read from its three bytes like
    any character of that length; a byte that begins no sequence stands for
    itself. *)
Definition decode_char (s : string) : N * nat :=
  match s with
  | "" => (0%N, 0)
  | String a rest =>
      let n := N_of_ascii a in
      match rest with
      | String b rest1 =>
          match continuation b with
          | Some x =>
              if N.leb 0xC2 n && N.leb n 0xDF then (((n - 0xC0) * 64 + x)%N, 2)
              else
                match rest1 with
                | String c rest2 =>
                    match continuation c with
                    | Some y =>
                        if N.leb 0xE0 n && N.leb n 0xEF
                        then ((((n - 0xE0) * 64 + x) * 64 + y)%N, 3)
                        else
                          match rest2 with
                          | String d _ =>
                              match continuation d with
                              | Some z =>
                                  if N.leb 0xF0 n && N.leb n 0xF4
                                  then (((((n - 0xF0) * 64 + x) * 64 + y) * 64 + z)%N, 4)
                                  else (n, 1)
                              | None => (n, 1)
                              end
                          | "" => (n, 1)
                          end
                    | None => (n, 1)
                    end
                | "" => (n, 1)
                end
          | None => (n, 1)
          end
      | "" => (n, 1)
      end
  end.

(** One ASCII character of [repr(s)] inside the quote [q] *)
Definition repr_char (q c : ascii) : string :=
  let n := N_of_ascii c in
  if Ascii.eqb c q || Ascii.eqb c backslash then String backslash (String c "")
  else if N.eqb n 9 then String backslash "t"
  else if N.eqb n 10 then String backslash "n"
  else if N.eqb n 13 then String backslash "r"
  else if N.ltb n 32 || N.eqb n 127 then String backslash ("x" +:+ hex_str 2 n)
  else String c "".

(** The escape of a character that is not printable *)
Definition escape_code (cp : N) : string :=
  String backslash
    (if N.leb cp 0xFF then "x" +:+ hex_str 2 cp
     else if N.leb cp 0xFFFF then "u" +:+ hex_str 4 cp
     else "U" +:+ hex_str 8 cp).

(** The characters of [repr(s)] inside the quote [q].  A printable
    character that is not ASCII is copied, another one is escaped; [skip]
    counts the bytes that are left of the character being read, which are
    copied when [copy] holds and dropped otherwise. *)
Fixpoint repr_chars (q : ascii) (copy : bool) (skip : nat) (s : string) : string :=
  match s with
  | "" => ""
  | String c s' =>
      match skip with
      | S k => (if copy then String c "" else "") +:+ repr_chars q copy k s'
      | O =>
          if N.ltb (N_of_ascii c) 0x80 then repr_char q c +:+ repr_chars q true 0 s'
          else
            let '(cp, len) := decode_char s in
            if isprintable cp then String c (repr_chars q true (len - 1) s')
            else escape_code cp +:+ repr_chars q false (len - 1) s'
      end
  end.

Definition repr_str (s : string) : string :=
  let q := if contains_char squote s && negb (contains_char dquote s)
           then dquote else squote in
  String q (repr_chars q true 0 s +:+ String q "").

Fixpoint join (sep : string) (l : list string) : string :=
  match l with
  | [] => ""
  | [s] => s
  | s :: l' => s +:+ sep +:+ join sep l'
  end.

Fixpoint py_repr (v : value) : string :=
  match v with
  | VNone => "None"
  | VBool true => "True"
  | VBool false => "False"
  | VInt n => int_repr n
  | VFloat x => Float.repr x
  | VStr s => repr_str s
  | VList l => "[" +:+ join ", " (map py_repr l) +:+ "]"
  | VDict d =>
      "{" +:+ join ", " (map (fun kv => repr_str (fst kv) +:+ ": " +:+ py_repr (snd kv)) d)
      +:+ "}"
  end.

(** [str(v)] *)
Definition py_str (v : value) : string :=
  match v with
  | VStr s => s
  | _ => py_repr v
  end.

(** * json.dumps(obj, indent=2, ensure_ascii=False) and json.loads *)

Module Json.

(** ** Encoder *)

(** The replacement of one character by [encode_basestring]: the quote, the
    backslash and the control characters below 0x20 are escaped. *)
Definition escape_char (c : ascii) : string :=
  let n := N_of_ascii c in
  if Ascii.eqb c dquote || Ascii.eqb c backslash then String backslash (String c "")
  else if N.eqb n 8 then String backslash "b"
  else if N.eqb n 12 then String backslash "f"
  else if N.eqb n 10 then String backslash "n"
  else if N.eqb n 13 then String backslash "r"
  else if N.eqb n 9 then String backslash "t"
  else if N.ltb n 32 then String backslash ("u" +:+ hex_str 4 n)
  else String c "".

Fixpoint escape (s : string) : string :=
  match s with
  | "" => ""
  | String c s' => escape_char c +:+ escape s'
  end.

Definition encode_basestring (s : string) : string :=
  String dquote (escape s +:+ String dquote "").

Fixpoint spaces (n : nat) : string :=
  match n with
  | O => ""
  | S n' => String " " (spaces n')
  end.

(** A line break followed by the indentation of nesting depth [level] *)
Definition newline_indent (level : nat) : string :=
  String newline (spaces (2 * level)).

(** The rest of a non-empty list after its first element, and the rest of
    a non-empty dictionary after its first member; [enc] encodes a value
    one level deeper. *)
Section Containers.
Variable enc : value -> string.
Variable level : nat.

Fixpoint encode_items (l : list value) : string :=
  match l with
  | [] => newline_indent level +:+ "]"
  | y :: l' => "," +:+ newline_indent (S level) +:+ enc y +:+ encode_items l'
  end.

Fixpoint encode_members (d : dict value) : string :=
  match d with
  | [] => newline_indent level +:+ "}"
  | (k, y) :: d' =>
      "," +:+ newline_indent (S level) +:+ encode_basestring k +:+ ": " +:+ enc y
      +:+ encode_members d'
  end.

End Containers.

Fixpoint encode (level : nat) (v : value) : string :=
  match v with
  | VNone => "null"
  | VBool true => "true"
  | VBool false => "false"
  | VInt n => int_repr n
  | VFloat x => Float.json x
  | VStr s => encode_basestring s
  | VList [] => "[]"
  | VList (x :: l) =>
      "[" +:+ newline_indent (S level) +:+ encode (S level) x
      +:+ encode_items (encode (S level)) level l
  | VDict [] => "{}"
  | VDict ((k, x) :: d) =>
      "{" +:+ newline_indent (S level) +:+ encode_basestring k +:+ ": "
      +:+ encode (S level) x +:+ encode_members (encode (S level)) level d
  end.

Definition dumps (v : value) : string := encode 0 v.

(** ** Decoder *)

Definition is_ws (c : ascii) : bool :=
  let n := N_of_ascii c in
  N.eqb n 32 || N.eqb n 9 || N.eqb n 10 || N.eqb n 13.

Fixpoint skip_ws (s : string) : string :=
  match s with
  | String c s' => if is_ws c then skip_ws s' else s
  | "" => ""
  end.

Definition is_digit (c : ascii) : bool :=
  let n := N_of_ascii c in N.leb 48 n && N.leb n 57.

Fixpoint strip_prefix (p s : string) : option string :=
  match p, s with
  | "", _ => Some s
  | String a p', String b s' => if Ascii.eqb a b then strip_prefix p' s' else None
  | _, _ => None
  end.

Definition hex_value (c : ascii) : option N :=
  let n := N_of_ascii c in
  if N.leb 48 n && N.leb n 57 then Some (n - 48)%N
  else if N.leb 97 n && N.leb n 102 then Some (n - 87)%N
  else if N.leb 65 n && N.leb n 70 then Some (n - 55)%N
  else None.

(** Four hexadecimal digits at the head of [s] *)
Definition hex4 (s : string) : option (N * string) :=
  match s with
  | String a (String b (String c (String d rest))) =>
      match hex_value a, hex_value b, hex_value c, hex_value d with
      | Some x, Some y, Some z, Some w => Some (((x * 16 + y) * 16 + z) * 16 + w, rest)%N
      | _, _, _, _ => None
      end
  | _ => None
  end.

Definition byte_str (n : N) : string := String (ascii_of_N n) "".

(** The UTF-8 bytes of the code point [cp] (a surrogate that stays alone is
    written on three bytes like any other code point of its range). *)
Definition utf8_of_code (cp : N) : string :=
  if N.ltb cp 0x80 then byte_str cp
  else if N.ltb cp 0x800 then
    byte_str (0xC0 + cp / 64) +:+ byte_str (0x80 + cp mod 64)
  else if N.ltb cp 0x10000 then
    byte_str (0xE0 + cp / 4096) +:+ byte_str (0x80 + (cp / 64) mod 64)
    +:+ byte_str (0x80 + cp mod 64)
  else
    byte_str (0xF0 + cp / 262144) +:+ byte_str (0x80 + (cp / 4096) mod 64)
    +:+ byte_str (0x80 + (cp / 64) mod 64) +:+ byte_str (0x80 + cp mod 64).

(** What follows a backslash inside a string: the decoded characters and
    the rest of the input. *)
Definition scan_escape (s : string) : res (string * string) :=
  match s with
  | "" => Raise JSONDecodeError
  | String c rest =>
      let n := N_of_ascii c in
      if Ascii.eqb c dquote then Ok (String dquote "", rest)
      else if Ascii.eqb c backslash then Ok (String backslash "", rest)
      else if Ascii.eqb c "/" then Ok ("/", rest)
      else if Ascii.eqb c "b" then Ok (byte_str 8, rest)
      else if Ascii.eqb c "f" then Ok (byte_str 12, rest)
      else if Ascii.eqb c "n" then Ok (byte_str 10, rest)
      else if Ascii.eqb c "r" then Ok (byte_str 13, rest)
      else if Ascii.eqb c "t" then Ok (byte_str 9, rest)
      else if Ascii.eqb c "u" then
        match hex4 rest with
        | None => Raise JSONDecodeError
        | Some (uni, rest') =>
            if N.leb 0xD800 uni && N.leb uni 0xDBFF && Nat.ltb 6 (String.length rest') then
              match strip_prefix (String backslash "u") rest' with
              | Some rest2 =>
                  match hex4 rest2 with
                  | None => Raise JSONDecodeError
                  | Some (uni2, rest3) =>
                      if N.leb 0xDC00 uni2 && N.leb uni2 0xDFFF
                      then Ok (utf8_of_code (0x10000 + (uni - 0xD800) * 1024 + (uni2 - 0xDC00)),
                               rest3)
                      else Ok (utf8_of_code uni, rest')
                  end
              | None => Ok (utf8_of_code uni, rest')
              end
            else Ok (utf8_of_code uni, rest')
        end
      else Raise JSONDecodeError
  end.

(** The body of a string after its opening quote, up to the closing one
    (strict mode: a raw control character is an error). *)
Fixpoint scanstring (fuel : nat) (s : string) : res (string * string) :=
  match fuel with
  | O => Raise JSONDecodeError
  | S fuel' =>
      match s with
      | "" => Raise JSONDecodeError
      | String c s' =>
          if Ascii.eqb c dquote then Ok ("", s')
          else if Ascii.eqb c backslash then
            do cr <- scan_escape s';
            do sr <- scanstring fuel' (snd cr);
            Ok (fst cr +:+ fst sr, snd sr)
          else if N.ltb (N_of_ascii c) 32 then Raise JSONDecodeError
          else
            do sr <- scanstring fuel' s';
            Ok (String c (fst sr), snd sr)
      end
  end.

(** The longest prefix of digits and what follows it *)
Fixpoint span_digits (s : string) : string * string :=
  match s with
  | String c s' =>
      if is_digit c then let '(ds, rest) := span_digits s' in (String c ds, rest)
      else ("", s)
  | "" => ("", "")
  end.

(** Does a fraction or an exponent follow the integer part? *)
Definition float_tail (s : string) : bool :=
  match s with
  | String c (String d rest) =>
      if Ascii.eqb c "." then is_digit d
      else if Ascii.eqb c "e" || Ascii.eqb c "E" then
        if Ascii.eqb d "+" || Ascii.eqb d "-"
        then match rest with String e _ => is_digit e | "" => false end
        else is_digit d
      else false
  | _ => false
  end.

(** The digits of a fraction, when [s] starts with a point and a digit *)
Definition scan_frac (s : string) : string * string :=
  match s with
  | String c (String d _ as s') =>
      if Ascii.eqb c "." && is_digit d then span_digits s' else ("", s)
  | _ => ("", s)
  end.

(** The exponent, when [s] starts with e or E, an optional sign and a
    digit: whether it is negative, and its digits. *)
Definition scan_exp (s : string) : option (bool * string) * string :=
  match s with
  | String c s1 =>
      if Ascii.eqb c "e" || Ascii.eqb c "E" then
        let '(neg, s2) :=
          match s1 with
          | String d s2 =>
              if Ascii.eqb d "-" then (true, s2)
              else if Ascii.eqb d "+" then (false, s2)
              else (false, s1)
          | "" => (false, s1)
          end in
        match span_digits s2 with
        | ("", _) => (None, s)
        | (ds, rest) => (Some (neg, ds), rest)
        end
      else (None, s)
  | "" => (None, s)
  end.

(** The number written with the decimal digits [ds] *)
Definition digits_value (ds : string) : Z :=
  match NilEmpty.uint_of_string ds with
  | Some u => Z.of_uint u
  | None => 0%Z
  end.

(** [float(text)] for the text made of a sign, the digits [ds] of the
    integer part, the digits [fs] of the fraction and the exponent [ex] *)
Definition float_of_parts (neg : bool) (ds fs : string) (ex : option (bool * string))
  : Float.t :=
  let e := match ex with
           | Some (eneg, es) => if eneg then (- digits_value es)%Z else digits_value es
           | None => 0%Z
           end in
  Float.of_decimal neg (digits_value (ds +:+ fs)) (e - Z.of_nat (String.length fs))%Z.

(** A number literal: an optional minus sign, then either a single 0 or a
    non-zero digit and further digits, then an optional fraction and an
    optional exponent.  With a fraction or an exponent the number is a
    [float], otherwise an [int]. *)
Definition scan_number (s : string) : res (value * string) :=
  let '(neg, s1) :=
    match s with
    | String c s' => if Ascii.eqb c "-" then (true, s') else (false, s)
    | "" => (false, s)
    end in
  match s1 with
  | String c s2 =>
      if is_digit c then
        let '(ds, rest) := if Ascii.eqb c "0" then ("0", s2) else span_digits s1 in
        if float_tail rest then
          let '(fs, rest1) := scan_frac rest in
          let '(ex, rest2) := scan_exp rest1 in
          Ok (VFloat (float_of_parts neg ds fs ex), rest2)
        else
          match NilEmpty.uint_of_string ds with
          | Some u => Ok (VInt (if neg : bool then - Z.of_uint u else Z.of_uint u)%Z, rest)
          | None => Raise JSONDecodeError
          end
      else Raise JSONDecodeError
  | "" => Raise JSONDecodeError
  end.

(** The constants that are no JSON but that [json.loads] reads *)
Definition scan_constant (s : string) : res (value * string) :=
  match strip_prefix "NaN" s with
  | Some rest => Ok (VFloat Float.Nan, rest)
  | None =>
      match strip_prefix "Infinity" s with
      | Some rest => Ok (VFloat (Float.Inf false), rest)
      | None =>
          match strip_prefix "-Infinity" s with
          | Some rest => Ok (VFloat (Float.Inf true), rest)
          | None => Raise JSONDecodeError
          end
      end
  end.

(** [scan_once] with the loops of [JSONArray] and [JSONObject].
    [scan_items] runs after an element of an array was read into [acc],
    [scan_members] after a member of an object was. *)
Fixpoint scan_once (fuel : nat) (s : string) : res (value * string) :=
  match fuel with
  | O => Raise JSONDecodeError
  | S fuel' =>
      match s with
      | "" => Raise JSONDecodeError
      | String c s' =>
          if Ascii.eqb c dquote then
            do sr <- scanstring (S (String.length s')) s';
            Ok (VStr (fst sr), snd sr)
          else if Ascii.eqb c "{" then
            match skip_ws s' with
            | String c1 s1 =>
                if Ascii.eqb c1 "}" then Ok (VDict [], s1)
                else if Ascii.eqb c1 dquote then scan_member fuel' s1 []
                else Raise JSONDecodeError
            | "" => Raise JSONDecodeError
            end
          else if Ascii.eqb c "[" then
            match skip_ws s' with
            | String c1 s1 =>
                if Ascii.eqb c1 "]" then Ok (VList [], s1)
                else scan_item fuel' (String c1 s1) []
            | "" => Raise JSONDecodeError
            end
          else if Ascii.eqb c "n" then
            match strip_prefix "ull" s' with
            | Some rest => Ok (VNone, rest)
            | None => Raise JSONDecodeError
            end
          else if Ascii.eqb c "t" then
            match strip_prefix "rue" s' with
            | Some rest => Ok (VBool true, rest)
            | None => Raise JSONDecodeError
            end
          else if Ascii.eqb c "f" then
            match strip_prefix "alse" s' with
            | Some rest => Ok (VBool false, rest)
            | None => Raise JSONDecodeError
            end
          else
            match scan_number s with
            | Ok vr => Ok vr
            | Raise _ => scan_constant s
            end
      end
  end

(** an element of an array at the head of [s]; [acc] holds the earlier ones *)
with scan_item (fuel : nat) (s : string) (acc : list value) : res (value * string) :=
  match fuel with
  | O => Raise JSONDecodeError
  | S fuel' =>
      do vr <- scan_once fuel' s;
      match skip_ws (snd vr) with
      | String c rest =>
          if Ascii.eqb c "]" then Ok (VList (acc ++ [fst vr]), rest)
          else if Ascii.eqb c "," then scan_item fuel' (skip_ws rest) (acc ++ [fst vr])
          else Raise JSONDecodeError
      | "" => Raise JSONDecodeError
      end
  end

(** a member of an object, [s] starting after the opening quote of its key;
    [acc] is the dictionary built from the earlier members *)
with scan_member (fuel : nat) (s : string) (acc : dict value) : res (value * string) :=
  match fuel with
  | O => Raise JSONDecodeError
  | S fuel' =>
      do kr <- scanstring (S (String.length s)) s;
      match skip_ws (snd kr) with
      | String c s1 =>
          if Ascii.eqb c ":" then
            do vr <- scan_once fuel' (skip_ws s1);
            let acc' := dict_set (fst kr) (fst vr) acc in
            match skip_ws (snd vr) with
            | String c2 s2 =>
                if Ascii.eqb c2 "}" then Ok (VDict acc', s2)
                else if Ascii.eqb c2 "," then
                  match skip_ws s2 with
                  | String c3 s3 =>
                      if Ascii.eqb c3 dquote then scan_member fuel' s3 acc'
                      else Raise JSONDecodeError
                  | "" => Raise JSONDecodeError
                  end
                else Raise JSONDecodeError
            | "" => Raise JSONDecodeError
            end
          else Raise JSONDecodeError
      | "" => Raise JSONDecodeError
      end
  end.

(** [json.loads(text)]: one value between optional whitespace, nothing
    after it; a leading byte order mark is refused. *)
Definition loads (text : string) : res value :=
  match strip_prefix (byte_str 0xEF +:+ byte_str 0xBB +:+ byte_str 0xBF) text with
  | Some _ => Raise JSONDecodeError
  | None =>
      do vr <- scan_once (2 * String.length text + 2) (skip_ws text);
      match skip_ws (snd vr) with
      | "" => Ok (fst vr)
      | String _ _ => Raise JSONDecodeError
      end
  end.

End Json.

(** * llp.core.models *)

Record Evidence : Type := mkEvidence {
  source : string;
  key : string;
  value_ : value;
}.

Record Finding : Type := mkFinding {
  check_id : string;
  title : string;
  severity : string;
  description : string;
  evidence : list Evidence;
  remediation : option string;
  references : list string;
}.

(** [e.__dict__] *)
Definition evidence_dict (e : Evidence) : value :=
  VDict [("source", VStr (source e)); ("key", VStr (key e)); ("value", value_ e)].

Definition to_dict (f : Finding) : value :=
  VDict
    [ ("check_id", VStr (check_id f));
      ("title", VStr (title f));
      ("severity", VStr (severity f));
      ("description", VStr (description f));
      ("evidence", VList (map evidence_dict (evidence f)));
      ("remediation", match remediation f with Some s => VStr s | None => VNone end);
      ("references", VList (map VStr (references f))) ].

(** * llp.core.baseline *)

(** The loop of [_stable_id] collecting the anchors. *)
Fixpoint collect_anchors (ev : list Evidence) (anchors : list string) : list string :=
  match ev with
  | [] => anchors
  | e :: ev' =>
      if String.eqb (key e) "FragmentPath" || String.eqb (key e) "path"
      then collect_anchors ev' (anchors ++ [py_str (value_ e)])
      else collect_anchors ev' anchors
  end.

(** [s[:n]] *)
Fixpoint str_take (n : nat) (s : string) : string :=
  match n, s with
  | S n', String c s' => String c (str_take n' s')
  | _, _ => ""
  end.

(** [_stable_id] on a finding whose strings can be encoded *)
Definition _stable_id (f : Finding) : string :=
  let anchors := collect_anchors (evidence f) [] in
  let anchor := match anchors with a :: _ => a | [] => title f end in
  let raw := check_id f +:+ "|" +:+ anchor in
  str_take 16 (sha256_hex raw).

(** Does [s] hold a surrogate, U+D800 to U+DFFF?  Its three bytes are
    0xED, a byte from 0xA0 to 0xBF and a continuation byte, and no other
    character has a byte from 0xA0 on after 0xED. *)
Fixpoint has_surrogate (s : string) : bool :=
  match s with
  | String a (String b _ as s') =>
      (N.eqb (N_of_ascii a) 0xED && N.leb 0xA0 (N_of_ascii b) && N.leb (N_of_ascii b) 0xBF)
      || has_surrogate s'
  | _ => false
  end.

(** The functions with the exception of [str.encode]: a string that holds
    a surrogate has no UTF-8 encoding. *)
Module Strict.

(** [s.encode("utf-8")] *)
Definition encode_utf8 (s : string) : res (list Z) :=
  if has_surrogate s then Raise UnicodeEncodeError
  else Ok (map (fun c => Z.of_N (N_of_ascii c)) (String.list_ascii_of_string s)).

Definition _stable_id (f : Finding) : res string :=
  let anchors := collect_anchors (evidence f) [] in
  let anchor := match anchors with a :: _ => a | [] => title f end in
  let raw := check_id f +:+ "|" +:+ anchor in
  do bytes <- encode_utf8 raw;
  Ok (str_take 16 (SHA256.hexdigest bytes)).

End Strict.

Record Baseline : Type := mkBaseline {
  version : value;
  findings : value;
}.

(** [Baseline.to_json] *)
Definition to_json (b : Baseline) : string :=
  Json.dumps (VDict [("version", version b); ("findings", findings b)]).

(** [Baseline.from_json] *)
Definition from_json (text : string) : res Baseline :=
  do obj <- Json.loads text;
  do ver <- py_get_default obj "version" (VStr "unknown");
  do fnd <- py_get_default obj "findings" (VDict []);
  Ok (mkBaseline ver fnd).

Definition make_baseline (fs : list Finding) (ver : value) : Baseline :=
  let mapped :=
    fold_left (fun (mapped : dict value) f => dict_set (_stable_id f) (to_dict f) mapped)
              fs [] in
  mkBaseline ver (VDict mapped).

(** [sorted(ids)] for a set of strings *)
Definition sorted (ids : gset string) : list string :=
  merge_sort String.le (elements ids).

Record Diff : Type := mkDiff {
  added : list value;
  removed : list value;
  changed : list value;
}.

(** The body of the loop that builds [changed]. *)
Definition changed_step (old_f new_f : value) (changed : list value) (i : string)
  : res (list value) :=
  do o <- py_getitem old_f i;
  do n <- py_getitem new_f i;
  do os <- py_get o "severity";
  do ns <- py_get n "severity";
  do differs <-
    (if py_ne os ns then Ok true
     else do od <- py_get o "description";
          do nd <- py_get n "description";
          Ok (py_ne od nd));
  if differs : bool
  then Ok (changed ++ [VDict [("id", VStr i); ("old", o); ("new", n)]])
  else Ok changed.

Fixpoint changed_loop (old_f new_f : value) (ids : list string) (changed : list value)
  : res (list value) :=
  match ids with
  | [] => Ok changed
  | i :: ids' =>
      do changed' <- changed_step old_f new_f changed i;
      changed_loop old_f new_f ids' changed'
  end.

(** The local variables of [diff_baseline] when it returns: the baseline
    built from the new findings, the two identifier sets, and the
    dictionary that is returned. *)
Record DiffFrame : Type := mkDiffFrame {
  new_base : Baseline;
  old_ids : gset string;
  new_ids : gset string;
  result : Diff;
}.

(** The body of [diff_baseline], run to its [return] *)
Definition diff_baseline_frame (old : Baseline) (new_findings : list Finding)
  : res DiffFrame :=
  let new_base := make_baseline new_findings (version old) in
  do old_keys <- py_keys (findings old);
  do new_keys <- py_keys (findings new_base);
  let old_ids : gset string := list_to_set old_keys in
  let new_ids : gset string := list_to_set new_keys in
  do added <- mapM (py_getitem (findings new_base)) (sorted (new_ids ∖ old_ids));
  do removed <- mapM (py_getitem (findings old)) (sorted (old_ids ∖ new_ids));
  do changed <- changed_loop (findings old) (findings new_base) (sorted (old_ids ∩ new_ids)) [];
  Ok (mkDiffFrame new_base old_ids new_ids (mkDiff added removed changed)).

Definition diff_baseline (old : Baseline) (new_findings : list Finding) : res Diff :=
  do frame <- diff_baseline_frame old new_findings;
  Ok (result frame).

(** * Python string methods used by the checks *)

Module PyStr.

(** [s.startswith(p)] *)
Fixpoint startswith (p s : string) : bool :=
  match p, s with
  | "", _ => true
  | String a p', String b s' => Ascii.eqb a b && startswith p' s'
  | String _ _, "" => false
  end.

(** [needle in hay] *)
Fixpoint contains (needle hay : string) : bool :=
  startswith needle hay ||
  match hay with
  | "" => false
  | String _ hay' => contains needle hay'
  end.

(** [s.split(sep, 1)[0]] for a non-empty [sep]: the text before the first
    occurrence of [sep], all of [s] when there is none *)
Fixpoint before (sep s : string) : string :=
  if startswith sep s then ""
  else match s with
       | "" => ""
       | String c s' => String c (before sep s')
       end.

(** The text after the first occurrence of [sep]: [s[s.find(sep) + len(sep):]]
    and [s.split(sep, 1)[1]], when [sep] occurs *)
Fixpoint after (sep s : string) : option string :=
  match Json.strip_prefix sep s with
  | Some rest => Some rest
  | None => match s with
            | "" => None
            | String _ s' => after sep s'
            end
  end.


Definition bytes (l : list N) : string :=
  String.string_of_list_ascii (map ascii_of_N l).

(** The characters for which [str.isspace] holds, as UTF-8 byte
    sequences: U+0009 to U+000D, U+001C to U+0020, U+0085, U+00A0, U+1680,
    U+2000 to U+200A, U+2028, U+2029, U+202F, U+205F, U+3000. *)
Definition whitespace : list string :=
  Eval vm_compute in
    map bytes
      ([[0x09]; [0x0A]; [0x0B]; [0x0C]; [0x0D]; [0x1C]; [0x1D]; [0x1E]; [0x1F]; [0x20];
        [0xC2; 0x85]; [0xC2; 0xA0]; [0xE1; 0x9A; 0x80]]
       ++ map (fun b => [0xE2; 0x80; b]) [0x80; 0x81; 0x82; 0x83; 0x84; 0x85; 0x86; 0x87;
                                         0x88; 0x89; 0x8A; 0xA8; 0xA9; 0xAF]
       ++ [[0xE2; 0x81; 0x9F]; [0xE3; 0x80; 0x80]])%N.

(** The line boundaries of [str.splitlines], the pair CR LF first: CR LF,
    LF, VT, FF, CR, FS, GS, RS, U+0085, U+2028, U+2029. *)
Definition line_breaks : list string :=
  Eval vm_compute in
    map bytes [[0x0D; 0x0A]; [0x0A]; [0x0B]; [0x0C]; [0x0D]; [0x1C]; [0x1D]; [0x1E];
               [0xC2; 0x85]; [0xE2; 0x80; 0xA8]; [0xE2; 0x80; 0xA9]]%N.

(** The rest of [s] after the first of the [marks] that [s] starts with *)
Fixpoint strip_first (marks : list string) (s : string) : option string :=
  match marks with
  | [] => None
  | m :: marks' =>
      match Json.strip_prefix m s with
      | Some rest => Some rest
      | None => strip_first marks' s
      end
  end.

(** [s.lstrip()] *)
Fixpoint lstrip_fuel (fuel : nat) (s : string) : string :=
  match fuel with
  | O => s
  | S fuel' =>
      match strip_first whitespace s with
      | Some rest => lstrip_fuel fuel' rest
      | None => s
      end
  end.

Definition lstrip (s : string) : string := lstrip_fuel (String.length s) s.

(** [s.rstrip()]: the whitespace characters are looked for, bytes reversed,
    at the head of the reversed string. *)
Fixpoint rstrip_fuel (fuel : nat) (r : string) : string :=
  match fuel with
  | O => r
  | S fuel' =>
      match strip_first (map String.rev whitespace) r with
      | Some rest => rstrip_fuel fuel' rest
      | None => r
      end
  end.

Definition rstrip (s : string) : string :=
  String.rev (rstrip_fuel (String.length s) (String.rev s)).

(** [s.strip()] *)
Definition strip (s : string) : string := rstrip (lstrip s).

(** [s.split()]: the maximal runs of characters that are no whitespace.
    [cur] is the run being read, if any. *)
Fixpoint split_ws_fuel (fuel : nat) (cur : option string) (s : string) : list string :=
  match fuel with
  | O => option_list (String.rev <$> cur)
  | S fuel' =>
      match s with
      | "" => option_list (String.rev <$> cur)
      | String c s' =>
          match strip_first whitespace s with
          | Some rest => option_list (String.rev <$> cur) ++ split_ws_fuel fuel' None rest
          | None => split_ws_fuel fuel' (Some (String c (default "" cur))) s'
          end
      end
  end.

Definition split_ws (s : string) : list string :=
  split_ws_fuel (String.length s) None s.

(** [s.splitlines()]; [cur] is the line being read, reversed. *)
Fixpoint splitlines_fuel (fuel : nat) (cur : string) (s : string) : list string :=
  match fuel with
  | O => if String.eqb cur "" then [] else [String.rev cur]
  | S fuel' =>
      match s with
      | "" => if String.eqb cur "" then [] else [String.rev cur]
      | String c s' =>
          match strip_first line_breaks s with
          | Some rest => String.rev cur :: splitlines_fuel fuel' "" rest
          | None => splitlines_fuel fuel' (String c cur) s'
          end
      end
  end.

Definition splitlines (s : string) : list string :=
  splitlines_fuel (String.length s) "" s.


End PyStr.

(** * The checks (llp.checks) and the output (llp.core.output, llp.cli)

    What a check reads from the system (file contents, process table, the
    answers of [systemctl]) is an argument of its model.  [str.lower] and
    [str.upper] depend on the Unicode case tables; they are arguments too,
    so every statement holds for any such function. *)

(** A heuristic flag: a severity and a reason *)
Definition flag : Type := string * string.

(** [rank[s]] for the table [{"info": 0, "low": 1, "medium": 2, "high": 3}] *)
Definition rank (s : string) : option nat :=
  if String.eqb s "info" then Some 0
  else if String.eqb s "low" then Some 1
  else if String.eqb s "medium" then Some 2
  else if String.eqb s "high" then Some 3
  else None.

(** [max(iterable, key=key)] on a sequence with first element [x]: the first
    element whose key is maximal *)
Definition max_by {A : Type} (key : A -> nat) (x : A) (rest : list A) : A :=
  fold_left (fun best y => if key best <? key y then y else best) rest x.

(** [max((s for s, _ in flags), key=lambda s: rank[s])] for the non-empty
    list [fl :: flags]; a severity outside the table raises [KeyError]. *)
Definition max_severity (fl : flag) (flags : list flag) : res string :=
  do keyed <- mapM (fun f : flag =>
                      match rank f.1 with
                      | Some r => Ok (f.1, r)
                      | None => Raise KeyError
                      end) (fl :: flags);
  match keyed with
  | k :: ks => Ok (max_by snd k ks).1
  | [] => Raise KeyError
  end.

(** The first hint, in table order, that the test accepts: the loops of the
    form [for hint in HINTS: if test(hint): ...; break] *)
Definition first_hint (test : string -> bool) (hints : list string) : option string :=
  find test hints.

(** ["\n".join(lines)] *)
Definition join_lines (lines : list string) : string := join (String newline "") lines.

Module Cron.

Definition SUSPICIOUS_PATH_HINTS : list string :=
  ["/tmp/"; "/dev/shm/"; "/var/tmp/"; "/run/user/"; "/.cache/"; "/.local/share/"].

Record CronArtifact : Type := mkCronArtifact {
  kind : string;
  path : string;
  owner : option string;
}.

Section WithLower.
Variable lower : string -> string.

Definition _looks_suspicious (text : string) : list flag :=
  let lowered := lower text in
  let flags : list flag := [] in
  let flags :=
    if PyStr.contains "http://" lowered || PyStr.contains "https://" lowered
    then flags ++ [("medium",
                    "Cron content includes URL(s); review for unexpected network retrieval.")]
    else flags in
  let flags :=
    match first_hint (fun hint => PyStr.contains hint text) SUSPICIOUS_PATH_HINTS with
    | Some hint =>
        flags ++ [("medium", "Cron references potentially risky location: " +:+ hint)]
    | None => flags
    end in
  let flags :=
    if PyStr.contains "base64" lowered
    then flags ++ [("low", "Cron content references 'base64'; verify intent and source.")]
    else flags in
  let flags :=
    if PyStr.contains "/." text
    then flags ++ [("low",
                    "Cron references hidden path(s) (dot-files/dirs); verify intent.")]
    else flags in
  flags.

(** [rank.get(s, 0)] *)
Definition rank_or_zero (s : string) : nat := default 0 (rank s).

Definition _severity_from (flags : list flag) : string :=
  match flags with
  | [] => "info"
  | fl :: flags' => max_by rank_or_zero fl.1 (map fst flags')
  end.

(** The findings of [run] for the artifacts that were collected;
    [read_text] gives the content of a path, [None] when it is unreadable
    or too large. *)
Definition artifact_evidence (a : CronArtifact) : list Evidence :=
  [ mkEvidence "filesystem" "path" (VStr (path a));
    mkEvidence "filesystem" "kind" (VStr (kind a));
    mkEvidence "filesystem" "owner"
      (match owner a with Some o => VStr o | None => VNone end) ].

Definition run_artifact (read_text : string -> option string) (findings : list Finding)
    (a : CronArtifact) : list Finding :=
  match read_text (path a) with
  | None =>
      findings ++
      [mkFinding "cron.artifacts"
         ("Review cron artifact (unreadable/large): " +:+ path a)
         "info"
         "Cron artifact exists but could not be read (permission, binary, or too large)."
         (artifact_evidence a)
         (Some "Verify permissions and inspect the file contents using appropriate privileges.")
         []]
  | Some content =>
      let flags := _looks_suspicious content in
      let severity := _severity_from flags in
      if bool_decide (flags = []) && negb (String.eqb (path a) "/etc/crontab")
      then findings
      else
        let evidence :=
          artifact_evidence a
          ++ [mkEvidence "filesystem" "snippet"
                (VStr (join_lines (take 80 (PyStr.splitlines content))))] in
        let evidence :=
          if bool_decide (flags = []) then evidence
          else evidence ++ [mkEvidence "heuristics" "flags" (VList (map (fun f : flag => VStr f.2) flags))] in
        findings ++
        [mkFinding "cron.artifacts"
           ("Review cron artifact: " +:+ path a)
           (if bool_decide (flags = []) then "info" else severity)
           ("Module 2 checks cron-related locations for entries that deserve review. "
            +:+ "Flags are heuristic and not a determination of compromise.")
           evidence
           (Some ("Confirm the artifact's purpose and provenance. If unexpected, disable/remove it per policy, "
                  +:+ "and review referenced scripts/binaries and recent account changes."))
           []]
  end.

Definition run (artifacts : list CronArtifact) (read_text : string -> option string)
  : list Finding :=
  match artifacts with
  | [] =>
      [mkFinding "cron.artifacts" "Cron artifacts" "info"
         "No cron artifacts were found in common locations, or access was restricted."
         [] None []]
  | _ => fold_left (run_artifact read_text) artifacts []
  end.

End WithLower.
End Cron.

Module ShellInit.

Definition SUSPICIOUS_HINTS : list string :=
  ["/tmp/"; "/dev/shm/"; "curl "; "wget "; "nc "; "bash -c"; "python -c"; "base64"].

Section WithLower.
Variable lower : string -> string.

(** [_scan_file(path)], [text] being what [read_text(path)] returns *)
Definition _scan_file (text : option string) : list flag :=
  match text with
  | None => []
  | Some "" => []
  | Some text =>
      let lowered := lower text in
      let flags : list flag := [] in
      let flags :=
        match first_hint (fun hint => PyStr.contains hint lowered) SUSPICIOUS_HINTS with
        | Some hint =>
            flags ++ [("medium", "Shell init contains suspicious token: " +:+ PyStr.strip hint)]
        | None => flags
        end in
      let flags :=
        if PyStr.contains "/." text
        then flags ++ [("low", "Shell init references hidden paths; verify intent")]
        else flags in
      flags
  end.

End WithLower.
End ShellInit.

Module XdgAutostart.

Definition SUSPICIOUS_HINTS : list string :=
  ["/tmp/"; "/dev/shm/"; "/var/tmp/"; "curl "; "wget "; "bash -c"; "sh -c"; "python -c";
   "base64"].

Section WithLower.
Variable lower : string -> string.

(** [_scan_desktop_file(path)], [text] being what [read_text(path)] returns *)
Definition _scan_desktop_file (text : option string) : list flag :=
  match text with
  | None => []
  | Some "" => []
  | Some text =>
      let lowered := lower text in
      let exec_lines :=
        List.filter (fun l => PyStr.startswith "exec=" (PyStr.strip l))
                    (PyStr.splitlines lowered) in
      let joined := match exec_lines with [] => lowered | _ => join_lines exec_lines end in
      let flags : list flag := [] in
      let flags :=
        match first_hint (fun hint => PyStr.contains hint joined) SUSPICIOUS_HINTS with
        | Some hint =>
            flags ++ [("medium",
                       "Autostart Exec contains suspicious token: " +:+ PyStr.strip hint)]
        | None => flags
        end in
      let flags :=
        if PyStr.contains "/." joined
        then flags ++ [("low", "Autostart Exec references hidden paths; verify intent")]
        else flags in
      flags
  end.

End WithLower.
End XdgAutostart.

Module Systemd.

Definition SUSPICIOUS_PATH_HINTS : list string :=
  ["/tmp/"; "/dev/shm/"; "/var/tmp/"; "/run/user/"; "/.cache/"; "/.local/share/"].

Definition LOCAL_UNIT_DIR_HINTS : list string :=
  ["/etc/systemd/system/"; "/run/systemd/system/"].

(** [unit_file] and [drop_in_paths] hold the paths as strings. *)
Record UnitInfo : Type := mkUnitInfo {
  name : string;
  scope : string;
  enabled_state : string;
  unit_file : option string;
  exec_start : option string;
  drop_in_paths : list string;
}.

Definition _parse_kv (out : string) : dict string :=
  fold_left (fun (kv : dict string) line =>
               if PyStr.contains "=" line
               then dict_set (PyStr.strip (PyStr.before "=" line))
                             (PyStr.strip (default "" (PyStr.after "=" line))) kv
               else kv)
            (PyStr.splitlines out) [].

Definition _extract_exec_path (execstart_raw : string) : option string :=
  if PyStr.contains "path=" execstart_raw then
    let sub := default "" (PyStr.after "path=" execstart_raw) in
    let sub := fold_left (fun sub sep =>
                            if PyStr.contains sep sub then PyStr.before sep sub else sub)
                         [" "; ";"; "}"; ","] sub in
    if PyStr.startswith "/" sub then Some sub else None
  else
    match PyStr.split_ws execstart_raw with
    | p :: _ => if PyStr.startswith "/" p then Some p else None
    | [] => None
    end.

(** [l.split()[0]] for every line [l], [None] when a line has no word *)
Fixpoint first_words (lines : list string) : option (list string) :=
  match lines with
  | [] => Some []
  | l :: lines' =>
      match head (PyStr.split_ws l), first_words lines' with
      | Some w, Some ws => Some (w :: ws)
      | _, _ => None
      end
  end.

(** [_list_units(scope)], [rc] and [out] being what the [systemctl] command
    returned: [l.split()[0]] of a blank line raises [IndexError], which is
    [None] here. *)
Definition _list_units (rc : Z) (out : string) : option (list string) :=
  if Z.eqb rc 0 then
    match first_words (PyStr.splitlines out) with
    | Some names => Some (sorted (list_to_set names))
    | None => None
    end
  else Some [].

(** [_enabled_state(name, scope)], [out] being the output of the command *)
Definition _enabled_state (out : string) : string :=
  if String.eqb out "" then "unknown" else out.

Definition _heuristics (u : UnitInfo) : list flag :=
  let enabled := String.eqb (enabled_state u) "enabled" in
  let flags : list flag := [] in
  let flags :=
    if String.eqb (scope u) "user" && enabled
    then flags ++ [("low", "Enabled user-level service")] else flags in
  let flags :=
    match drop_in_paths u with
    | [] => flags
    | _ => flags ++ [("low", "Service has drop-in override snippets")]
    end in
  let flags :=
    match unit_file u with
    | Some p =>
        let flags :=
          if existsb (fun h => PyStr.contains h p) LOCAL_UNIT_DIR_HINTS && enabled
          then flags ++ [("medium", "Enabled unit from local override directory")]
          else flags in
        if String.eqb (scope u) "user" && PyStr.contains "/.config/systemd/user/" p && enabled
        then flags ++ [("medium", "Enabled unit in user config directory")]
        else flags
    | None => flags ++ [("info", "FragmentPath unavailable")]
    end in
  let flags :=
    match exec_start u with
    | None => flags
    | Some "" => flags
    | Some es =>
        let exec_path := _extract_exec_path es in
        let flags :=
          match first_hint (fun hint => PyStr.contains hint es) SUSPICIOUS_PATH_HINTS with
          | Some hint => flags ++ [("medium", "ExecStart references risky path: " +:+ hint)]
          | None => flags
          end in
        match exec_path with
        | Some ep =>
            if negb (String.eqb ep "")
               && (PyStr.startswith "/tmp/" ep || PyStr.startswith "/dev/shm/" ep)
            then flags ++ [("high", "Executable path in temp or memory-backed directory")]
            else flags
        | None => flags
        end
    end in
  flags.

End Systemd.

Module RuntimeProcess.

Definition RISKY_RUNTIME_PATHS : list string :=
  ["/tmp/"; "/dev/shm/"; "/run/user/"; "/var/tmp/"].

Definition _runtime_flags (exe_path : string) : list flag :=
  match first_hint (fun hint => PyStr.startswith hint exe_path) RISKY_RUNTIME_PATHS with
  | Some hint => [("high", "Process executing from risky runtime path: " +:+ hint)]
  | None =>
      if PyStr.contains "/." exe_path
      then [("medium", "Process executable located in hidden directory")]
      else []
  end.

(** The body of the loop of [run] for one process *)
Definition run_process (findings : list Finding) (proc : Z * string)
  : res (list Finding) :=
  let '(pid, exe_path) := proc in
  match _runtime_flags exe_path with
  | [] => Ok findings
  | fl :: flags =>
      do severity <- max_severity fl flags;
      Ok (findings ++
          [mkFinding "runtime.process"
             ("Review runtime process: PID " +:+ int_repr pid)
             severity
             ("Process executable path suggests runtime-only or memory-backed execution. "
              +:+ "This can indicate ephemeral or fileless persistence techniques.")
             [ mkEvidence "procfs" "pid" (VInt pid);
               mkEvidence "procfs" "exe" (VStr exe_path);
               mkEvidence "heuristics" "flags"
                 (VList (map (fun f : flag => VStr f.2) (fl :: flags))) ]
             (Some ("Verify process legitimacy and parent chain. If unexpected, terminate the process "
                    +:+ "and investigate how it was launched."))
             []])
  end.

(** [run()], [processes] being what [_list_process_exec_paths()] returns *)
Definition run (processes : list (Z * string)) : res (list Finding) :=
  fold_left (fun acc proc => do findings <- acc; run_process findings proc)
            processes (Ok []).

End RuntimeProcess.

Module Output.

(** [to_json(findings)] *)
Definition to_json (findings : list Finding) : string :=
  Json.dumps (VList (map to_dict findings)).

Section WithUpper.
Variable upper : string -> string.



End WithUpper.
End Output.

Module Cli.

Section WithChecks.
(** What the [run()] of each check returns *)
Variables systemd_run cron_run shell_init_run xdg_autostart_run runtime_process_run
  : list Finding.

Definition _run_checks (selected : gset string) : list Finding :=
  let run_all := bool_decide ("all" ∈ selected) || bool_decide (selected = ∅) in
  let findings : list Finding := [] in
  let findings :=
    if run_all || bool_decide ("systemd" ∈ selected)
    then findings ++ systemd_run else findings in
  let findings :=
    if run_all || bool_decide ("cron" ∈ selected)
    then findings ++ cron_run else findings in
  let findings :=
    if run_all || bool_decide ("shell_init" ∈ selected)
    then findings ++ shell_init_run else findings in
  let findings :=
    if run_all || bool_decide ("xdg_autostart" ∈ selected)
    then findings ++ xdg_autostart_run else findings in
  let findings :=
    if run_all || bool_decide ("runtime_process" ∈ selected)
    then findings ++ runtime_process_run else findings in
  findings.

Variable lower upper : string -> string.







End WithChecks.
End Cli.

(** * Specification-side definitions *)

(** The anchor keys of the specification *)
Definition is_anchor_key (e : Evidence) : bool :=
  bool_decide (key e = "FragmentPath" ∨ key e = "path").

(** The anchor in the words of the specification: the string form of the
    value of the first evidence entry with an anchor key, the title when
    there is none. *)
Definition anchor_spec (f : Finding) : string :=
  match find is_anchor_key (evidence f) with
  | Some e => py_str (value_ e)
  | None => title f
  end.

(** The string that is hashed *)
Definition raw_spec (f : Finding) : string := check_id f +:+ "|" +:+ anchor_spec f.

(** The mapping of [make_baseline] *)
Definition mapped_of (fs : list Finding) : dict value :=
  fold_left (fun (mapped : dict value) f => dict_set (_stable_id f) (to_dict f) mapped) fs [].

(** The key set of a dictionary *)
Definition key_set (d : dict value) : gset string := list_to_set (dict_keys d).

(** The value stored under [i], [None] when there is none *)
Definition lookup_or_none (d : dict value) (i : string) : value :=
  default VNone (dict_get i d).

(** A field of a serialised finding, [None] when it is absent *)
Definition field (k : string) (o : value) : value :=
  match o with
  | VDict d => lookup_or_none d k
  | _ => VNone
  end.

(** The record that [diff_baseline] emits for a changed finding *)
Definition change_record (i : string) (o n : value) : value :=
  VDict [("id", VStr i); ("old", o); ("new", n)].

(** The test of [diff_baseline] on an old and a new serialised finding *)
Definition differs (o n : value) : bool :=
  py_ne (field "severity" o) (field "severity" n)
  || py_ne (field "description" o) (field "description" n).

(** The changed records for the identifiers [ids], in their order *)
Definition change_records (od nd : dict value) (ids : list string) : list value :=
  flat_map (fun i =>
              let o := lookup_or_none od i in
              let n := lookup_or_none nd i in
              if differs o n then [change_record i o n] else []) ids.

(** The number of nodes of a value, containers counted with their
    elements: the fuel that decoding its text takes. *)
Fixpoint size (v : value) : nat :=
  match v with
  | VList l => S (list_sum (map (fun x => S (size x)) l))
  | VDict d => S (list_sum (map (fun kv : string * value => S (size kv.2)) d))
  | _ => 1
  end.

(** The characters a JSON value can start with *)
Definition value_start (c : ascii) : bool :=
  Json.is_digit c || Ascii.eqb c "-" || Ascii.eqb c dquote || Ascii.eqb c "["
  || Ascii.eqb c "{" || Ascii.eqb c "n" || Ascii.eqb c "t" || Ascii.eqb c "f"
  || Ascii.eqb c "N" || Ascii.eqb c "I".

(** The text after a number does not continue it: it is empty or starts
    with a character that is no digit, point or exponent mark. *)
Definition number_end (rest : string) : bool :=
  match rest with
  | "" => true
  | String c _ =>
      negb (Json.is_digit c || Ascii.eqb c "." || Ascii.eqb c "e" || Ascii.eqb c "E")
  end.

(** A value whose encoding is decoded back, whatever the nesting depth and
    the text that follows. *)
Definition decodes (v : value) : Prop :=
  forall (level : nat) (rest : string) (fuel : nat),
    number_end rest = true ->
    size v <= fuel ->
    Json.scan_once fuel (Json.encode level v +:+ rest) = Ok (v, rest).

(** The first two words of the digest: the 64 bits that the identifier
    shows in hexadecimal. *)
Definition digest64 (s : string) : Z * Z :=
  let st := SHA256.digest_state (encode_utf8 s) in (SHA256.sa st, SHA256.sb st).

(** The eight words of a state are 32-bit words. *)
Definition word_state (s : SHA256.state) : Prop :=
  Forall (fun w => 0 <= w < 2 ^ 32)%Z (SHA256.state_words s).

(** A nibble of a word, as [hex_nibbles] takes it *)
Definition nibble (i : nat) (x : Z) : Z := Z.land (Z.shiftr x (4 * Z.of_nat i)) 0xF.

(** A finding without evidence and with an empty title, one per number *)
Definition numbered_finding (i : Z) : Finding :=
  mkFinding (int_repr i) "" "info" "" [] None [].

(** The findings of a baseline are typed [Dict[str, Dict]]: every stored
    value is a dictionary. *)
Definition holds_dicts (d : dict value) : Prop :=
  Forall (fun kv : string * value => exists o, kv.2 = VDict o) d.


(** Ascending order of identifiers without repetition *)
Definition ascending (ids : list string) : Prop :=
  StronglySorted String.le ids /\ NoDup ids.

(** Every key of a dictionary, in any nested dictionary too, occurs once,
    the representation invariant of a Python [dict], and the value holds no
    [float]: the values that the statements on the round trip through JSON
    text are about. *)
Fixpoint wf_value (v : value) : Prop :=
  match v with
  | VFloat _ => False
  | VList l => (fix all (l : list value) : Prop :=
                  match l with
                  | [] => True
                  | x :: l' => wf_value x /\ all l'
                  end) l
  | VDict d => NoDup (map fst d) /\
               (fix all (d : dict value) : Prop :=
                  match d with
                  | [] => True
                  | kv :: d' => wf_value (snd kv) /\ all d'
                  end) d
  | _ => True
  end.

(** A lowercase hexadecimal digit *)
Definition is_lower_hex (c : ascii) : bool :=
  let n := N_of_ascii c in
  (N.leb 48 n && N.leb n 57) || (N.leb 97 n && N.leb n 102).


(** A flag whose severity is in the rank table *)
Definition ranked (f : flag) : Prop := is_Some (rank f.1).

(** An executable path under one of the risky runtime directories *)
Definition runtime_risky (exe_path : string) : bool :=
  existsb (fun hint => PyStr.startswith hint exe_path) RuntimeProcess.RISKY_RUNTIME_PATHS.

(** A process that [runtime_process.run] reports *)
Definition runtime_flagged (proc : Z * string) : bool :=
  runtime_risky proc.2 || PyStr.contains "/." proc.2.

(** What the loop of [runtime_process.run] appends for one process *)
Definition runtime_report (proc : Z * string) : list Finding :=
  match RuntimeProcess.run_process [] proc with
  | Ok fs => fs
  | Raise _ => []
  end.

(** * Properties *)

(** ** Concatenation of strings *)

Lemma str_app_nil_l (s : string) : "" +:+ s = s.
Proof. reflexivity. Qed.

Lemma str_app_cons (c : ascii) (s t : string) : String c s +:+ t = String c (s +:+ t).
Proof. reflexivity. Qed.

Lemma str_app_nil_r (s : string) : s +:+ "" = s.
Proof. induction s as [|c s IH]; [done|]. by rewrite str_app_cons, IH. Qed.

Lemma str_app_assoc (a b c : string) : (a +:+ b) +:+ c = a +:+ (b +:+ c).
Proof. induction a as [|x a IH]; [done|]. by rewrite !str_app_cons, IH. Qed.


(** ** Test vectors of the hash function *)

Example sha256_empty :
  sha256_hex "" = "e3b0c44298fc1c149afbf4c8996fb92427ae41e4649b934ca495991b7852b855".
Proof. vm_compute. reflexivity. Qed.

Example sha256_abc :
  sha256_hex "abc" = "ba7816bf8f01cfea414140de5dae2223b00361a396177a9cb410ff61f20015ad".
Proof. vm_compute. reflexivity. Qed.

Example sha256_two_blocks :
  sha256_hex "abcdbcdecdefdefgefghfghighijhijkijkljklmklmnlmnomnopnopq"
  = "248d6a61d20638b8e5c026930c3e6039a33ce45964ff2167f6ecedd419db06c1".
Proof. vm_compute. reflexivity. Qed.



(** ** The stable identifier *)

Lemma String_eqb_decide (s t : string) : String.eqb s t = bool_decide (s = t).
Proof.
  destruct (String.eqb_spec s t); symmetry.
  - by apply bool_decide_eq_true.
  - by apply bool_decide_eq_false.
Qed.

Lemma is_anchor_key_eqb (e : Evidence) :
  String.eqb (key e) "FragmentPath" || String.eqb (key e) "path" = is_anchor_key e.
Proof.
  unfold is_anchor_key. rewrite !String_eqb_decide.
  destruct (decide (key e = "FragmentPath")) as [H1|H1],
           (decide (key e = "path")) as [H2|H2];
    rewrite ?(bool_decide_eq_true_2 _ H1), ?(bool_decide_eq_false_2 _ H1),
            ?(bool_decide_eq_true_2 _ H2), ?(bool_decide_eq_false_2 _ H2); simpl;
    symmetry; (apply bool_decide_eq_true_2 || apply bool_decide_eq_false_2); tauto.
Qed.

Lemma collect_anchors_filter (ev : list Evidence) (acc : list string) :
  collect_anchors ev acc
  = acc ++ map (fun e => py_str (value_ e)) (filter (fun e => is_anchor_key e = true) ev).
Proof.
  revert acc. induction ev as [|e ev IH]; intros acc; simpl.
  - by rewrite app_nil_r.
  - rewrite is_anchor_key_eqb, filter_cons.
    destruct (is_anchor_key e) eqn:He.
    + rewrite decide_True by done. rewrite IH. simpl. by rewrite <- app_assoc.
    + rewrite decide_False by done. apply IH.
Qed.

Lemma head_filter_find {A : Type} (p : A -> bool) (l : list A) :
  head (filter (fun x => p x = true) l) = find p l.
Proof.
  induction l as [|x l IH]; simpl; [done|].
  rewrite filter_cons. destruct (p x) eqn:Hp.
  - by rewrite decide_True.
  - by rewrite decide_False.
Qed.

Lemma stable_id_raw (f : Finding) :
  _stable_id f = str_take 16 (sha256_hex (raw_spec f)).
Proof.
  unfold _stable_id, raw_spec, anchor_spec.
  rewrite collect_anchors_filter, app_nil_l, <- head_filter_find.
  do 4 f_equal. by destruct (filter _ (evidence f)).
Qed.

Lemma hexdigest_length (msg : list Z) : String.length (SHA256.hexdigest msg) = 64.
Proof.
  unfold SHA256.hexdigest, SHA256.state_words.
  generalize (SHA256.digest_state msg). intros s. reflexivity.
Qed.

Lemma str_take_length (n : nat) (s : string) :
  n <= String.length s -> String.length (str_take n s) = n.
Proof.
  revert s. induction n as [|n IH]; intros [|c s] Hn; simpl in *; try lia.
  rewrite IH; lia.
Qed.

(** The string that [_stable_id] hashes *)
Lemma raw_of_anchors (f : Finding) :
  check_id f +:+ "|"
  +:+ match collect_anchors (evidence f) [] with a :: _ => a | [] => title f end
  = raw_spec f.
Proof.
  unfold raw_spec, anchor_spec.
  rewrite collect_anchors_filter, app_nil_l, <- head_filter_find.
  do 2 f_equal. by destruct (filter _ (evidence f)).
Qed.

(** [Strict._stable_id] raises when the hashed string holds a surrogate and
    returns the identifier of [_stable_id] otherwise. *)
Lemma strict_stable_id_eq (f : Finding) :
  Strict._stable_id f
  = if has_surrogate (raw_spec f) then Raise UnicodeEncodeError else Ok (_stable_id f).
Proof.
  unfold Strict._stable_id, Strict.encode_utf8. cbv zeta. rewrite raw_of_anchors.
  destruct (has_surrogate (raw_spec f)); [reflexivity|].
  cbn [bind]. by rewrite stable_id_raw.
Qed.

Lemma has_surrogate_bar (c : string) : has_surrogate (c +:+ "|") = has_surrogate c.
Proof.
  induction c as [|a c IH]; [reflexivity|].
  rewrite str_app_cons. destruct c as [|b c].
  - rewrite str_app_nil_l. cbn [has_surrogate]. destruct (N.eqb _ _); reflexivity.
  - rewrite str_app_cons in IH |- *. cbn [has_surrogate] in IH |- *. by rewrite IH.
Qed.

(** C1, as stated, fails: the function is not total.  The path of a cron
    file whose name is the byte 0xFF is a string with the surrogate U+DCFF;
    on the finding of that file [_stable_id] raises [UnicodeEncodeError]. *)
Lemma stable_id_raises_on_lone_surrogate :
  Strict._stable_id
    (mkFinding "cron.artifacts"
       ("Review cron artifact: /etc/cron.d/" +:+ PyStr.bytes [0xED; 0xB3; 0xBF]%N)
       "info" "d"
       [mkEvidence "filesystem" "path"
          (VStr ("/etc/cron.d/" +:+ PyStr.bytes [0xED; 0xB3; 0xBF]%N))]
       None [])
  = Raise UnicodeEncodeError.
Proof. vm_compute. reflexivity. Qed.

(** C1, amended: when the string [check_id + "|" + anchor] holds no
    surrogate, the identifier is the first 16 characters of the lowercase
    hexadecimal SHA-256 digest of its UTF-8 bytes, the anchor being the
    string form of the value of the first evidence entry keyed
    "FragmentPath" or "path" and the title when there is none; the result
    has 16 characters; when the string holds a surrogate the function
    raises [UnicodeEncodeError]; with no evidence and an empty title the
    hashed string is [check_id + "|"].  The string form of a [str] is the
    string itself, of another value what [repr] writes. *)
Theorem stable_id_is_truncated_sha256 (f : Finding) :
  let raw := check_id f +:+ "|" +:+ anchor_spec f in
  (has_surrogate raw = false ->
   Strict._stable_id f = Ok (str_take 16 (sha256_hex raw)))
  /\ (has_surrogate raw = true -> Strict._stable_id f = Raise UnicodeEncodeError)
  /\ (forall i, Strict._stable_id f = Ok i -> i = _stable_id f /\ String.length i = 16)
  /\ _stable_id f = str_take 16 (sha256_hex raw)
  /\ String.length (_stable_id f) = 16
  /\ (forall c sev descr rem refs,
        has_surrogate c = false ->
        Strict._stable_id (mkFinding c "" sev descr [] rem refs)
        = Ok (str_take 16 (sha256_hex (c +:+ "|"))))
  /\ (forall c sev descr rem refs,
        _stable_id (mkFinding c "" sev descr [] rem refs)
        = str_take 16 (sha256_hex (c +:+ "|")))
  /\ (forall s, py_str (VStr s) = s)
  /\ py_str (VInt (-42)) = "-42"
  /\ py_str VNone = "None"
  /\ py_str (VBool true) = "True"
  /\ py_str (VFloat (Float.of_decimal false 15 (-1))) = "1.5"
  /\ py_str (VList [VStr "a b"; VStr (PyStr.bytes [0x61; 0xC2; 0xA0; 0x62]%N); VInt 7; VNone])
     = "['a b', 'a\xa0b', 7, None]"
  /\ py_str (VDict [("path", VStr "/x"); ("n", VBool false)])
     = "{'path': '/x', 'n': False}"
  /\ py_str (VList [VStr (PyStr.bytes [0xC3; 0xA9]%N); VStr (PyStr.bytes [0xED; 0xB3; 0xBF]%N)])
     = "['" +:+ PyStr.bytes [0xC3; 0xA9]%N +:+ "', '\udcff']".
Proof.
  cbv zeta. fold (raw_spec f).
  assert (Hlen : String.length (_stable_id f) = 16).
  { unfold _stable_id. apply str_take_length.
    unfold sha256_hex. rewrite hexdigest_length. lia. }
  split; [|split; [|split; [|split; [|split; [|split; [|split]]]]]].
  - intros H. by rewrite strict_stable_id_eq, H, stable_id_raw.
  - intros H. by rewrite strict_stable_id_eq, H.
  - rewrite strict_stable_id_eq. destruct (has_surrogate (raw_spec f)); [done|].
    by intros i [= <-].
  - apply stable_id_raw.
  - exact Hlen.
  - intros c sev descr rem refs Hc. rewrite strict_stable_id_eq.
    change (raw_spec (mkFinding c "" sev descr [] rem refs)) with (c +:+ "|" +:+ "").
    rewrite str_app_nil_r, has_surrogate_bar, Hc, stable_id_raw. do 3 f_equal.
  - intros. rewrite stable_id_raw. do 2 f_equal.
  - repeat split; vm_compute; reflexivity.
Qed.

Lemma stable_id_is_truncated_sha256_witness :
  let f := mkFinding "cron.artifacts" "Review cron artifact: /etc/crontab" "info" "d"
             [mkEvidence "filesystem" "kind" (VStr "file");
              mkEvidence "filesystem" "path" (VStr "/etc/crontab")] None [] in
  Strict._stable_id f = Ok (str_take 16 (sha256_hex "cron.artifacts|/etc/crontab")).
Proof.
  intros f. apply (proj1 (stable_id_is_truncated_sha256 f)). reflexivity.
Defined.

Lemma anchor_spec_pairs (f : Finding) :
  anchor_spec f
  = match find (fun kv : string * value =>
                  bool_decide (kv.1 = "FragmentPath" ∨ kv.1 = "path"))
               (map (fun e => (key e, value_ e)) (evidence f)) with
    | Some kv => py_str kv.2
    | None => title f
    end.
Proof.
  unfold anchor_spec. generalize (title f). intros t.
  induction (evidence f) as [|e ev IH]; simpl; [done|].
  unfold is_anchor_key at 1. by destruct (bool_decide _).
Qed.

(** C5: two findings with the same check_id, the same title and evidence
    that agrees entry by entry on key and value get the same identifier,
    whatever their severity, description, remediation, references and the
    source of their evidence entries are. *)
Theorem stable_id_depends_on_anchor_only (f1 f2 : Finding) :
  check_id f1 = check_id f2 ->
  title f1 = title f2 ->
  map (fun e => (key e, value_ e)) (evidence f1)
  = map (fun e => (key e, value_ e)) (evidence f2) ->
  _stable_id f1 = _stable_id f2.
Proof.
  intros Hc Ht He. rewrite !stable_id_raw. unfold raw_spec.
  rewrite !anchor_spec_pairs, Hc, Ht, He. reflexivity.
Qed.

Lemma stable_id_depends_on_anchor_only_witness :
  let f1 := mkFinding "cron.artifacts" "Cron artifact" "info" "first wording"
              [mkEvidence "filesystem" "path" (VStr "/etc/crontab");
               mkEvidence "filesystem" "owner" (VInt 0)] None [] in
  let f2 := mkFinding "cron.artifacts" "Cron artifact" "high" "second wording"
              [mkEvidence "procfs" "path" (VStr "/etc/crontab");
               mkEvidence "stat" "owner" (VInt 0)] (Some "remove it") ["man 5 crontab"] in
  severity f1 <> severity f2 /\ _stable_id f1 = _stable_id f2.
Proof.
  intros f1 f2. split; [discriminate|].
  apply (stable_id_depends_on_anchor_only f1 f2); reflexivity.
Defined.

Lemma find_anchor_none (ev : list Evidence) :
  Forall (fun e => key e <> "FragmentPath" /\ key e <> "path") ev ->
  find is_anchor_key ev = None.
Proof.
  induction 1 as [|e ev [H1 H2] _ IH]; simpl; [done|].
  unfold is_anchor_key at 1. rewrite bool_decide_eq_false_2 by tauto. done.
Qed.

(** C6: with one check_id, a first anchor entry keyed "path" with value
    "/etc/crontab" and a first anchor entry keyed "FragmentPath" with the
    same value give the same identifier; a finding without an entry keyed
    "FragmentPath" or "path" is hashed with its title as the anchor. *)
Theorem anchor_key_precedence :
  (forall (f1 f2 : Finding) (e1 e2 : Evidence),
      check_id f1 = check_id f2 ->
      find is_anchor_key (evidence f1) = Some e1 ->
      key e1 = "path" -> value_ e1 = VStr "/etc/crontab" ->
      find is_anchor_key (evidence f2) = Some e2 ->
      key e2 = "FragmentPath" -> value_ e2 = VStr "/etc/crontab" ->
      _stable_id f1 = _stable_id f2)
  /\ (forall f : Finding,
        Forall (fun e => key e <> "FragmentPath" /\ key e <> "path") (evidence f) ->
        _stable_id f = str_take 16 (sha256_hex (check_id f +:+ "|" +:+ title f))).
Proof.
  split.
  - intros f1 f2 e1 e2 Hc H1 _ V1 H2 _ V2.
    rewrite !stable_id_raw. unfold raw_spec, anchor_spec.
    rewrite H1, H2, V1, V2, Hc. reflexivity.
  - intros f Hf. rewrite stable_id_raw. unfold raw_spec, anchor_spec.
    by rewrite find_anchor_none.
Qed.

Lemma anchor_key_precedence_witness :
  let f1 := mkFinding "cron.artifacts" "Cron artifact" "info" "d"
              [mkEvidence "filesystem" "kind" (VStr "file");
               mkEvidence "filesystem" "path" (VStr "/etc/crontab")] None [] in
  let f2 := mkFinding "cron.artifacts" "Another title" "low" "d"
              [mkEvidence "systemctl" "FragmentPath" (VStr "/etc/crontab");
               mkEvidence "filesystem" "path" (VStr "/tmp/x")] None [] in
  let f3 := mkFinding "runtime.process" "Process 42" "info" "d"
              [mkEvidence "procfs" "pid" (VInt 42)] None [] in
  _stable_id f1 = _stable_id f2
  /\ _stable_id f3 = str_take 16 (sha256_hex "runtime.process|Process 42").
Proof.
  intros f1 f2 f3. split.
  - apply (proj1 anchor_key_precedence f1 f2
             (mkEvidence "filesystem" "path" (VStr "/etc/crontab"))
             (mkEvidence "systemctl" "FragmentPath" (VStr "/etc/crontab")));
      reflexivity.
  - apply (proj2 anchor_key_precedence f3).
    repeat constructor; discriminate.
Defined.

(** ** Dictionaries *)

Section DictFacts.
Context {A : Type}.
Implicit Types (d : dict A) (k : string) (v : A).

Lemma dict_get_set k k' v d :
  dict_get k (dict_set k' v d) = if decide (k = k') then Some v else dict_get k d.
Proof.
  induction d as [|[k0 v0] d IH]; simpl.
  - destruct (String.eqb_spec k k'), (decide (k = k')); congruence.
  - destruct (String.eqb_spec k' k0) as [->|Hk0]; simpl.
    + destruct (String.eqb_spec k k0), (decide (k = k0)); congruence.
    + rewrite IH.
      destruct (String.eqb_spec k k0), (decide (k = k')); congruence.
Qed.

Lemma dict_get_set_eq k v d : dict_get k (dict_set k v d) = Some v.
Proof. rewrite dict_get_set. by rewrite decide_True. Qed.

Lemma dict_get_set_ne k k' v d :
  k <> k' -> dict_get k (dict_set k' v d) = dict_get k d.
Proof. intros. rewrite dict_get_set. by rewrite decide_False. Qed.

Lemma elem_of_dict_keys k d : k ∈ dict_keys d <-> is_Some (dict_get k d).
Proof.
  unfold dict_keys. induction d as [|[k0 v0] d IH]; simpl.
  - split; [by intros ?%elem_of_nil|by intros [? ?]].
  - rewrite elem_of_cons, IH.
    destruct (String.eqb_spec k k0); naive_solver.
Qed.

Lemma dict_getitem_keys k d : k ∈ dict_keys d -> exists v, dict_getitem k d = Ok v.
Proof.
  intros [v Hv]%elem_of_dict_keys. exists v. unfold dict_getitem. by rewrite Hv.
Qed.

End DictFacts.

(** ** sorted() on a set of strings *)

Lemma elem_of_sorted (X : gset string) (i : string) : i ∈ sorted X <-> i ∈ X.
Proof. unfold sorted. by rewrite merge_sort_Permutation, elem_of_elements. Qed.

Lemma NoDup_sorted (X : gset string) : NoDup (sorted X).
Proof. unfold sorted. rewrite merge_sort_Permutation. apply NoDup_elements. Qed.

Lemma StronglySorted_sorted (X : gset string) : StronglySorted String.le (sorted X).
Proof. apply StronglySorted_merge_sort; apply _. Qed.

Lemma sorted_empty : sorted ∅ = [].
Proof. unfold sorted. by rewrite elements_empty. Qed.

(** ** The baseline built from a list of findings *)

Lemma make_baseline_findings (fs : list Finding) (ver : value) :
  findings (make_baseline fs ver) = VDict (mapped_of fs).
Proof. reflexivity. Qed.

Lemma make_baseline_version (fs : list Finding) (ver : value) :
  version (make_baseline fs ver) = ver.
Proof. reflexivity. Qed.

Lemma mapped_fold_inv (fs : list Finding) (acc : dict value) (i : string) (v : value) :
  dict_get i (fold_left (fun (mapped : dict value) f =>
                           dict_set (_stable_id f) (to_dict f) mapped) fs acc) = Some v ->
  dict_get i acc = Some v \/ exists f, f ∈ fs /\ _stable_id f = i /\ v = to_dict f.
Proof.
  revert acc. induction fs as [|f fs IH]; intros acc; simpl; [by left|].
  intros [H|(f' & Hin & Hid & Hv)]%IH.
  - rewrite dict_get_set in H. destruct (decide (i = _stable_id f)) as [->|].
    + right. exists f. split; [by left|]. by inversion H.
    + by left.
  - right. exists f'. split; [by right|done].
Qed.

Lemma mapped_of_lookup (fs : list Finding) (i : string) (v : value) :
  dict_get i (mapped_of fs) = Some v ->
  exists f, f ∈ fs /\ _stable_id f = i /\ v = to_dict f.
Proof. intros [H|H]%mapped_fold_inv; [done|exact H]. Qed.



(** ** The run of diff_baseline *)

Lemma mapM_getitem (d : dict value) (ids : list string) :
  (forall i, i ∈ ids -> i ∈ dict_keys d) ->
  mapM (py_getitem (VDict d)) ids = Ok (map (lookup_or_none d) ids).
Proof.
  induction ids as [|i ids IH]; intros Hin; simpl; [done|].
  destruct (proj1 (elem_of_dict_keys i d) (Hin i ltac:(by left))) as [v Hv].
  unfold dict_getitem, lookup_or_none. rewrite Hv. simpl.
  rewrite IH; [done|]. intros j Hj. apply Hin. by right.
Qed.

Lemma changed_step_eq (od nd : dict value) (acc : list value) (i : string)
    (o n : dict value) :
  dict_get i od = Some (VDict o) ->
  dict_get i nd = Some (VDict n) ->
  changed_step (VDict od) (VDict nd) acc i
  = Ok (acc ++ change_records od nd [i]).
Proof.
  intros Ho Hn. unfold changed_step, change_records, differs, lookup_or_none.
  simpl. unfold dict_getitem. rewrite Ho, Hn. simpl.
  unfold lookup_or_none.
  destruct (py_ne (default VNone (dict_get "severity" o))
                  (default VNone (dict_get "severity" n))); simpl.
  - done.
  - destruct (py_ne _ _); simpl; [done|]. by rewrite app_nil_r.
Qed.

Lemma changed_loop_eq (od nd : dict value) (ids : list string) (acc : list value) :
  (forall i, i ∈ ids -> exists o n,
      dict_get i od = Some (VDict o) /\ dict_get i nd = Some (VDict n)) ->
  changed_loop (VDict od) (VDict nd) ids acc = Ok (acc ++ change_records od nd ids).
Proof.
  revert acc. induction ids as [|i ids IH]; intros acc Hin.
  - simpl. by rewrite app_nil_r.
  - destruct (Hin i ltac:(by left)) as (o & n & Ho & Hn).
    cbn [changed_loop]. rewrite (changed_step_eq _ _ _ _ _ _ Ho Hn). cbn [bind].
    rewrite IH by (intros j Hj; apply Hin; by right).
    rewrite <- app_assoc. unfold change_records. cbn [flat_map].
    by rewrite app_nil_r.
Qed.

Lemma elem_of_key_set (d : dict value) (i : string) : i ∈ key_set d <-> i ∈ dict_keys d.
Proof. unfold key_set. apply elem_of_list_to_set. Qed.

Lemma holds_dicts_get (d : dict value) (i : string) (o : value) :
  holds_dicts d -> dict_get i d = Some o -> exists o', o = VDict o'.
Proof.
  induction 1 as [|[k v] d Hv _ IH]; simpl; [done|].
  destruct (String.eqb i k); [|done]. by intros [= <-].
Qed.

(** The local variables with which [diff_baseline] returns on a baseline
    whose findings are a dictionary that holds dictionaries. *)
Lemma diff_baseline_frame_eq (old : Baseline) (fs : list Finding) (od : dict value) :
  findings old = VDict od ->
  holds_dicts od ->
  let nd := mapped_of fs in
  diff_baseline_frame old fs
  = Ok (mkDiffFrame
          (make_baseline fs (version old)) (key_set od) (key_set nd)
          (mkDiff (map (lookup_or_none nd) (sorted (key_set nd ∖ key_set od)))
                  (map (lookup_or_none od) (sorted (key_set od ∖ key_set nd)))
                  (change_records od nd (sorted (key_set od ∩ key_set nd))))).
Proof.
  intros Hod Hdicts nd. unfold diff_baseline_frame.
  rewrite make_baseline_findings, Hod. fold nd. cbn [py_keys bind].
  fold (key_set od). fold (key_set nd).
  rewrite mapM_getitem; cycle 1.
  { intros i Hi%elem_of_sorted. apply elem_of_key_set. set_solver. }
  cbn [bind]. rewrite mapM_getitem; cycle 1.
  { intros i Hi%elem_of_sorted. apply elem_of_key_set. set_solver. }
  cbn [bind]. rewrite changed_loop_eq; [done|].
  intros i Hi%elem_of_sorted. apply elem_of_intersection in Hi as [Ho Hn].
  apply elem_of_key_set, elem_of_dict_keys in Ho as [o Ho].
  apply elem_of_key_set, elem_of_dict_keys in Hn as [n Hn].
  destruct (holds_dicts_get _ _ _ Hdicts Ho) as [o' ->].
  destruct (mapped_of_lookup fs i n Hn) as (f & _ & _ & ->).
  eexists _, _. split; [done|exact Hn].
Qed.

(** What [diff_baseline] returns on such a baseline. *)
Lemma diff_baseline_eq (old : Baseline) (fs : list Finding) (od : dict value) :
  findings old = VDict od ->
  holds_dicts od ->
  let nd := mapped_of fs in
  diff_baseline old fs
  = Ok (mkDiff (map (lookup_or_none nd) (sorted (key_set nd ∖ key_set od)))
               (map (lookup_or_none od) (sorted (key_set od ∖ key_set nd)))
               (change_records od nd (sorted (key_set od ∩ key_set nd)))).
Proof.
  intros Hod Hdicts nd. unfold diff_baseline.
  by rewrite (diff_baseline_frame_eq old fs od Hod Hdicts).
Qed.

Lemma py_eq_str (x : value) (s : string) : py_eq x (VStr s) = true <-> x = VStr s.
Proof.
  destruct x; simpl; try (split; [discriminate|by intros [=]]).
  rewrite String.eqb_eq. split; [by intros ->|by intros [=]].
Qed.

Lemma py_ne_str (x : value) (s : string) : py_ne x (VStr s) = true <-> x <> VStr s.
Proof.
  unfold py_ne. rewrite negb_true_iff, <- not_true_iff_false. by rewrite py_eq_str.
Qed.

Lemma differs_to_dict (o : value) (f : Finding) :
  differs o (to_dict f) = true
  <-> field "severity" o <> field "severity" (to_dict f)
      \/ field "description" o <> field "description" (to_dict f).
Proof.
  unfold differs. rewrite orb_true_iff.
  change (field "severity" (to_dict f)) with (VStr (severity f)).
  change (field "description" (to_dict f)) with (VStr (description f)).
  by rewrite !py_ne_str.
Qed.





Lemma holds_dicts_set (d : dict value) (k : string) (o : dict value) :
  holds_dicts d -> holds_dicts (dict_set k (VDict o) d).
Proof.
  induction 1 as [|[k' v] d Hv Hd IH]; simpl.
  - repeat constructor. by eexists.
  - destruct (String.eqb k k'); constructor; try done. by eexists.
Qed.

Lemma holds_dicts_mapped_of (fs : list Finding) : holds_dicts (mapped_of fs).
Proof.
  unfold mapped_of. generalize (Forall_nil_2 (fun kv : string * value =>
                                                exists o, kv.2 = VDict o)).
  fold (holds_dicts []). generalize (@nil (string * value)).
  induction fs as [|f fs IH]; intros acc Hacc; simpl; [done|].
  apply IH. by apply holds_dicts_set.
Qed.

(** ** Claims on diff_baseline *)




(** [String.le] is the lexicographic order on bytes: the empty string comes
    first, and two non-empty strings compare by their first bytes, then by
    their tails. *)
Lemma string_le_lexicographic :
  (forall s, String.le "" s)
  /\ (forall c s, ~ String.le (String c s) "")
  /\ (forall a b s t,
        String.le (String a s) (String b t)
        <-> (N_of_ascii a < N_of_ascii b)%N \/ (a = b /\ String.le s t)).
Proof.
  unfold String.le, String.leb. split; [|split].
  - by intros [|c s].
  - intros c s. simpl. tauto.
  - intros a b s t. cbn [String.compare]. unfold Ascii.compare.
    destruct (N.compare_spec (N_of_ascii a) (N_of_ascii b)) as [He|Hl|Hg].
    + assert (a = b) as -> by (rewrite <- (ascii_N_embedding a), <- (ascii_N_embedding b);
                               by rewrite He).
      split; [by right|]. intros [H|[_ H]]; [lia|done].
    + split; [by left|done].
    + split; [done|]. intros [H|[-> _]]; lia.
Qed.

Lemma ascending_sorted (X : gset string) : ascending (sorted X).
Proof. split; [apply StronglySorted_sorted|apply NoDup_sorted]. Qed.





(** ** Deserialisation *)

(** C8, as stated, fails: the document [[]] parses, has neither field, and
    [from_json] raises on it. *)
Lemma from_json_raises_on_array :
  Json.loads "[]" = Ok (VList []) /\ from_json "[]" = Raise AttributeError.
Proof. split; vm_compute; reflexivity. Qed.

(** C8, amended: on a document whose top-level value is an object,
    [from_json] succeeds; an absent "version" gives the string "unknown", an
    absent "findings" the empty mapping, a present field is taken as it is,
    whatever else the object holds (a number with a fraction, say); and
    [from_json] of the empty object gives "unknown" and the empty
    mapping. *)
Theorem from_json_lenient_on_objects :
  (forall (text : string) (d : dict value),
      Json.loads text = Ok (VDict d) ->
      exists b, from_json text = Ok b
        /\ (dict_get "version" d = None -> version b = VStr "unknown")
        /\ (dict_get "findings" d = None -> findings b = VDict [])
        /\ (forall v, dict_get "version" d = Some v -> version b = v)
        /\ (forall v, dict_get "findings" d = Some v -> findings b = v))
  /\ from_json "{}" = Ok (mkBaseline (VStr "unknown") (VDict []))
  /\ from_json ("{" +:+ Json.encode_basestring "score" +:+ ": 1.5, "
                +:+ Json.encode_basestring "findings" +:+ ": {}, "
                +:+ Json.encode_basestring "ratio" +:+ ": [-2.5E-3, NaN]}")
     = Ok (mkBaseline (VStr "unknown") (VDict [])).
Proof.
  split; [|split; vm_compute; reflexivity].
  intros text d Hl. unfold from_json. rewrite Hl. cbn [bind py_get_default].
  eexists. split; [reflexivity|]. cbn [version findings].
  repeat split.
  - by intros ->.
  - by intros ->.
  - by intros v ->.
  - by intros v ->.
Qed.

Lemma from_json_lenient_on_objects_witness :
  exists b, from_json ("{ " +:+ Json.encode_basestring "score" +:+ ": 1.5 } ") = Ok b
            /\ version b = VStr "unknown" /\ findings b = VDict [].
Proof.
  destruct (proj1 from_json_lenient_on_objects
              ("{ " +:+ Json.encode_basestring "score" +:+ ": 1.5 } ")
              [("score", VFloat (Float.of_decimal false 15 (-1)))])
    as (b & Hb & Hv & Hf & _).
  - vm_compute. reflexivity.
  - exists b. split; [exact Hb|]. split; [by apply Hv|by apply Hf].
Defined.

(** ** Identifiers of findings with distinct check_id *)

Section Pigeonhole.
Local Open Scope Z_scope.

Lemma bounded_search (P : Z -> Prop) (n : Z) :
  (forall i, {P i} + {~ P i}) ->
  0 <= n ->
  (exists i, 0 <= i < n /\ P i) \/ (forall i, 0 <= i < n -> ~ P i).
Proof.
  intros Pdec Hn. pattern n. apply natlike_ind; [| |exact Hn].
  - right. intros i Hi. lia.
  - intros m Hm [(i & Hi & HP)|Hnone].
    + left. exists i. split; [lia|done].
    + destruct (Pdec m) as [HP|HP].
      * left. exists m. split; [lia|done].
      * right. intros i Hi. destruct (Z.eq_dec i m) as [->|]; [done|].
        apply Hnone. lia.
Qed.

(** More pigeons than holes: two of the values [g 0 .. g n] in [0, n)
    coincide. *)
Lemma pigeonhole (n : Z) :
  0 <= n ->
  forall g : Z -> Z,
    (forall i, 0 <= i <= n -> 0 <= g i < n) ->
    exists i j, 0 <= i < j /\ j <= n /\ g i = g j.
Proof.
  intros Hn. pattern n. apply natlike_ind; [| |exact Hn].
  - intros g Hg. specialize (Hg 0). lia.
  - clear n Hn. intros n Hn IH g Hg.
    destruct (bounded_search (fun i => g i = g (n + 1)) (n + 1)) as [(i & Hi & He)|Hnone].
    + intros i. apply Z.eq_dec.
    + lia.
    + exists i, (n + 1). split; [lia|]. split; [lia|done].
    + destruct (IH (fun i => if g i <? g (n + 1) then g i else g i - 1))
        as (i & j & Hij & Hj & He).
      * intros i Hi. pose proof (Hg i ltac:(lia)). pose proof (Hg (n + 1) ltac:(lia)).
        pose proof (Hnone i ltac:(lia)). cbn beta in *.
        destruct (Z.ltb_spec (g i) (g (n + 1))); lia.
      * exists i, j. split; [lia|]. split; [lia|].
        pose proof (Hnone i ltac:(lia)). pose proof (Hnone j ltac:(lia)).
        cbn beta in *.
        destruct (Z.ltb_spec (g i) (g (n + 1))), (Z.ltb_spec (g j) (g (n + 1))); lia.
Qed.

End Pigeonhole.

Section Words.
Local Open Scope Z_scope.

Lemma wrap32_range (x : Z) : 0 <= SHA256.wrap32 x < 2 ^ 32.
Proof.
  unfold SHA256.wrap32. change 0xFFFFFFFF with (Z.ones 32).
  rewrite Z.land_ones by lia. apply Z.mod_pos_bound. lia.
Qed.

Lemma compress_word_state (h : SHA256.state) (block : list Z) :
  word_state (SHA256.compress h block).
Proof.
  unfold word_state, SHA256.compress, SHA256.state_words. cbn [SHA256.sa SHA256.sb
    SHA256.sc SHA256.sd SHA256.se SHA256.sf SHA256.sg SHA256.sh].
  repeat constructor; apply wrap32_range.
Qed.

Lemma fold_compress_word_state (bl : list (list Z)) (h : SHA256.state) :
  word_state h -> word_state (fold_left SHA256.compress bl h).
Proof.
  revert h. induction bl as [|b bl IH]; intros h Hh; simpl; [done|].
  apply IH, compress_word_state.
Qed.

Lemma digest_state_words (msg : list Z) : word_state (SHA256.digest_state msg).
Proof.
  unfold SHA256.digest_state. apply fold_compress_word_state.
  unfold word_state, SHA256.state_words, SHA256.H0.
  cbn [SHA256.sa SHA256.sb SHA256.sc SHA256.sd SHA256.se SHA256.sf SHA256.sg SHA256.sh].
  repeat (apply Forall_cons_2; [lia|]). apply Forall_nil_2.
Qed.

Lemma digest64_range (s : string) :
  0 <= (digest64 s).1 < 2 ^ 32 /\ 0 <= (digest64 s).2 < 2 ^ 32.
Proof.
  pose proof (digest_state_words (encode_utf8 s)) as H.
  unfold word_state, SHA256.state_words in H.
  apply Forall_cons in H as [Ha H]. apply Forall_cons in H as [Hb _].
  done.
Qed.

Lemma nibble_range (i : nat) (x : Z) : 0 <= nibble i x < 16.
Proof.
  unfold nibble. change 0xF with (Z.ones 4). rewrite Z.land_ones by lia.
  apply Z.mod_pos_bound. lia.
Qed.

Lemma nibble_0 (x : Z) : nibble 0 x = x mod 16.
Proof.
  unfold nibble. change 0xF with (Z.ones 4). rewrite Z.land_ones by lia.
  by rewrite Z.shiftr_0_r.
Qed.

Lemma nibble_S (i : nat) (x : Z) : nibble (S i) x = nibble i (x / 16).
Proof.
  unfold nibble. f_equal.
  replace (4 * Z.of_nat (S i)) with (4 + 4 * Z.of_nat i) by lia.
  rewrite <- Z.shiftr_shiftr by lia. f_equal.
  by rewrite Z.shiftr_div_pow2 by lia.
Qed.

(** A number below 16^n is given by its n nibbles. *)
Lemma nibbles_inj (n : nat) (x y : Z) :
  0 <= x < 16 ^ Z.of_nat n -> 0 <= y < 16 ^ Z.of_nat n ->
  (forall i : nat, (i < n)%nat -> nibble i x = nibble i y) ->
  x = y.
Proof.
  revert x y. induction n as [|n IH]; intros x y Hx Hy Hn.
  - change (16 ^ Z.of_nat 0) with 1 in *. lia.
  - rewrite Nat2Z.inj_succ, Z.pow_succ_r in Hx, Hy by lia.
    assert (H0 : x mod 16 = y mod 16).
    { rewrite <- !nibble_0. apply Hn. lia. }
    assert (Hd : x / 16 = y / 16).
    { apply IH.
      - split; [apply Z.div_pos; lia|apply Z.div_lt_upper_bound; lia].
      - split; [apply Z.div_pos; lia|apply Z.div_lt_upper_bound; lia].
      - intros i Hi. rewrite <- !nibble_S. apply Hn. lia. }
    rewrite (Z.div_mod x 16), (Z.div_mod y 16) by lia. by rewrite H0, Hd.
Qed.

Lemma hex_digit_inj (a b : Z) :
  0 <= a < 16 -> 0 <= b < 16 -> SHA256.hex_digit a = SHA256.hex_digit b -> a = b.
Proof.
  intros Ha Hb.
  assert (a = 0 \/ a = 1 \/ a = 2 \/ a = 3 \/ a = 4 \/ a = 5 \/ a = 6 \/ a = 7 \/
          a = 8 \/ a = 9 \/ a = 10 \/ a = 11 \/ a = 12 \/ a = 13 \/ a = 14 \/ a = 15)
    as Ha' by lia.
  assert (b = 0 \/ b = 1 \/ b = 2 \/ b = 3 \/ b = 4 \/ b = 5 \/ b = 6 \/ b = 7 \/
          b = 8 \/ b = 9 \/ b = 10 \/ b = 11 \/ b = 12 \/ b = 13 \/ b = 14 \/ b = 15)
    as Hb' by lia.
  clear Ha Hb.
  repeat (destruct Ha' as [->|Ha']); try subst a;
    repeat (destruct Hb' as [->|Hb']); try subst b;
    simpl; intros H; first [reflexivity|discriminate H].
Qed.

Lemma hex_nibbles_inj (x y : Z) :
  0 <= x < 2 ^ 32 -> 0 <= y < 2 ^ 32 ->
  SHA256.hex_nibbles 8 x = SHA256.hex_nibbles 8 y -> x = y.
Proof.
  intros Hx Hy He. apply (nibbles_inj 8); [done|done|].
  intros i Hi. unfold SHA256.hex_nibbles in He.
  assert (Hin : In i (rev (seq 0 8))).
  { apply in_rev. rewrite rev_involutive. apply in_seq. lia. }
  pose proof (proj1 map_ext_in_iff He i Hin) as H. cbn beta in H.
  apply hex_digit_inj in H; [exact H|apply nibble_range|apply nibble_range].
Qed.

End Words.

Lemma stable_id_digest64 (f : Finding) :
  _stable_id f
  = String.string_of_list_ascii
      (SHA256.hex_nibbles 8 (digest64 (raw_spec f)).1
       ++ SHA256.hex_nibbles 8 (digest64 (raw_spec f)).2).
Proof.
  rewrite stable_id_raw. unfold digest64, sha256_hex, SHA256.hexdigest, SHA256.state_words.
  generalize (SHA256.digest_state (encode_utf8 (raw_spec f))). intros st.
  reflexivity.
Qed.

Lemma stable_id_eq_iff (f1 f2 : Finding) :
  _stable_id f1 = _stable_id f2 <-> digest64 (raw_spec f1) = digest64 (raw_spec f2).
Proof.
  rewrite !stable_id_digest64. split; [|by intros ->].
  intros H.
  apply (f_equal String.list_ascii_of_string) in H.
  rewrite !String.list_ascii_of_string_of_list_ascii in H.
  apply app_inj_1 in H as [H1 H2]; [|reflexivity].
  destruct (digest64_range (raw_spec f1)) as [? ?].
  destruct (digest64_range (raw_spec f2)) as [? ?].
  apply hex_nibbles_inj in H1; [|done..].
  apply hex_nibbles_inj in H2; [|done..].
  destruct (digest64 (raw_spec f1)), (digest64 (raw_spec f2)). simpl in *. congruence.
Qed.

Lemma int_repr_inj (i j : Z) : int_repr i = int_repr j -> i = j.
Proof.
  unfold int_repr. intros H. apply DecimalZ.to_int_inj.
  apply (f_equal NilEmpty.int_of_string) in H.
  rewrite !NilEmpty.isi in H. by injection H.
Qed.

Lemma list_ascii_of_string_app (s t : string) :
  String.list_ascii_of_string (s +:+ t)
  = String.list_ascii_of_string s ++ String.list_ascii_of_string t.
Proof. induction s as [|c s IH]; simpl; [done|]. by rewrite IH. Qed.

Lemma list_ascii_of_string_inj (s t : string) :
  String.list_ascii_of_string s = String.list_ascii_of_string t -> s = t.
Proof.
  intros H. apply (f_equal String.string_of_list_ascii) in H.
  by rewrite !String.string_of_list_ascii_of_string in H.
Qed.

Lemma str_app_inv_tail (s1 s2 t : string) : s1 +:+ t = s2 +:+ t -> s1 = s2.
Proof.
  intros H. apply list_ascii_of_string_inj.
  apply (f_equal String.list_ascii_of_string) in H.
  rewrite !list_ascii_of_string_app in H. by apply app_inv_tail in H.
Qed.

(** C9, as stated, fails: identifiers have 64 bits, so among the findings
    [numbered_finding 0 .. numbered_finding (2^64)], which share the anchor
    and differ in check_id, two have the same identifier. *)
Lemma distinct_check_ids_can_share_identifier :
  ~ (forall f1 f2 : Finding,
        anchor_spec f1 = anchor_spec f2 ->
        check_id f1 <> check_id f2 ->
        _stable_id f1 <> _stable_id f2).
Proof.
  intros Hclaim.
  pose (g := fun i : Z =>
               ((digest64 (raw_spec (numbered_finding i))).1 * 2 ^ 32
                + (digest64 (raw_spec (numbered_finding i))).2)%Z).
  destruct (pigeonhole (2 ^ 64) ltac:(lia) g) as (i & j & Hij & Hj & He).
  { intros i _. unfold g.
    destruct (digest64_range (raw_spec (numbered_finding i))). lia. }
  apply (Hclaim (numbered_finding i) (numbered_finding j)).
  - reflexivity.
  - cbn [numbered_finding check_id]. intros H%int_repr_inj. lia.
  - apply stable_id_eq_iff. unfold g in He.
    destruct (digest64_range (raw_spec (numbered_finding i))).
    destruct (digest64_range (raw_spec (numbered_finding j))).
    destruct (digest64 (raw_spec (numbered_finding i))) as [a b],
             (digest64 (raw_spec (numbered_finding j))) as [c d].
    cbn [fst snd] in *. f_equal; lia.
Qed.

(** C9, amended: two findings with the same anchor and different check_id
    are hashed from different strings, and their identifiers are equal
    exactly when the first 64 bits of the two digests are. *)
Theorem distinct_check_ids_distinct_preimages (f1 f2 : Finding) :
  anchor_spec f1 = anchor_spec f2 ->
  check_id f1 <> check_id f2 ->
  raw_spec f1 <> raw_spec f2
  /\ (_stable_id f1 = _stable_id f2
      <-> digest64 (raw_spec f1) = digest64 (raw_spec f2)).
Proof.
  intros Ha Hc. split; [|apply stable_id_eq_iff].
  unfold raw_spec. rewrite Ha. intros H. by apply str_app_inv_tail in H.
Qed.

Lemma distinct_check_ids_distinct_preimages_witness :
  let f1 := mkFinding "cron.artifacts" "t" "info" "d"
              [mkEvidence "filesystem" "path" (VStr "/etc/crontab")] None [] in
  let f2 := mkFinding "shell_init.files" "t" "info" "d"
              [mkEvidence "filesystem" "path" (VStr "/etc/crontab")] None [] in
  raw_spec f1 <> raw_spec f2
  /\ (_stable_id f1 = _stable_id f2
      <-> digest64 (raw_spec f1) = digest64 (raw_spec f2)).
Proof.
  intros f1 f2.
  apply (distinct_check_ids_distinct_preimages f1 f2); [reflexivity|discriminate].
Defined.


(** ** JSON: decoding an encoded value *)

Lemma str_length_app (a b : string) :
  String.length (a +:+ b) = String.length a + String.length b.
Proof. induction a as [|x a IH]; [done|]. rewrite str_app_cons. simpl. by rewrite IH. Qed.

Lemma skip_ws_spaces (n : nat) (s : string) :
  Json.skip_ws (Json.spaces n +:+ s) = Json.skip_ws s.
Proof. induction n as [|n IH]; [done|]. simpl Json.spaces. by rewrite str_app_cons. Qed.

Lemma skip_ws_newline_indent (level : nat) (s : string) :
  Json.skip_ws (Json.newline_indent level +:+ s) = Json.skip_ws s.
Proof.
  unfold Json.newline_indent. rewrite str_app_cons.
  change (Json.skip_ws (String newline ?t)) with (Json.skip_ws t).
  apply skip_ws_spaces.
Qed.

Lemma skip_ws_not_ws (c : ascii) (s : string) :
  Json.is_ws c = false -> Json.skip_ws (String c s) = String c s.
Proof. intros H. simpl. by rewrite H. Qed.

Lemma value_start_not_ws (c : ascii) : value_start c = true -> Json.is_ws c = false.
Proof.
  destruct c as [[] [] [] [] [] [] [] []]; intros H;
    first [reflexivity|by vm_compute in H].
Qed.

Lemma value_start_not_bracket (c : ascii) :
  value_start c = true -> Ascii.eqb c "]" = false.
Proof.
  destruct c as [[] [] [] [] [] [] [] []]; intros H;
    first [reflexivity|by vm_compute in H].
Qed.

Lemma value_start_not_bom (c : ascii) :
  value_start c = true -> Ascii.eqb (ascii_of_N 0xEF) c = false.
Proof.
  destruct c as [[] [] [] [] [] [] [] []]; intros H;
    first [reflexivity|by vm_compute in H].
Qed.

(** *** Strings *)

Lemma scanstring_char (c : ascii) (t : string) (fuel : nat) :
  Json.scanstring (S fuel) (Json.escape_char c +:+ t)
  = bind (Json.scanstring fuel t) (fun sr => Ok (String c (fst sr), snd sr)).
Proof. destruct c as [[] [] [] [] [] [] [] []]; reflexivity. Qed.

Lemma scanstring_escape (s rest : string) (fuel : nat) :
  String.length s < fuel ->
  Json.scanstring fuel (Json.escape s +:+ String dquote rest) = Ok (s, rest).
Proof.
  revert fuel. induction s as [|c s IH]; intros [|fuel] Hf; simpl in Hf; try lia.
  - reflexivity.
  - cbn [Json.escape]. rewrite str_app_assoc, scanstring_char, IH by lia.
    reflexivity.
Qed.

Lemma escape_char_length (c : ascii) : 1 <= String.length (Json.escape_char c).
Proof.
  unfold Json.escape_char.
  repeat match goal with |- context [if ?b then _ else _] => destruct b end;
    simpl; lia.
Qed.

Lemma escape_length (s : string) : String.length s <= String.length (Json.escape s).
Proof.
  induction s as [|c s IH]; simpl; [lia|].
  rewrite str_length_app. pose proof (escape_char_length c). lia.
Qed.

Lemma scanstring_encoded (s rest : string) :
  Json.scanstring (S (String.length (Json.escape s +:+ String dquote rest)))
                  (Json.escape s +:+ String dquote rest) = Ok (s, rest).
Proof.
  apply scanstring_escape. rewrite str_length_app.
  pose proof (escape_length s). lia.
Qed.

(** *** Numbers *)

Lemma number_end_cases (rest : string) :
  number_end rest = true ->
  Json.float_tail rest = false /\ Json.span_digits rest = ("", rest).
Proof.
  destruct rest as [|c r]; [done|]. cbn [number_end].
  rewrite negb_true_iff, !orb_false_iff. intros [[[Hd Hp] He] HE].
  split.
  - destruct r as [|d r]; [done|]. cbn [Json.float_tail]. by rewrite Hp, He, HE.
  - cbn [Json.span_digits]. by rewrite Hd.
Qed.

Lemma span_digits_uint (d : Decimal.uint) (rest : string) :
  number_end rest = true ->
  Json.span_digits (NilEmpty.string_of_uint d +:+ rest)
  = (NilEmpty.string_of_uint d, rest).
Proof.
  intros [_ Hr]%number_end_cases.
  induction d as [|d IH|d IH|d IH|d IH|d IH|d IH|d IH|d IH|d IH|d IH];
    [exact Hr|..];
    cbn [NilEmpty.string_of_uint]; rewrite str_app_cons;
    cbn [Json.span_digits]; rewrite IH; reflexivity.
Qed.

(** The decimal form of a positive number has no leading zero. *)
Lemma to_uint_head (p : positive) :
  exists c s, NilEmpty.string_of_uint (Pos.to_uint p) = String c s
              /\ Json.is_digit c = true /\ Ascii.eqb c "0" = false
              /\ Ascii.eqb c "-" = false.
Proof.
  assert (Hn : Decimal.unorm (Pos.to_uint p) = Pos.to_uint p).
  { pose proof (DecimalZ.to_of (Z.to_int (Zpos p))) as H.
    rewrite DecimalZ.of_to in H. cbn in H. by injection H as <-. }
  pose proof (DecimalPos.Unsigned.to_uint_nonzero p) as Hz.
  pose proof (DecimalFacts.nb_digits_nzhead (Pos.to_uint p)) as Hlen.
  destruct (Pos.to_uint p) as [|d|d|d|d|d|d|d|d|d|d] eqn:Hd;
    try (eexists _, _; split; [reflexivity|by vm_compute]).
  - by destruct (DecimalPos.Unsigned.to_uint_nonnil p).
  - exfalso. unfold Decimal.unorm in Hn. cbn [Decimal.nzhead] in Hn.
    pose proof (DecimalFacts.nb_digits_nzhead d) as Hlen'.
    destruct (Decimal.nzhead d) eqn:Hh; try (rewrite Hn in Hlen'; simpl in Hlen'; lia).
    by destruct Hz.
Qed.

Lemma of_uint_to_uint (p : positive) : Z.of_uint (Pos.to_uint p) = Zpos p.
Proof. unfold Z.of_uint. by rewrite DecimalPos.Unsigned.of_to. Qed.

Lemma scan_number_int_repr (z : Z) (rest : string) :
  number_end rest = true ->
  Json.scan_number (int_repr z +:+ rest) = Ok (VInt z, rest).
Proof.
  intros Hr. destruct (number_end_cases _ Hr) as [Hf _].
  unfold int_repr. destruct z as [|p|p]; cbn [Z.to_int NilEmpty.string_of_int].
  - change (Json.scan_number (String "0" rest) = Ok (VInt 0, rest)).
    cbn -[Json.float_tail]. by rewrite Hf.
  - destruct (to_uint_head p) as (c & s & Hs & Hd & H0 & Hm).
    pose proof (span_digits_uint (Pos.to_uint p) rest Hr) as Hsp.
    rewrite Hs in Hsp |- *. rewrite str_app_cons in Hsp |- *.
    unfold Json.scan_number. rewrite Hm, Hd, H0, Hsp, Hf.
    rewrite <- Hs, NilEmpty.usu, of_uint_to_uint. reflexivity.
  - destruct (to_uint_head p) as (c & s & Hs & Hd & H0 & Hm).
    pose proof (span_digits_uint (Pos.to_uint p) rest Hr) as Hsp.
    rewrite Hs in Hsp |- *. rewrite !str_app_cons in Hsp |- *.
    unfold Json.scan_number. cbn [Ascii.eqb Bool.eqb]. rewrite ?str_app_cons.
    rewrite Hd, H0, Hsp, Hf.
    rewrite <- Hs, NilEmpty.usu, of_uint_to_uint. reflexivity.
Qed.

Lemma int_repr_start (z : Z) :
  exists c s, int_repr z = String c s
              /\ (Json.is_digit c || Ascii.eqb c "-" = true).
Proof.
  unfold int_repr. destruct z as [|p|p]; cbn [Z.to_int NilEmpty.string_of_int].
  - by eexists _, _.
  - destruct (to_uint_head p) as (c & s & Hs & Hd & _). exists c, s.
    by rewrite Hs, Hd.
  - by eexists _, _.
Qed.

Lemma scan_once_number (fuel : nat) (c : ascii) (s : string) (vr : value * string) :
  Json.is_digit c || Ascii.eqb c "-" = true ->
  Json.scan_number (String c s) = Ok vr ->
  Json.scan_once (S fuel) (String c s) = Ok vr.
Proof.
  intros H Hn.
  assert (Hs : Json.scan_once (S fuel) (String c s)
               = match Json.scan_number (String c s) with
                 | Ok vr => Ok vr
                 | Raise _ => Json.scan_constant (String c s)
                 end).
  { clear Hn. destruct c as [[] [] [] [] [] [] [] []];
      first [by vm_compute in H|reflexivity]. }
  by rewrite Hs, Hn.
Qed.

(** *** Values *)

Lemma value_ind' (P : value -> Prop) :
  P VNone ->
  (forall b, P (VBool b)) ->
  (forall n, P (VInt n)) ->
  (forall x, P (VFloat x)) ->
  (forall s, P (VStr s)) ->
  (forall l, Forall P l -> P (VList l)) ->
  (forall d, Forall (fun kv : string * value => P kv.2) d -> P (VDict d)) ->
  forall v, P v.
Proof.
  intros HN HB HI HF HS HL HD. fix IH 1. intros [| b | n | x | s | l | d].
  - exact HN.
  - apply HB.
  - apply HI.
  - apply HF.
  - apply HS.
  - apply HL. induction l as [|x l IHl]; constructor; [apply IH|exact IHl].
  - apply HD. induction d as [|[k x] d IHd]; constructor; [apply IH|exact IHd].
Qed.

Lemma wf_value_list (l : list value) : wf_value (VList l) <-> Forall wf_value l.
Proof.
  induction l as [|x l IH]; simpl.
  - split; [constructor|done].
  - rewrite Forall_cons. simpl in IH. by rewrite IH.
Qed.

Lemma wf_value_dict (d : dict value) :
  wf_value (VDict d)
  <-> NoDup (map fst d) /\ Forall (fun kv : string * value => wf_value kv.2) d.
Proof.
  simpl. apply and_iff_compat_l.
  induction d as [|kv d IH]; simpl.
  - split; [constructor|done].
  - by rewrite Forall_cons, IH.
Qed.

Lemma digits_of_start (c : Z) :
  exists a s, Float.digits_of c = String a s /\ Json.is_digit a = true.
Proof.
  unfold Float.digits_of. destruct (Z.to_N c) as [|p]; [by eexists _, _|].
  destruct (to_uint_head p) as (a & s & Hs & Hd & _). by exists a, s.
Qed.

Lemma format_start (ds : string) (decpt : Z) (a : ascii) (s : string) :
  ds = String a s -> Json.is_digit a = true ->
  exists b t, Float.format ds decpt = String b t /\ Json.is_digit b = true.
Proof.
  intros -> Ha. unfold Float.format.
  destruct (_ || _).
  { eexists _, _. by rewrite !str_app_cons. }
  destruct (decpt <=? 0)%Z eqn:Hd; [by eexists _, _|].
  destruct (_ <=? decpt)%Z.
  { eexists _, _. by rewrite !str_app_cons. }
  destruct (Z.to_nat decpt) as [|k] eqn:Hk; [lia|].
  eexists _, _. cbn [Float.str_prefix]. by rewrite !str_app_cons.
Qed.

Lemma float_json_start (x : Float.t) :
  exists c s, Float.json x = String c s /\ value_start c = true.
Proof.
  destruct x as [|[]|[] m e]; try by eexists _, _.
  unfold Float.json, Float.repr_finite. rewrite str_app_nil_l.
  destruct (m =? 0)%Z; [by eexists _, _|].
  destruct (Float.scaled _ _ _) as [p q]. destruct (Float.shortest _ _ _ _ _ _ _) as [c s].
  destruct (Float.strip_zeros _ _ _) as [c' s'].
  destruct (digits_of_start c') as (a & t & Ht & Ha).
  destruct (format_start _ (Z.of_nat (String.length (Float.digits_of c')) + s') a t Ht Ha)
    as (b & u & Hu & Hb).
  exists b, u. split; [exact Hu|]. unfold value_start. by rewrite Hb.
Qed.

Lemma encode_start (level : nat) (v : value) :
  exists c s, Json.encode level v = String c s /\ value_start c = true.
Proof.
  destruct v as [| [] | n | x | s | [|x l] | [|[k x] d]]; try by eexists _, _.
  - destruct (int_repr_start n) as (c & s & Hs & Hc). exists c, s. split; [exact Hs|].
    unfold value_start. by rewrite Hc.
  - apply float_json_start.
Qed.

Lemma skip_ws_encode (level : nat) (v : value) (t : string) :
  Json.skip_ws (Json.encode level v +:+ t) = Json.encode level v +:+ t.
Proof.
  destruct (encode_start level v) as (c & s & -> & Hc).
  rewrite str_app_cons. by apply skip_ws_not_ws, value_start_not_ws.
Qed.

Lemma number_end_items (enc : value -> string) (level : nat) (l : list value) (t : string) :
  number_end (Json.encode_items enc level l +:+ t) = true.
Proof. by destruct l. Qed.

Lemma number_end_members (enc : value -> string) (level : nat) (d : dict value) (t : string) :
  number_end (Json.encode_members enc level d +:+ t) = true.
Proof. by destruct d as [|[k x] d]. Qed.

Lemma scan_item_S (fuel : nat) (s : string) (acc : list value) :
  Json.scan_item (S fuel) s acc
  = bind (Json.scan_once fuel s) (fun vr =>
      match Json.skip_ws (snd vr) with
      | String c rest =>
          if Ascii.eqb c "]" then Ok (VList (acc ++ [fst vr]), rest)
          else if Ascii.eqb c "," then
            Json.scan_item fuel (Json.skip_ws rest) (acc ++ [fst vr])
          else Raise JSONDecodeError
      | "" => Raise JSONDecodeError
      end).
Proof. reflexivity. Qed.

Lemma scan_item_encode (l : list value) :
  Forall decodes l ->
  forall (x : value) (acc : list value) (level : nat) (rest : string) (fuel : nat),
    decodes x ->
    list_sum (map (fun y => S (size y)) (x :: l)) <= fuel ->
    Json.scan_item fuel
      (Json.encode (S level) x
       +:+ (Json.encode_items (Json.encode (S level)) level l +:+ rest)) acc
    = Ok (VList (acc ++ x :: l), rest).
Proof.
  induction 1 as [|y l Hy _ IH]; intros x acc level rest [|fuel] Hx Hf;
    simpl in Hf; try lia.
  - rewrite scan_item_S, Hx; [|apply number_end_items|lia]. cbn [bind fst snd].
    cbn [Json.encode_items]. rewrite str_app_assoc, skip_ws_newline_indent.
    reflexivity.
  - rewrite scan_item_S, Hx; [|apply number_end_items|lia]. cbn [bind fst snd].
    cbn [Json.encode_items].
    repeat (rewrite str_app_assoc || rewrite str_app_cons || rewrite str_app_nil_l).
    rewrite skip_ws_not_ws by reflexivity.
    change (Ascii.eqb "," "]") with false. change (Ascii.eqb "," ",") with true.
    cbv iota. rewrite skip_ws_newline_indent, skip_ws_encode.
    rewrite IH; [|exact Hy|simpl; lia].
    by rewrite <- app_assoc.
Qed.

Lemma dict_set_fresh (k : string) (x : value) (acc : dict value) :
  k ∉ map fst acc -> dict_set k x acc = acc ++ [(k, x)].
Proof.
  induction acc as [|[k' v'] acc IH]; simpl; [done|].
  rewrite not_elem_of_cons. intros [Hne Hk].
  destruct (String.eqb_spec k k'); [done|]. by rewrite IH.
Qed.

Lemma scan_member_S (fuel : nat) (s : string) (acc : dict value) :
  Json.scan_member (S fuel) s acc
  = bind (Json.scanstring (S (String.length s)) s) (fun kr =>
      match Json.skip_ws (snd kr) with
      | String c s1 =>
          if Ascii.eqb c ":" then
            bind (Json.scan_once fuel (Json.skip_ws s1)) (fun vr =>
              let acc' := dict_set (fst kr) (fst vr) acc in
              match Json.skip_ws (snd vr) with
              | String c2 s2 =>
                  if Ascii.eqb c2 "}" then Ok (VDict acc', s2)
                  else if Ascii.eqb c2 "," then
                    match Json.skip_ws s2 with
                    | String c3 s3 =>
                        if Ascii.eqb c3 dquote then Json.scan_member fuel s3 acc'
                        else Raise JSONDecodeError
                    | "" => Raise JSONDecodeError
                    end
                  else Raise JSONDecodeError
              | "" => Raise JSONDecodeError
              end)
          else Raise JSONDecodeError
      | "" => Raise JSONDecodeError
      end).
Proof. reflexivity. Qed.

Lemma scan_member_encode (d : dict value) :
  Forall (fun kv : string * value => decodes kv.2) d ->
  forall (k : string) (x : value) (acc : dict value) (level : nat) (rest : string)
         (fuel : nat),
    decodes x ->
    NoDup (map fst acc ++ k :: map fst d) ->
    list_sum (map (fun kv : string * value => S (size kv.2)) ((k, x) :: d)) <= fuel ->
    Json.scan_member fuel
      (Json.escape k
       +:+ String dquote
             (String ":" (String " "
                (Json.encode (S level) x
                 +:+ (Json.encode_members (Json.encode (S level)) level d +:+ rest)))))
      acc
    = Ok (VDict (acc ++ (k, x) :: d), rest).
Proof.
  induction 1 as [|[k' y] d Hy _ IH]; intros k x acc level rest [|fuel] Hx Hnd Hf;
    simpl in Hf; try lia.
  - rewrite scan_member_S, scanstring_encoded. cbn [bind fst snd].
    rewrite skip_ws_not_ws by reflexivity. change (Ascii.eqb ":" ":") with true.
    cbv iota. change (Json.skip_ws (String " " ?t)) with (Json.skip_ws t).
    rewrite skip_ws_encode, Hx; [|apply number_end_members|lia]. cbn [bind fst snd].
    cbn [Json.encode_members]. rewrite str_app_assoc, skip_ws_newline_indent.
    rewrite dict_set_fresh; [reflexivity|].
    apply NoDup_app in Hnd as (_ & Hnd & _). intros Hk. apply (Hnd k Hk). by left.
  - rewrite scan_member_S, scanstring_encoded. cbn [bind fst snd].
    rewrite skip_ws_not_ws by reflexivity. change (Ascii.eqb ":" ":") with true.
    cbv iota. change (Json.skip_ws (String " " ?t)) with (Json.skip_ws t).
    rewrite skip_ws_encode, Hx; [|apply number_end_members|lia]. cbn [bind fst snd].
    cbn [Json.encode_members]. unfold Json.encode_basestring.
    repeat (rewrite str_app_assoc || rewrite str_app_cons || rewrite str_app_nil_l).
    rewrite skip_ws_not_ws by reflexivity.
    change (Ascii.eqb "," "}") with false. change (Ascii.eqb "," ",") with true.
    cbv iota. rewrite skip_ws_newline_indent.
    rewrite skip_ws_not_ws by reflexivity.
    change (Ascii.eqb dquote dquote) with true. cbv iota.
    rewrite dict_set_fresh; cycle 1.
    { apply NoDup_app in Hnd as (_ & Hnd & _). intros Hk. apply (Hnd k Hk). by left. }
    rewrite IH; [|exact Hy| |simpl; lia].
    + by rewrite <- app_assoc.
    + rewrite map_app. cbn [map fst]. by rewrite <- app_assoc.
Qed.

Lemma scan_once_string (fuel : nat) (s : string) :
  Json.scan_once (S fuel) (String dquote s)
  = bind (Json.scanstring (S (String.length s)) s) (fun sr => Ok (VStr (fst sr), snd sr)).
Proof. reflexivity. Qed.

Lemma scan_once_list (fuel : nat) (s : string) :
  Json.scan_once (S fuel) (String "[" s)
  = match Json.skip_ws s with
    | String c1 s1 =>
        if Ascii.eqb c1 "]" then Ok (VList [], s1)
        else Json.scan_item fuel (String c1 s1) []
    | "" => Raise JSONDecodeError
    end.
Proof. reflexivity. Qed.

Lemma scan_once_dict (fuel : nat) (s : string) :
  Json.scan_once (S fuel) (String "{" s)
  = match Json.skip_ws s with
    | String c1 s1 =>
        if Ascii.eqb c1 "}" then Ok (VDict [], s1)
        else if Ascii.eqb c1 dquote then Json.scan_member fuel s1 []
        else Raise JSONDecodeError
    | "" => Raise JSONDecodeError
    end.
Proof. reflexivity. Qed.

Lemma Forall_decodes {A : Type} (proj : A -> value) (l : list A) :
  Forall (fun a => wf_value (proj a) -> decodes (proj a)) l ->
  Forall (fun a => wf_value (proj a)) l ->
  Forall (fun a => decodes (proj a)) l.
Proof. intros H1 H2. induction H1; inversion H2; subst; constructor; auto. Qed.

(** Decoding the encoding of a well-formed value gives the value back and
    leaves the text that follows. *)
Lemma scan_once_encode (v : value) : wf_value v -> decodes v.
Proof.
  induction v as [| b | n | x | s | l IH | d IH] using value_ind'; intros Hwf.
  - intros level rest [|fuel] Hr Hf; simpl in Hf; [lia|]. reflexivity.
  - intros level rest [|fuel] Hr Hf; simpl in Hf; [lia|]. by destruct b.
  - intros level rest [|fuel] Hr Hf; simpl in Hf; [lia|].
    change (Json.encode level (VInt n)) with (int_repr n).
    destruct (int_repr_start n) as (c & s & Hs & Hc).
    rewrite Hs, str_app_cons. apply scan_once_number; [done|].
    rewrite <- str_app_cons, <- Hs. by apply scan_number_int_repr.
  - destruct Hwf.
  - intros level rest [|fuel] Hr Hf; simpl in Hf; [lia|].
    change (Json.encode level (VStr s)) with (String dquote (Json.escape s +:+ String dquote "")).
    rewrite str_app_cons, str_app_assoc, str_app_cons, str_app_nil_l.
    by rewrite scan_once_string, scanstring_encoded.
  - apply wf_value_list in Hwf.
    pose proof (Forall_decodes (fun x => x) l IH Hwf) as Hl. clear IH Hwf.
    intros level rest [|fuel] Hr Hf; [simpl in Hf; lia|].
    destruct Hl as [|x l Hx Hl]; [reflexivity|].
    change (Json.encode level (VList (x :: l)))
      with ("[" +:+ Json.newline_indent (S level) +:+ Json.encode (S level) x
            +:+ Json.encode_items (Json.encode (S level)) level l).
    repeat (rewrite str_app_assoc || rewrite str_app_cons || rewrite str_app_nil_l).
    rewrite scan_once_list, skip_ws_newline_indent, skip_ws_encode.
    destruct (encode_start (S level) x) as (c & s0 & Hs & Hc).
    rewrite Hs at 1. rewrite str_app_cons, (value_start_not_bracket _ Hc).
    rewrite <- str_app_cons, <- Hs.
    apply (scan_item_encode l Hl x [] level rest fuel Hx).
    change (size (VList (x :: l)))
      with (S (list_sum (map (fun y => S (size y)) (x :: l)))) in Hf. lia.
  - apply wf_value_dict in Hwf as [Hnd Hwf].
    pose proof (Forall_decodes (fun kv : string * value => kv.2) d IH Hwf) as Hd.
    clear IH Hwf.
    intros level rest [|fuel] Hr Hf; [simpl in Hf; lia|].
    destruct Hd as [|[k x] d Hx Hd]; [reflexivity|].
    change (Json.encode level (VDict ((k, x) :: d)))
      with ("{" +:+ Json.newline_indent (S level) +:+ Json.encode_basestring k +:+ ": "
            +:+ Json.encode (S level) x
            +:+ Json.encode_members (Json.encode (S level)) level d).
    unfold Json.encode_basestring.
    repeat (rewrite str_app_assoc || rewrite str_app_cons || rewrite str_app_nil_l).
    rewrite scan_once_dict, skip_ws_newline_indent.
    rewrite skip_ws_not_ws by reflexivity.
    change (Ascii.eqb dquote "}") with false. change (Ascii.eqb dquote dquote) with true.
    cbv iota.
    apply (scan_member_encode d Hd k x [] level rest fuel Hx Hnd).
    change (size (VDict ((k, x) :: d)))
      with (S (list_sum (map (fun kv : string * value => S (size kv.2)) ((k, x) :: d))))
      in Hf. lia.
Qed.

Lemma encode_items_length (level : nat) (l : list value) :
  Forall (fun x => forall level, size x <= String.length (Json.encode level x)) l ->
  list_sum (map (fun y => S (size y)) l)
  <= String.length (Json.encode_items (Json.encode (S level)) level l).
Proof.
  induction 1 as [|y l Hy _ IH]; simpl; [lia|].
  rewrite !str_length_app. specialize (Hy (S level)). simpl. lia.
Qed.

Lemma encode_members_length (level : nat) (d : dict value) :
  Forall (fun kv : string * value =>
            forall level, size kv.2 <= String.length (Json.encode level kv.2)) d ->
  list_sum (map (fun kv : string * value => S (size kv.2)) d)
  <= String.length (Json.encode_members (Json.encode (S level)) level d).
Proof.
  induction 1 as [|[k y] d Hy _ IH]; simpl; [lia|].
  rewrite !str_length_app. specialize (Hy (S level)). simpl in *. lia.
Qed.

Lemma encode_nonempty (level : nat) (v : value) :
  1 <= String.length (Json.encode level v).
Proof. destruct (encode_start level v) as (c & s & -> & _). simpl. lia. Qed.

Lemma size_le_length (v : value) (level : nat) :
  size v <= String.length (Json.encode level v).
Proof.
  revert level. induction v as [| b | n | x | s | l IH | d IH] using value_ind';
    intros level.
  - apply encode_nonempty.
  - apply encode_nonempty.
  - apply encode_nonempty.
  - apply encode_nonempty.
  - apply encode_nonempty.
  - destruct IH as [|x l Hx IH]; [simpl; lia|].
    pose proof (encode_items_length level l IH) as Hl.
    change (Json.encode level (VList (x :: l)))
      with ("[" +:+ Json.newline_indent (S level) +:+ Json.encode (S level) x
            +:+ Json.encode_items (Json.encode (S level)) level l).
    rewrite !str_length_app. specialize (Hx (S level)). simpl in *. lia.
  - destruct IH as [|[k x] d Hx IH]; [simpl; lia|].
    pose proof (encode_members_length level d IH) as Hl.
    change (Json.encode level (VDict ((k, x) :: d)))
      with ("{" +:+ Json.newline_indent (S level) +:+ Json.encode_basestring k +:+ ": "
            +:+ Json.encode (S level) x
            +:+ Json.encode_members (Json.encode (S level)) level d).
    rewrite !str_length_app. specialize (Hx (S level)). simpl in *. lia.
Qed.

(** [json.loads(json.dumps(v, indent=2, ensure_ascii=False)) == v] *)
Lemma loads_dumps (v : value) : wf_value v -> Json.loads (Json.dumps v) = Ok v.
Proof.
  intros Hwf. unfold Json.loads, Json.dumps.
  destruct (encode_start 0 v) as (c & s & Hs & Hc).
  assert (Hbom : Json.strip_prefix
                   (Json.byte_str 0xEF +:+ Json.byte_str 0xBB +:+ Json.byte_str 0xBF)
                   (Json.encode 0 v) = None).
  { rewrite Hs. unfold Json.byte_str. rewrite !str_app_cons. cbn [Json.strip_prefix].
    by rewrite (value_start_not_bom _ Hc). }
  rewrite Hbom.
  rewrite <- (str_app_nil_r (Json.encode 0 v)) at 2.
  rewrite skip_ws_encode.
  rewrite (scan_once_encode v Hwf 0 ""); [reflexivity|reflexivity|].
  pose proof (size_le_length v 0). lia.
Qed.

(** ** Serialisation round trip *)



(** ** Two runs of the diff on small baselines *)

(** A finding kept from one run to the next with a raised severity and one
    more evidence entry is reported as changed, and as nothing else. *)
Example diff_reports_raised_severity :
  let a_old := mkFinding "cron.artifacts" "Cron artifact" "info" "d"
                 [mkEvidence "filesystem" "path" (VStr "/etc/crontab")] None [] in
  let a_new := mkFinding "cron.artifacts" "Cron artifact" "medium" "d"
                 [mkEvidence "filesystem" "path" (VStr "/etc/crontab");
                  mkEvidence "heuristics" "flags" (VList [VStr "curl"])] None [] in
  diff_baseline (make_baseline [a_old] (VStr "0.1.0")) [a_new]
  = Ok (mkDiff [] [] [change_record "435def84fdddd872" (to_dict a_old) (to_dict a_new)]).
Proof. vm_compute. reflexivity. Qed.

(** A finding that disappears and another one that appears are reported as
    removed and added. *)
Example diff_reports_added_and_removed :
  let a := mkFinding "cron.artifacts" "Cron artifact" "info" "d"
             [mkEvidence "filesystem" "path" (VStr "/etc/crontab")] None [] in
  let b := mkFinding "shell_init.files" "Shell init file" "low" "d"
             [mkEvidence "filesystem" "path" (VStr "/root/.bashrc")] None [] in
  diff_baseline (make_baseline [a] (VStr "0.1.0")) [b]
  = Ok (mkDiff [to_dict b] [to_dict a] []).
Proof. vm_compute. reflexivity. Qed.

(** * Further properties of the baseline engine *)

(** ** The mapping built by make_baseline *)










(** ** Saving, loading and comparing *)










(** ** Failures of from_json and diff_baseline *)

(** X5: [from_json] raises [AttributeError] on the JSON text of any value
    that is not an object (null, a boolean, a number, a string, an array),
    and [JSONDecodeError] on a text made of spaces only. *)
Theorem from_json_rejects_non_objects :
  (forall v : value,
      wf_value v -> (forall d, v <> VDict d) ->
      from_json (Json.dumps v) = Raise AttributeError)
  /\ (forall n : nat, from_json (Json.spaces n) = Raise JSONDecodeError).
Proof.
  split.
  - intros v Hwf Hv. unfold from_json. rewrite loads_dumps by done.
    destruct v; try reflexivity. by destruct (Hv d).
  - intros n. unfold from_json, Json.loads.
    assert (Hb : Json.strip_prefix
                   (Json.byte_str 0xEF +:+ Json.byte_str 0xBB +:+ Json.byte_str 0xBF)
                   (Json.spaces n) = None) by (by destruct n).
    rewrite Hb. rewrite <- (str_app_nil_r (Json.spaces n)), skip_ws_spaces.
    destruct (2 * String.length (Json.spaces n +:+ "") + 2) as [|fuel] eqn:Hfuel;
      [lia|reflexivity].
Qed.

Lemma from_json_rejects_non_objects_witness :
  from_json (Json.dumps (VList [VStr "a"; VInt 1])) = Raise AttributeError.
Proof.
  apply (proj1 from_json_rejects_non_objects (VList [VStr "a"; VInt 1])).
  - simpl. tauto.
  - discriminate.
Defined.




(** ** Shapes of the diff *)

(** [diff_baseline] needs dictionaries only under the identifiers that the
    old and the new mapping share. *)
Lemma diff_baseline_eq_shared (old : Baseline) (fs : list Finding) (od : dict value) :
  findings old = VDict od ->
  (forall i o, dict_get i od = Some o -> i ∈ dict_keys (mapped_of fs) ->
               exists d, o = VDict d) ->
  let nd := mapped_of fs in
  diff_baseline old fs
  = Ok (mkDiff (map (lookup_or_none nd) (sorted (key_set nd ∖ key_set od)))
               (map (lookup_or_none od) (sorted (key_set od ∖ key_set nd)))
               (change_records od nd (sorted (key_set od ∩ key_set nd)))).
Proof.
  intros Hod Hdicts nd. unfold diff_baseline, diff_baseline_frame.
  rewrite make_baseline_findings, Hod. fold nd. cbn [py_keys bind].
  fold (key_set od). fold (key_set nd).
  rewrite mapM_getitem; cycle 1.
  { intros i Hi%elem_of_sorted. apply elem_of_key_set. set_solver. }
  cbn [bind]. rewrite mapM_getitem; cycle 1.
  { intros i Hi%elem_of_sorted. apply elem_of_key_set. set_solver. }
  cbn [bind]. rewrite changed_loop_eq; [done|].
  intros i Hi%elem_of_sorted. apply elem_of_intersection in Hi as [Ho Hn].
  apply elem_of_key_set in Hn.
  apply elem_of_key_set, elem_of_dict_keys in Ho as [o Ho].
  destruct (Hdicts i o Ho Hn) as [o' ->].
  apply elem_of_dict_keys in Hn as [n Hn].
  destruct (mapped_of_lookup fs i n Hn) as (f & _ & _ & ->).
  eexists _, _. split; [done|exact Hn].
Qed.

(** X7: compared with no findings at all, every value stored in the old
    baseline is reported as removed, in ascending order of identifier and
    whatever the value is, and nothing is added or changed. *)
Theorem diff_with_no_findings (old : Baseline) (od : dict value) :
  findings old = VDict od ->
  exists ids : list string,
    diff_baseline old [] = Ok (mkDiff [] (map (lookup_or_none od) ids) [])
    /\ ascending ids
    /\ (forall i, i ∈ ids <-> i ∈ dict_keys od).
Proof.
  intros Hod. exists (sorted (key_set od)). split; [|split].
  - rewrite (diff_baseline_eq_shared old [] od Hod); cycle 1.
    { intros i o _ Hi. by apply elem_of_nil in Hi. }
    cbn zeta. change (mapped_of []) with (@nil (string * value)).
    change (key_set []) with (∅ : gset string).
    rewrite difference_empty_L, intersection_empty_r_L.
    replace (∅ ∖ key_set od) with (∅ : gset string) by set_solver.
    by rewrite sorted_empty.
  - apply ascending_sorted.
  - intros i. by rewrite elem_of_sorted, elem_of_key_set.
Qed.

Lemma diff_with_no_findings_witness :
  diff_baseline
    (mkBaseline (VStr "0.1.0")
       (VDict [("ffff000000000000", VDict [("severity", VStr "low")]);
               ("0000000000000000", VInt 7)])) []
  = Ok (mkDiff [] [VInt 7; VDict [("severity", VStr "low")]] []).
Proof.
  destruct (diff_with_no_findings
              (mkBaseline (VStr "0.1.0")
                 (VDict [("ffff000000000000", VDict [("severity", VStr "low")]);
                         ("0000000000000000", VInt 7)])) _ eq_refl)
    as (ids & Hr & _).
  rewrite Hr. by vm_compute.
Defined.







(** ** The form of an identifier *)

Lemma hex_digit_lower_hex (n : Z) :
  (0 <= n < 16)%Z -> is_lower_hex (SHA256.hex_digit n) = true.
Proof.
  intros Hn. replace n with (Z.of_nat (Z.to_nat n)) by lia.
  assert (Hk : (Z.to_nat n < 16)%nat) by lia.
  revert Hk. generalize (Z.to_nat n). clear n Hn. intros k Hk.
  do 16 (destruct k as [|k]; [reflexivity|]). lia.
Qed.

Lemma hex_nibbles_lower_hex (k : nat) (x : Z) :
  Forall (fun c => is_lower_hex c = true) (SHA256.hex_nibbles k x).
Proof.
  unfold SHA256.hex_nibbles. apply Forall_fmap, Forall_forall. intros i _.
  apply (hex_digit_lower_hex (nibble i x)), nibble_range.
Qed.

(** X11: a stable identifier consists of lowercase hexadecimal digits
    only. *)
Theorem stable_id_is_lower_hex (f : Finding) :
  Forall (fun c => is_lower_hex c = true)
         (String.list_ascii_of_string (_stable_id f)).
Proof.
  rewrite stable_id_digest64, String.list_ascii_of_string_of_list_ascii.
  apply Forall_app. split; apply hex_nibbles_lower_hex.
Qed.

(** ** The diff of one finding against one finding *)

Lemma sorted_singleton (i : string) : sorted {[ i ]} = [i].
Proof. unfold sorted. by rewrite elements_singleton. Qed.

Lemma mapped_of_singleton (f : Finding) : mapped_of [f] = [(_stable_id f, to_dict f)].
Proof. reflexivity. Qed.

Lemma key_set_singleton (i : string) (v : value) : key_set [(i, v)] = {[ i ]}.
Proof. unfold key_set. cbn [dict_keys map fst list_to_set]. set_solver. Qed.

Lemma diff_single_eq (f g : Finding) (v : string) :
  diff_baseline (make_baseline [f] (VStr v)) [g]
  = Ok (if decide (_stable_id f = _stable_id g)
        then if decide (severity f = severity g /\ description f = description g)
             then mkDiff [] [] []
             else mkDiff [] [] [change_record (_stable_id f) (to_dict f) (to_dict g)]
        else mkDiff [to_dict g] [to_dict f] []).
Proof.
  rewrite (diff_baseline_eq _ [g] (mapped_of [f]));
    [|apply make_baseline_findings|apply holds_dicts_mapped_of].
  cbn zeta. rewrite !mapped_of_singleton, !key_set_singleton.
  generalize (_stable_id f) (_stable_id g). intros i j.
  destruct (decide (i = j)) as [He|Hne].
  - rewrite He. clear He i.
    replace ({[j]} ∖ {[j]}) with (∅ : gset string) by set_solver.
    replace ({[j]} ∩ {[j]}) with ({[j]} : gset string) by set_solver.
    rewrite sorted_empty, sorted_singleton. cbn [map change_records flat_map].
    unfold lookup_or_none. cbn [dict_get]. rewrite String.eqb_refl.
    cbn [default from_option id]. rewrite app_nil_r.
    destruct (decide (severity f = severity g /\ description f = description g))
      as [[Hs Hd]|Hn].
    + destruct (differs (to_dict f) (to_dict g)) eqn:Hdiff; [|done].
      apply differs_to_dict in Hdiff.
      change (field "severity" (to_dict f)) with (VStr (severity f)) in Hdiff.
      change (field "description" (to_dict f)) with (VStr (description f)) in Hdiff.
      change (field "severity" (to_dict g)) with (VStr (severity g)) in Hdiff.
      change (field "description" (to_dict g)) with (VStr (description g)) in Hdiff.
      rewrite Hs, Hd in Hdiff. naive_solver.
    + destruct (differs (to_dict f) (to_dict g)) eqn:Hdiff; [done|].
      apply not_true_iff_false in Hdiff. rewrite differs_to_dict in Hdiff.
      change (field "severity" (to_dict f)) with (VStr (severity f)) in Hdiff.
      change (field "description" (to_dict f)) with (VStr (description f)) in Hdiff.
      change (field "severity" (to_dict g)) with (VStr (severity g)) in Hdiff.
      change (field "description" (to_dict g)) with (VStr (description g)) in Hdiff.
      destruct Hn. split.
      * destruct (decide (severity f = severity g)); [done|].
        destruct Hdiff. left. congruence.
      * destruct (decide (description f = description g)); [done|].
        destruct Hdiff. right. congruence.
  - replace ({[j]} ∖ {[i]}) with ({[j]} : gset string) by set_solver.
    replace ({[i]} ∖ {[j]}) with ({[i]} : gset string) by set_solver.
    replace ({[i]} ∩ {[j]}) with (∅ : gset string) by set_solver.
    rewrite sorted_empty, !sorted_singleton. cbn [map change_records flat_map].
    unfold lookup_or_none. cbn [dict_get]. by rewrite !String.eqb_refl.
Qed.


(** * Properties of the checks *)

(** ** Prefixes and substrings *)

Lemma startswith_spec (p s : string) :
  PyStr.startswith p s = true <-> exists r, s = p +:+ r.
Proof.
  revert s. induction p as [|a p IH]; intros s; simpl.
  - split; [by exists s|done].
  - destruct s as [|b s].
    + split; [done|]. intros [r Hr]. by rewrite str_app_cons in Hr.
    + rewrite andb_true_iff, IH. split.
      * intros [Hab%Ascii.eqb_eq [r ->]]. subst b. by exists r.
      * intros [r Hr]. rewrite str_app_cons in Hr. injection Hr as -> ->.
        split; [apply Ascii.eqb_refl|by exists r].
Qed.

Lemma contains_spec (needle hay : string) :
  PyStr.contains needle hay = true <-> exists pre post, hay = pre +:+ needle +:+ post.
Proof.
  induction hay as [|c hay IH]; simpl.
  - rewrite orb_false_r, startswith_spec. split.
    + intros [r Hr]. by exists "", r.
    + intros (pre & post & H). destruct pre; [by exists post|by rewrite str_app_cons in H].
  - rewrite orb_true_iff, startswith_spec, IH. split.
    + intros [[r Hr]|(pre & post & ->)]; [by exists "", r|].
      by exists (String c pre), post.
    + intros (pre & post & H). destruct pre as [|a pre].
      * left. by exists post.
      * right. rewrite str_app_cons in H. injection H as -> ->. by exists pre, post.
Qed.

(** A text that holds a string holds every part of it. *)
Lemma contains_part (a b c hay : string) :
  PyStr.contains (a +:+ b +:+ c) hay = true -> PyStr.contains b hay = true.
Proof.
  rewrite !contains_spec. intros (pre & post & ->).
  exists (pre +:+ a), (c +:+ post). by rewrite !str_app_assoc.
Qed.

Lemma first_hint_Some (test : string -> bool) (hints : list string) (h : string) :
  first_hint test hints = Some h ->
  exists pre post, hints = pre ++ h :: post /\ test h = true
                   /\ Forall (fun x => test x = false) pre.
Proof.
  unfold first_hint. induction hints as [|x hints IH]; simpl; [done|].
  destruct (test x) eqn:Hx.
  - intros [= ->]. by exists [], hints.
  - intros (pre & post & -> & Hh & Hpre)%IH. exists (x :: pre), post.
    split; [done|]. split; [done|]. by constructor.
Qed.

Lemma first_hint_None (test : string -> bool) (hints : list string) :
  first_hint test hints = None <-> Forall (fun x => test x = false) hints.
Proof.
  unfold first_hint. induction hints as [|x hints IH]; simpl.
  - split; [constructor|done].
  - destruct (test x) eqn:Hx.
    + split; [done|]. intros [H _]%Forall_cons. congruence.
    + rewrite IH. split; [by constructor|by intros [_ H]%Forall_cons].
Qed.

Lemma existsb_first_hint (test : string -> bool) (hints : list string) :
  existsb test hints
  = match first_hint test hints with Some _ => true | None => false end.
Proof.
  unfold first_hint. induction hints as [|h hs IH]; simpl; [done|]. by destruct (test h).
Qed.

(** ** Severities *)

Lemma max_by_fold {A : Type} (key : A -> nat) (rest : list A) (x : A) :
  let m := max_by key x rest in
  key x <= key m
  /\ Forall (fun y => key y <= key m) rest
  /\ (m = x /\ Forall (fun y => key y <= key x) rest
      \/ exists pre post, rest = pre ++ m :: post
           /\ key x < key m /\ Forall (fun y => key y < key m) pre).
Proof.
  unfold max_by. cbv zeta. revert x.
  induction rest as [|y rest IH]; intros x; cbn [fold_left].
  - split; [lia|]. split; [constructor|]. left. split; [done|constructor].
  - destruct (Nat.ltb_spec (key x) (key y)) as [Hlt|Hge]; cbv iota.
    + destruct (IH y) as (Hy & Hrest & Hcase). split; [lia|]. split; [by constructor|].
      right. destruct Hcase as [[Hm Hall]|(pre & post & Heq & Hlt' & Hpre)].
      * exists [], rest. rewrite Hm. split; [done|]. split; [done|constructor].
      * exists (y :: pre), post. split; [by rewrite Heq at 1|]. split; [lia|].
        constructor; [done|]. exact Hpre.
    + destruct (IH x) as (Hx & Hrest & Hcase). split; [done|].
      split; [constructor; [lia|done]|].
      destruct Hcase as [[Hm Hall]|(pre & post & Heq & Hlt' & Hpre)].
      * left. split; [done|]. constructor; [lia|done].
      * right. exists (y :: pre), post. split; [by rewrite Heq at 1|]. split; [done|].
        constructor; [lia|done].
Qed.

(** X13: [_severity_from] returns the severity of the first flag whose rank
    is maximal, a severity outside the table ranking like "info": no flag
    ranks higher than the result, and every flag before the chosen one
    ranks strictly lower. *)
Theorem severity_from_is_first_maximum (flags : list flag) :
  flags <> [] ->
  let s := Cron._severity_from flags in
  Forall (fun f : flag => Cron.rank_or_zero f.1 <= Cron.rank_or_zero s) flags
  /\ exists pre f post,
       flags = pre ++ f :: post /\ f.1 = s
       /\ Forall (fun g : flag => Cron.rank_or_zero g.1 < Cron.rank_or_zero s) pre.
Proof.
  destruct flags as [|fl flags]; [done|]. intros _. cbn [Cron._severity_from].
  destruct (max_by_fold Cron.rank_or_zero (map fst flags) fl.1) as (Hx & Hrest & Hcase).
  cbn zeta in *. split.
  - constructor; [done|]. by apply Forall_fmap in Hrest.
  - destruct Hcase as [[Hm _]|(pre & post & Heq & Hlt & Hpre)].
    + exists [], fl, flags. split; [done|]. split; [done|constructor].
    + apply fmap_app_inv in Heq as (pre' & rest' & -> & Hrest' & ->).
      destruct rest' as [|f post']; [done|]. injection Hrest' as Hf ->.
      exists (fl :: pre'), f, post'. split; [done|]. split; [done|].
      constructor; [done|]. by apply Forall_fmap in Hpre.
Qed.

Lemma severity_from_is_first_maximum_witness :
  let flags : list flag := [("low", "a"); ("bogus", "b"); ("medium", "c"); ("medium", "d")] in
  let s := Cron._severity_from flags in
  Forall (fun f : flag => Cron.rank_or_zero f.1 <= Cron.rank_or_zero s) flags
  /\ exists pre f post,
       flags = pre ++ f :: post /\ f.1 = s
       /\ Forall (fun g : flag => Cron.rank_or_zero g.1 < Cron.rank_or_zero s) pre.
Proof.
  intros flags. apply (severity_from_is_first_maximum flags). discriminate.
Defined.

(** ** cron: the flags of a cron file *)

Lemma looks_suspicious_parts (lower : string -> string) (text : string) :
  Cron._looks_suspicious lower text
  = (if PyStr.contains "http://" (lower text) || PyStr.contains "https://" (lower text)
     then [("medium",
            "Cron content includes URL(s); review for unexpected network retrieval.")]
     else [])
    ++ (match first_hint (fun hint => PyStr.contains hint text)
                         Cron.SUSPICIOUS_PATH_HINTS with
        | Some hint => [("medium", "Cron references potentially risky location: " +:+ hint)]
        | None => []
        end)
    ++ (if PyStr.contains "base64" (lower text)
        then [("low", "Cron content references 'base64'; verify intent and source.")]
        else [])
    ++ (if PyStr.contains "/." text
        then [("low", "Cron references hidden path(s) (dot-files/dirs); verify intent.")]
        else []).
Proof.
  unfold Cron._looks_suspicious.
  destruct (_ || _), (first_hint _ _), (PyStr.contains "base64" _),
    (PyStr.contains "/." _); reflexivity.
Qed.

(** X14: the severity that [cron.run] derives from the content of a cron
    file is "medium" exactly when the lowered text holds a URL scheme or the
    text holds one of the risky-location hints, "low" exactly when it is not
    "medium" and the text mentions base64 or a hidden path, and "info"
    exactly when there is no flag; it is never "high". *)
Theorem cron_severity_of_content (lower : string -> string) (text : string) :
  let flags := Cron._looks_suspicious lower text in
  let url := PyStr.contains "http://" (lower text)
             || PyStr.contains "https://" (lower text) in
  let risky := existsb (fun hint => PyStr.contains hint text) Cron.SUSPICIOUS_PATH_HINTS in
  let minor := PyStr.contains "base64" (lower text) || PyStr.contains "/." text in
  Cron._severity_from flags
  = (if url || risky then "medium" else if minor then "low" else "info")
  /\ (flags = [] <-> url || risky || minor = false)
  /\ length flags <= 4.
Proof.
  cbv zeta. rewrite looks_suspicious_parts.
  rewrite existsb_first_hint.
  destruct (PyStr.contains "http://" (lower text) || PyStr.contains "https://" (lower text)),
    (first_hint _ _) as [h|], (PyStr.contains "base64" _), (PyStr.contains "/." _);
    (split; [reflexivity|split; [split; intros; discriminate || reflexivity|simpl; lia]]).
Qed.

Lemma hint_message_inj (msg h1 h2 : string) (s1 s2 : string) :
  (s1, msg +:+ h1) = (s2, msg +:+ h2) -> h1 = h2.
Proof. intros [= _ H]. by apply String.app_inj in H. Qed.

(** A text holding "/var/tmp/" holds "/tmp/", the earlier hint. *)
Lemma first_hint_not_var_tmp (text : string) (hints_after : list string) :
  first_hint (fun hint => PyStr.contains hint text) ("/tmp/" :: hints_after)
  <> Some "/var/tmp/".
Proof.
  unfold first_hint. cbn [find]. destruct (PyStr.contains "/tmp/" text) eqn:Ht; [done|].
  intros H. apply find_some in H as [_ H].
  apply (contains_part "/var" "/tmp/" "") in H. congruence.
Qed.

(** ** systemd: the flags of a unit *)

Lemma heuristics_parts (u : Systemd.UnitInfo) :
  Systemd._heuristics u
  = (if String.eqb (Systemd.scope u) "user" && String.eqb (Systemd.enabled_state u) "enabled"
     then [("low", "Enabled user-level service")] else [])
    ++ (match Systemd.drop_in_paths u with
        | [] => []
        | _ => [("low", "Service has drop-in override snippets")]
        end)
    ++ (match Systemd.unit_file u with
        | Some p =>
            (if existsb (fun h => PyStr.contains h p) Systemd.LOCAL_UNIT_DIR_HINTS
                && String.eqb (Systemd.enabled_state u) "enabled"
             then [("medium", "Enabled unit from local override directory")] else [])
            ++ (if String.eqb (Systemd.scope u) "user"
                   && PyStr.contains "/.config/systemd/user/" p
                   && String.eqb (Systemd.enabled_state u) "enabled"
                then [("medium", "Enabled unit in user config directory")] else [])
        | None => [("info", "FragmentPath unavailable")]
        end)
    ++ (match Systemd.exec_start u with
        | None => []
        | Some "" => []
        | Some es =>
            (match first_hint (fun hint => PyStr.contains hint es)
                              Systemd.SUSPICIOUS_PATH_HINTS with
             | Some hint => [("medium", "ExecStart references risky path: " +:+ hint)]
             | None => []
             end)
            ++ (match Systemd._extract_exec_path es with
                | Some ep =>
                    if negb (String.eqb ep "")
                       && (PyStr.startswith "/tmp/" ep || PyStr.startswith "/dev/shm/" ep)
                    then [("high", "Executable path in temp or memory-backed directory")]
                    else []
                | None => []
                end)
        end).
Proof.
  unfold Systemd._heuristics.
  destruct (String.eqb (Systemd.scope u) "user" && _), (Systemd.drop_in_paths u),
    (Systemd.unit_file u) as [p|], (Systemd.exec_start u) as [[|c es]|];
    cbv zeta;
    repeat match goal with
           | |- context [if ?b then _ else _] => destruct b
           | |- context [match first_hint ?t ?l with _ => _ end] => destruct (first_hint t l)
           | |- context [match Systemd._extract_exec_path ?e with _ => _ end] =>
               destruct (Systemd._extract_exec_path e)
           end;
    reflexivity.
Qed.

(** X15: the checks that look for the risky-location hints anywhere in a
    text (cron content, ExecStart of a unit, autostart entry) never report
    the hint "/var/tmp/": a text that holds it holds "/tmp/", which comes
    first in each table. *)
Theorem var_tmp_hint_is_never_reported :
  (forall (lower : string -> string) (text sev : string),
      (sev, "Cron references potentially risky location: /var/tmp/")
      ∉ Cron._looks_suspicious lower text)
  /\ (forall (u : Systemd.UnitInfo) (sev : string),
        (sev, "ExecStart references risky path: /var/tmp/") ∉ Systemd._heuristics u)
  /\ (forall (lower : string -> string) (text : option string) (sev : string),
        (sev, "Autostart Exec contains suspicious token: /var/tmp/")
        ∉ XdgAutostart._scan_desktop_file lower text).
Proof.
  split; [|split].
  - intros lower text sev. rewrite looks_suspicious_parts.
    rewrite !elem_of_app.
    pose proof (first_hint_not_var_tmp text
                  ["/dev/shm/"; "/var/tmp/"; "/run/user/"; "/.cache/"; "/.local/share/"]) as Hv.
    change ("/tmp/" :: _) with Cron.SUSPICIOUS_PATH_HINTS in Hv.
    destruct (_ || _), (first_hint _ Cron.SUSPICIOUS_PATH_HINTS) as [h|],
      (PyStr.contains "base64" _), (PyStr.contains "/." _);
      rewrite ?elem_of_cons, ?elem_of_nil;
      intros H; repeat (destruct H as [H|H]); try done; try discriminate H;
      apply (hint_message_inj "Cron references potentially risky location: " "/var/tmp/")
        in H; congruence.
  - intros u sev. rewrite heuristics_parts. rewrite !elem_of_app.
    assert (Hes : forall es,
               (sev, "ExecStart references risky path: /var/tmp/")
               ∉ match first_hint (fun hint => PyStr.contains hint es)
                                  Systemd.SUSPICIOUS_PATH_HINTS with
                 | Some hint => [("medium", "ExecStart references risky path: " +:+ hint)]
                 | None => []
                 end).
    { intros es.
      pose proof (first_hint_not_var_tmp es
                    ["/dev/shm/"; "/var/tmp/"; "/run/user/"; "/.cache/"; "/.local/share/"])
        as Hv.
      change ("/tmp/" :: _) with Systemd.SUSPICIOUS_PATH_HINTS in Hv.
      destruct (first_hint _ Systemd.SUSPICIOUS_PATH_HINTS) as [h|];
        rewrite ?elem_of_cons, ?elem_of_nil; intros H;
        repeat (destruct H as [H|H]); try done.
      apply (hint_message_inj "ExecStart references risky path: " "/var/tmp/") in H.
      congruence. }
    intros [H|[H|[H|H]]].
    + destruct (_ && _); rewrite ?elem_of_cons, elem_of_nil in H;
        repeat (destruct H as [H|H]); done.
    + destruct (Systemd.drop_in_paths u); rewrite ?elem_of_cons, elem_of_nil in H;
        repeat (destruct H as [H|H]); done.
    + destruct (Systemd.unit_file u) as [p|].
      * apply elem_of_app in H as [H|H].
        -- destruct (_ && _); rewrite ?elem_of_cons, elem_of_nil in H;
             repeat (destruct H as [H|H]); done.
        -- destruct (_ && _); rewrite ?elem_of_cons, elem_of_nil in H;
             repeat (destruct H as [H|H]); done.
      * rewrite ?elem_of_cons, elem_of_nil in H; repeat (destruct H as [H|H]); done.
    + destruct (Systemd.exec_start u) as [[|c es]|]; try by apply elem_of_nil in H.
      apply elem_of_app in H as [H|H]; [by apply Hes in H|].
      destruct (Systemd._extract_exec_path _) as [ep|]; [|by apply elem_of_nil in H].
      destruct (_ && _); rewrite ?elem_of_cons, elem_of_nil in H;
        repeat (destruct H as [H|H]); done.
  - intros lower [text|] sev; [|by intros ?%elem_of_nil].
    destruct text as [|c text]; [by intros ?%elem_of_nil|].
    unfold XdgAutostart._scan_desktop_file.
    set (joined := match List.filter _ _ with [] => _ | _ => _ end).
    pose proof (first_hint_not_var_tmp joined
                  ["/dev/shm/"; "/var/tmp/"; "curl "; "wget "; "bash -c"; "sh -c";
                   "python -c"; "base64"]) as Hv.
    change ("/tmp/" :: _) with XdgAutostart.SUSPICIOUS_HINTS in Hv.
    destruct (first_hint _ XdgAutostart.SUSPICIOUS_HINTS) as [h|] eqn:Hh,
      (PyStr.contains "/." joined);
      cbn [app]; rewrite ?elem_of_cons, ?elem_of_nil;
      intros H; repeat (destruct H as [H|H]); try done; try discriminate H.
    all: injection H as _ H.
    all: apply first_hint_Some in Hh as (pre & post & Htab & _ & _).
    all: assert (Hin : h ∈ XdgAutostart.SUSPICIOUS_HINTS)
           by (rewrite Htab; apply elem_of_app; right; by left).
    all: unfold XdgAutostart.SUSPICIOUS_HINTS in Hin.
    all: rewrite ?elem_of_cons, elem_of_nil in Hin.
    all: repeat (destruct Hin as [->|Hin]); try done; try (by vm_compute in H).
Qed.

(** ** The severity of a finding *)

Lemma mapM_ranked (l : list flag) :
  Forall ranked l ->
  mapM (fun f : flag => match rank f.1 with
                        | Some r => Ok (f.1, r)
                        | None => Raise KeyError
                        end) l
  = Ok (map (fun f : flag => (f.1, default 0 (rank f.1))) l).
Proof.
  induction 1 as [|f l [r Hr] _ IH]; cbn [mapM map]; [done|].
  rewrite Hr, IH. reflexivity.
Qed.

Lemma max_severity_ranked (fl : flag) (flags : list flag) :
  Forall ranked (fl :: flags) ->
  exists s r,
    max_severity fl flags = Ok s /\ rank s = Some r
    /\ s ∈ map fst (fl :: flags)
    /\ Forall (fun f : flag => exists r', rank f.1 = Some r' /\ r' <= r) (fl :: flags).
Proof.
  intros Hall. unfold max_severity. rewrite (mapM_ranked _ Hall). cbn [bind map].
  set (h := fun f : flag => (f.1, default 0 (rank f.1))).
  destruct (max_by_fold (snd : string * nat -> nat) (map h flags) (h fl))
    as (Hx & Hrest & Hcase).
  cbv zeta in Hx, Hrest, Hcase.
  set (m := max_by snd (h fl) (map h flags)) in *.
  assert (Hm : exists f, f ∈ fl :: flags /\ m = h f).
  { destruct Hcase as [[Hm _]|(pre & post & Heq & _)].
    - exists fl. split; [by left|done].
    - assert (Hin : m ∈ map h flags) by (rewrite Heq; apply elem_of_app; right; by left).
      apply list_elem_of_fmap in Hin as (f & -> & Hf). exists f. split; [by right|done]. }
  destruct Hm as (f & Hf & Hmf).
  pose proof (proj1 (Forall_forall _ _) Hall f Hf) as [r Hr].
  exists m.1, r. split; [done|]. split; [by rewrite Hmf|]. split.
  { rewrite Hmf. change (f.1 ∈ map fst (fl :: flags)).
    apply list_elem_of_fmap. by exists f. }
  assert (Hmr : m.2 = r) by (rewrite Hmf; cbn [snd h]; by rewrite Hr).
  apply Forall_forall. intros g Hg.
  pose proof (proj1 (Forall_forall _ _) Hall g Hg) as [r' Hr'].
  exists r'. split; [done|].
  assert (Hle : (h g).2 <= m.2).
  { apply elem_of_cons in Hg as [->|Hg]; [exact Hx|].
    apply (proj1 (Forall_forall _ _) Hrest). apply list_elem_of_fmap. by exists g. }
  cbn [snd h] in Hle. rewrite Hr' in Hle. cbn [default from_option id] in Hle. lia.
Qed.

Lemma ranked_literal (sev msg : string) : is_Some (rank sev) -> ranked (sev, msg).
Proof. done. Qed.

Lemma scan_file_ranked (lower : string -> string) (text : option string) :
  Forall ranked (ShellInit._scan_file lower text).
Proof.
  destruct text as [[|c text]|]; [constructor| |constructor].
  unfold ShellInit._scan_file.
  destruct (first_hint _ _), (PyStr.contains "/." _); cbn [app];
    repeat (constructor; [by eexists|]); constructor.
Qed.

Lemma scan_desktop_file_ranked (lower : string -> string) (text : option string) :
  Forall ranked (XdgAutostart._scan_desktop_file lower text).
Proof.
  destruct text as [[|c text]|]; [constructor| |constructor].
  unfold XdgAutostart._scan_desktop_file. cbv zeta.
  destruct (first_hint _ _), (PyStr.contains "/." _); cbn [app];
    repeat (constructor; [by eexists|]); constructor.
Qed.

Lemma heuristics_ranked (u : Systemd.UnitInfo) : Forall ranked (Systemd._heuristics u).
Proof.
  rewrite heuristics_parts.
  repeat (apply Forall_app; split);
    repeat match goal with
           | |- context [if ?b then _ else _] => destruct b
           | |- context [match first_hint ?t ?l with _ => _ end] => destruct (first_hint t l)
           | |- context [match Systemd._extract_exec_path ?e with _ => _ end] =>
               destruct (Systemd._extract_exec_path e)
           | |- context [match Systemd.drop_in_paths ?u with _ => _ end] =>
               destruct (Systemd.drop_in_paths u)
           | |- context [match Systemd.unit_file ?u with _ => _ end] =>
               destruct (Systemd.unit_file u)
           | |- context [match Systemd.exec_start ?u with _ => _ end] =>
               destruct (Systemd.exec_start u) as [[|? ?]|]
           | |- Forall _ (_ ++ _) => apply Forall_app; split
           end;
    repeat (constructor; [by eexists|]); constructor.
Qed.

Lemma runtime_flags_cases (exe_path : string) :
  (exists hint,
      hint ∈ RuntimeProcess.RISKY_RUNTIME_PATHS
      /\ runtime_risky exe_path = true
      /\ RuntimeProcess._runtime_flags exe_path
         = [("high", "Process executing from risky runtime path: " +:+ hint)])
  \/ (runtime_risky exe_path = false /\ PyStr.contains "/." exe_path = true
      /\ RuntimeProcess._runtime_flags exe_path
         = [("medium", "Process executable located in hidden directory")])
  \/ (runtime_risky exe_path = false /\ PyStr.contains "/." exe_path = false
      /\ RuntimeProcess._runtime_flags exe_path = []).
Proof.
  unfold runtime_risky, RuntimeProcess._runtime_flags. rewrite existsb_first_hint.
  destruct (first_hint _ _) as [h|] eqn:Hh.
  - left. exists h. split; [|done].
    apply first_hint_Some in Hh as (pre & post & -> & _). apply elem_of_app. right. by left.
  - right. destruct (PyStr.contains "/." exe_path); [by left|by right].
Qed.

Lemma runtime_flags_ranked (exe_path : string) :
  Forall ranked (RuntimeProcess._runtime_flags exe_path).
Proof.
  destruct (runtime_flags_cases exe_path) as [(h & _ & _ & ->)|[(_ & _ & ->)|(_ & _ & ->)]];
    repeat (constructor; [by eexists|]); constructor.
Qed.

(** X16: the severity that the [run] of the checks shell_init,
    xdg_autostart, systemd and runtime_process computes from a non-empty
    list of flags never raises [KeyError]: every flag of these checks has a
    severity of the rank table, and the result is the severity of one of
    the flags, of the highest rank among them. *)
Theorem check_severity_is_defined (flags : list flag) (fl : flag) (rest : list flag) :
  (exists lower text, flags = ShellInit._scan_file lower text)
  \/ (exists lower text, flags = XdgAutostart._scan_desktop_file lower text)
  \/ (exists u, flags = Systemd._heuristics u)
  \/ (exists exe_path, flags = RuntimeProcess._runtime_flags exe_path) ->
  flags = fl :: rest ->
  exists s r,
    max_severity fl rest = Ok s /\ rank s = Some r
    /\ s ∈ map fst flags
    /\ Forall (fun f : flag => exists r', rank f.1 = Some r' /\ r' <= r) flags.
Proof.
  intros Hsrc Hflags.
  assert (Hall : Forall ranked flags).
  { destruct Hsrc as [(lower & text & ->)|[(lower & text & ->)|[(u & ->)|(e & ->)]]].
    - apply scan_file_ranked.
    - apply scan_desktop_file_ranked.
    - apply heuristics_ranked.
    - apply runtime_flags_ranked. }
  rewrite Hflags in *. by apply max_severity_ranked.
Qed.

Lemma check_severity_is_defined_witness :
  exists s r,
    max_severity ("low", "Enabled user-level service")
                 [("medium", "Enabled unit in user config directory")] = Ok s
    /\ rank s = Some r
    /\ s ∈ map fst [("low", "Enabled user-level service");
                    ("medium", "Enabled unit in user config directory")]
    /\ Forall (fun f : flag => exists r', rank f.1 = Some r' /\ r' <= r)
              [("low", "Enabled user-level service");
               ("medium", "Enabled unit in user config directory")].
Proof.
  apply (check_severity_is_defined
           [("low", "Enabled user-level service");
            ("medium", "Enabled unit in user config directory")]).
  - right. right. left.
    exists (Systemd.mkUnitInfo "a.service" "user" "enabled"
              (Some "/home/u/.config/systemd/user/a.service") None []).
    vm_compute. reflexivity.
  - reflexivity.
Defined.

(** ** runtime_process *)

Lemma run_process_eq (findings : list Finding) (proc : Z * string) :
  RuntimeProcess.run_process findings proc = Ok (findings ++ runtime_report proc).
Proof.
  destruct proc as [pid exe_path]. unfold runtime_report, RuntimeProcess.run_process.
  destruct (runtime_flags_cases exe_path)
    as [(h & _ & _ & ->)|[(_ & _ & ->)|(_ & _ & ->)]];
    [reflexivity|reflexivity|by rewrite app_nil_r].
Qed.

Lemma runtime_run_eq (processes : list (Z * string)) :
  RuntimeProcess.run processes = Ok (concat (map runtime_report processes)).
Proof.
  unfold RuntimeProcess.run.
  enough (H : forall acc,
             fold_left (fun acc proc => do findings <- acc;
                                        RuntimeProcess.run_process findings proc)
                       processes (Ok acc)
             = Ok (acc ++ concat (map runtime_report processes))) by apply (H []).
  induction processes as [|proc processes IH]; intros acc; cbn [fold_left map concat bind].
  - by rewrite app_nil_r.
  - rewrite run_process_eq, IH. by rewrite app_assoc.
Qed.

Lemma runtime_report_cases (proc : Z * string) :
  if runtime_flagged proc
  then exists f,
         runtime_report proc = [f]
         /\ check_id f = "runtime.process"
         /\ title f = "Review runtime process: PID " +:+ int_repr proc.1
         /\ severity f = (if runtime_risky proc.2 then "high" else "medium")
         /\ map key (evidence f) = ["pid"; "exe"; "flags"]
         /\ mkEvidence "procfs" "exe" (VStr proc.2) ∈ evidence f
  else runtime_report proc = [].
Proof.
  destruct proc as [pid exe_path]. unfold runtime_flagged, runtime_report.
  unfold RuntimeProcess.run_process. cbn [fst snd].
  destruct (runtime_flags_cases exe_path)
    as [(h & _ & -> & ->)|[(-> & -> & ->)|(-> & -> & ->)]]; cbn [orb].
  - eexists. split; [reflexivity|]. cbn. repeat split. right. by left.
  - eexists. split; [reflexivity|]. cbn. repeat split. right. by left.
  - reflexivity.
Qed.

(** X17: [runtime_process.run] never raises and returns one finding for
    every process whose executable lies under a risky runtime directory or
    in a hidden path, in the order of the process list: "high" for the
    risky directories, "medium" for the others, the executable path among
    the evidence. *)
Theorem runtime_run_reports_flagged_processes (processes : list (Z * string)) :
  exists fs,
    RuntimeProcess.run processes = Ok fs
    /\ Forall2 (fun (proc : Z * string) (f : Finding) =>
                  check_id f = "runtime.process"
                  /\ title f = "Review runtime process: PID " +:+ int_repr proc.1
                  /\ severity f = (if runtime_risky proc.2 then "high" else "medium")
                  /\ mkEvidence "procfs" "exe" (VStr proc.2) ∈ evidence f)
               (List.filter runtime_flagged processes) fs.
Proof.
  exists (concat (map runtime_report processes)). split; [apply runtime_run_eq|].
  induction processes as [|proc processes IH]; cbn [List.filter map concat]; [constructor|].
  pose proof (runtime_report_cases proc) as Hp.
  destruct (runtime_flagged proc).
  - destruct Hp as (f & -> & Hc & Ht & Hs & _ & He). cbn [app]. by constructor.
  - rewrite Hp. exact IH.
Qed.

(** X18: the identifier of a finding of [runtime_process.run] is the hash
    of the check name and the title, which names the process number only:
    no evidence key of such a finding is an anchor key, so the executable
    path has no part in the identifier. *)
Theorem runtime_identifier_is_the_pid (processes : list (Z * string)) :
  exists fs,
    RuntimeProcess.run processes = Ok fs
    /\ Forall2 (fun (proc : Z * string) (f : Finding) =>
                  _stable_id f
                  = str_take 16 (sha256_hex ("runtime.process|Review runtime process: PID "
                                             +:+ int_repr proc.1)))
               (List.filter runtime_flagged processes) fs.
Proof.
  exists (concat (map runtime_report processes)). split; [apply runtime_run_eq|].
  induction processes as [|proc processes IH]; cbn [List.filter map concat]; [constructor|].
  pose proof (runtime_report_cases proc) as Hp.
  destruct (runtime_flagged proc).
  - destruct Hp as (f & -> & Hc & Ht & _ & Hk & _). cbn [app]. constructor; [|exact IH].
    rewrite stable_id_raw. unfold raw_spec, anchor_spec.
    assert (Hfind : find is_anchor_key (evidence f) = None).
    { destruct (evidence f) as [|e1 [|e2 [|e3 [|e4 ev]]]]; try discriminate Hk.
      injection Hk as H1 H2 H3. unfold is_anchor_key. cbn [find].
      rewrite H1, H2, H3. reflexivity. }
    rewrite Hfind, Hc, Ht. reflexivity.
  - rewrite Hp. exact IH.
Qed.

(** ** systemd: the executable path of ExecStart *)

Lemma strip_prefix_Some (p s r : string) :
  Json.strip_prefix p s = Some r -> s = p +:+ r.
Proof.
  revert s. induction p as [|a p IH]; intros s; simpl.
  - by intros [= ->].
  - destruct s as [|b s]; [done|].
    destruct (Ascii.eqb_spec a b) as [->|]; [|done].
    intros H%IH. by rewrite str_app_cons, H.
Qed.

Lemma strip_first_Some (marks : list string) (s rest : string) :
  PyStr.strip_first marks s = Some rest -> exists m, s = m +:+ rest.
Proof.
  induction marks as [|m marks IH]; simpl; [done|].
  destruct (Json.strip_prefix m s) as [r|] eqn:Hm; [|exact IH].
  intros [= ->]. exists m. by apply strip_prefix_Some.
Qed.

Lemma before_prefix (sep s : string) : exists t, s = PyStr.before sep s +:+ t.
Proof.
  induction s as [|c s [t IH]]; simpl.
  - destruct (PyStr.startswith sep ""); by exists "".
  - destruct (PyStr.startswith sep (String c s)); [by eexists|].
    exists t. by rewrite str_app_cons, <- IH.
Qed.

Lemma after_suffix (sep s r : string) :
  PyStr.after sep s = Some r -> exists pre, s = pre +:+ sep +:+ r.
Proof.
  induction s as [|c s IH]; cbn [PyStr.after].
  - destruct (Json.strip_prefix sep "") as [x|] eqn:Hx; [|done].
    intros [= ->]. exists "". rewrite str_app_nil_l. by apply strip_prefix_Some.
  - destruct (Json.strip_prefix sep (String c s)) as [x|] eqn:Hx.
    + intros [= ->]. exists "". rewrite str_app_nil_l. by apply strip_prefix_Some.
    + intros [pre ->]%IH. exists (String c pre). by rewrite str_app_cons.
Qed.

Lemma rev_app_acc (s acc : string) : String.rev_app s acc = String.rev s +:+ acc.
Proof.
  revert acc. induction s as [|a s IH]; intros acc; [done|].
  unfold String.rev. cbn [String.rev_app]. rewrite (IH (String a acc)), (IH (String a "")).
  by rewrite str_app_assoc.
Qed.

Lemma rev_cons_app (c : ascii) (cur s : string) :
  String.rev (String c cur) +:+ s = String.rev cur +:+ String c s.
Proof.
  unfold String.rev at 1. cbn [String.rev_app]. rewrite rev_app_acc.
  by rewrite str_app_assoc.
Qed.

(** Every word of [s.split()] is a part of [s]. *)
Lemma split_ws_fuel_part (fuel : nat) (cur : option string) (s w : string) :
  w ∈ PyStr.split_ws_fuel fuel cur s ->
  exists pre post, String.rev (default "" cur) +:+ s = pre +:+ w +:+ post.
Proof.
  assert (Hcur : forall cur s w, w ∈ option_list (String.rev <$> cur) ->
            exists pre post, String.rev (default "" cur) +:+ s = pre +:+ w +:+ post).
  { intros [c0|] s0 w0; simpl; [|by intros ?%elem_of_nil].
    intros ->%list_elem_of_singleton. by exists "", s0. }
  revert cur s. induction fuel as [|fuel IH]; intros cur s; cbn [PyStr.split_ws_fuel].
  - apply Hcur.
  - destruct s as [|c s]; [apply Hcur|].
    destruct (PyStr.strip_first PyStr.whitespace (String c s)) as [rest|] eqn:Hw.
    + intros [H|H]%elem_of_app; [by apply Hcur|].
      apply IH in H as (pre & post & H). change (rest = pre +:+ w +:+ post) in H.
      apply strip_first_Some in Hw as [m ->].
      exists (String.rev (default "" cur) +:+ m +:+ pre), post.
      rewrite H. by rewrite !str_app_assoc.
    + intros H. apply IH in H as (pre & post & H).
      exists pre, post. rewrite <- H. cbn [default from_option id].
      by rewrite rev_cons_app.
Qed.

Lemma startswith_part (p w pre post : string) :
  PyStr.startswith p w = true -> PyStr.contains p (pre +:+ w +:+ post) = true.
Proof.
  intros [r ->]%startswith_spec. apply contains_spec.
  exists pre, (r +:+ post). by rewrite !str_app_assoc.
Qed.

(** The path that [_extract_exec_path] returns is a part of its argument. *)
Lemma extract_exec_path_part (execstart_raw ep p : string) :
  Systemd._extract_exec_path execstart_raw = Some ep ->
  PyStr.startswith p ep = true ->
  PyStr.contains p execstart_raw = true.
Proof.
  unfold Systemd._extract_exec_path.
  destruct (PyStr.contains "path=" execstart_raw) eqn:Hc.
  - destruct (PyStr.after "path=" execstart_raw) as [sub|] eqn:Ha.
    + apply after_suffix in Ha as [pre ->]. cbn [default from_option id].
      set (cut := fun sub sep => if PyStr.contains sep sub then PyStr.before sep sub else sub).
      assert (Hcut : forall seps sub0, exists t, sub0 = fold_left cut seps sub0 +:+ t).
      { induction seps as [|sep seps IH]; intros sub0; cbn [fold_left].
        - exists "". by rewrite str_app_nil_r.
        - destruct (IH (cut sub0 sep)) as [t Ht].
          assert (Hs : exists t', sub0 = cut sub0 sep +:+ t').
          { unfold cut. destruct (PyStr.contains sep sub0);
              [apply before_prefix|exists ""; by rewrite str_app_nil_r]. }
          destruct Hs as [t' Ht']. exists (t +:+ t').
          rewrite Ht' at 1. rewrite Ht at 1. by rewrite str_app_assoc. }
      destruct (Hcut [" "; ";"; "}"; ","] sub) as [t Ht].
      destruct (PyStr.startswith "/" _); [|done]. intros [= <-] Hp.
      rewrite Ht. rewrite <- str_app_assoc.
      apply (startswith_part p _ (pre +:+ "path=") t) in Hp.
      by rewrite <- !str_app_assoc in *.
    + cbn [default from_option id]. cbn. done.
  - unfold PyStr.split_ws.
    destruct (PyStr.split_ws_fuel _ None execstart_raw) as [|w ws] eqn:Hs; [done|].
    destruct (PyStr.startswith "/" w); [|done]. intros [= <-] Hp.
    assert (Hin : w ∈ PyStr.split_ws_fuel (String.length execstart_raw) None execstart_raw)
      by (rewrite Hs; by left).
    apply split_ws_fuel_part in Hin as (pre & post & Hin).
    change (execstart_raw = pre +:+ w +:+ post) in Hin.
    rewrite Hin. by apply startswith_part.
Qed.

(** An executable path in a temporary directory has the ExecStart flagged
    for a risky location. *)
Lemma temp_exec_path_has_hint (es ep : string) :
  Systemd._extract_exec_path es = Some ep ->
  PyStr.startswith "/tmp/" ep || PyStr.startswith "/dev/shm/" ep = true ->
  first_hint (fun hint => PyStr.contains hint es) Systemd.SUSPICIOUS_PATH_HINTS = Some "/tmp/"
  \/ first_hint (fun hint => PyStr.contains hint es) Systemd.SUSPICIOUS_PATH_HINTS
     = Some "/dev/shm/".
Proof.
  intros Hep [H|H]%orb_true_iff; apply (extract_exec_path_part _ _ _ Hep) in H;
    unfold first_hint, Systemd.SUSPICIOUS_PATH_HINTS; cbn [find].
  - left. by rewrite H.
  - destruct (PyStr.contains "/tmp/" es); [by left|right]. by rewrite H.
Qed.

(** X19: the flag of severity "high" of a systemd unit never comes alone:
    the executable path that [_extract_exec_path] finds is a part of
    ExecStart, so a unit flagged for an executable in a temporary directory
    is flagged for an ExecStart that references "/tmp/" or "/dev/shm/" as
    well. *)
Theorem high_flag_comes_with_risky_path_flag (u : Systemd.UnitInfo) :
  ("high", "Executable path in temp or memory-backed directory") ∈ Systemd._heuristics u ->
  ("medium", "ExecStart references risky path: /tmp/") ∈ Systemd._heuristics u
  \/ ("medium", "ExecStart references risky path: /dev/shm/") ∈ Systemd._heuristics u.
Proof.
  rewrite heuristics_parts. rewrite !elem_of_app. intros [H|[H|[H|H]]].
  - destruct (_ && _); rewrite ?elem_of_cons, elem_of_nil in H;
      repeat (destruct H as [H|H]); done.
  - destruct (Systemd.drop_in_paths u); rewrite ?elem_of_cons, elem_of_nil in H;
      repeat (destruct H as [H|H]); done.
  - destruct (Systemd.unit_file u) as [p|].
    + apply elem_of_app in H as [H|H];
        destruct (_ && _); rewrite ?elem_of_cons, elem_of_nil in H;
        repeat (destruct H as [H|H]); done.
    + rewrite ?elem_of_cons, elem_of_nil in H; repeat (destruct H as [H|H]); done.
  - destruct (Systemd.exec_start u) as [[|c es]|]; try by apply elem_of_nil in H.
    apply elem_of_app in H as [H|H].
    { destruct (first_hint _ _); rewrite ?elem_of_cons, elem_of_nil in H;
        repeat (destruct H as [H|H]); done. }
    destruct (Systemd._extract_exec_path _) as [ep|] eqn:Hep; [|by apply elem_of_nil in H].
    destruct (negb _ && _) eqn:Hc; [|by apply elem_of_nil in H].
    apply andb_true_iff in Hc as [_ Hc].
    destruct (temp_exec_path_has_hint _ _ Hep Hc) as [Hh|Hh]; rewrite Hh;
      [left|right]; do 3 right; apply elem_of_app; left; by left.
Qed.

Lemma high_flag_comes_with_risky_path_flag_witness :
  let u := Systemd.mkUnitInfo "backup.service" "system" "disabled"
             (Some "/usr/lib/systemd/system/backup.service")
             (Some "{ path=/dev/shm/run ; argv[]=/dev/shm/run --now ; }") [] in
  ("medium", "ExecStart references risky path: /tmp/") ∈ Systemd._heuristics u
  \/ ("medium", "ExecStart references risky path: /dev/shm/") ∈ Systemd._heuristics u.
Proof.
  intros u. apply (high_flag_comes_with_risky_path_flag u).
  refine (bool_decide_unpack _ _). vm_compute. reflexivity.
Defined.

(** X20: the units that [systemd.run] skips.  [_heuristics] gives no flag
    exactly when the unit is not an enabled user unit, has no drop-in, has
    a unit file that is not an enabled one of a local override directory,
    and its ExecStart holds none of the risky-location hints. *)
Theorem heuristics_empty_iff (u : Systemd.UnitInfo) :
  Systemd._heuristics u = [] <->
  String.eqb (Systemd.scope u) "user" && String.eqb (Systemd.enabled_state u) "enabled"
  = false
  /\ Systemd.drop_in_paths u = []
  /\ (exists p, Systemd.unit_file u = Some p
                /\ existsb (fun h => PyStr.contains h p) Systemd.LOCAL_UNIT_DIR_HINTS
                   && String.eqb (Systemd.enabled_state u) "enabled" = false)
  /\ (forall es, Systemd.exec_start u = Some es ->
                 existsb (fun hint => PyStr.contains hint es) Systemd.SUSPICIOUS_PATH_HINTS
                 = false).
Proof.
  rewrite heuristics_parts.
  generalize (String.eqb (Systemd.scope u) "user")
             (String.eqb (Systemd.enabled_state u) "enabled").
  intros user enabled. split.
  - intros (Ha & (Hb & (Hc & Hd)%app_eq_nil)%app_eq_nil)%app_eq_nil.
    split; [by destruct (user && enabled)|].
    split; [by destruct (Systemd.drop_in_paths u)|].
    split.
    + destruct (Systemd.unit_file u) as [p|]; [|done]. exists p. split; [done|].
      apply app_eq_nil in Hc as [Hc _]. by destruct (existsb _ _ && enabled).
    + intros es Hes. rewrite Hes in Hd. destruct es as [|c es]; [reflexivity|].
      apply app_eq_nil in Hd as [Hd _]. rewrite existsb_first_hint.
      by destruct (first_hint _ _).
  - intros (Ha & Hb & (p & Hp & Hc) & Hd). rewrite Ha, Hb, Hp, Hc. cbn [app].
    assert (Hu : user && PyStr.contains "/.config/systemd/user/" p && enabled = false)
      by (destruct user, enabled; try done; by rewrite andb_false_r).
    rewrite Hu. cbn [app].
    destruct (Systemd.exec_start u) as [[|c es]|]; [done| |done].
    specialize (Hd _ eq_refl). rewrite existsb_first_hint in Hd.
    destruct (first_hint _ _) as [h|] eqn:Hh; [done|]. cbn [app].
    destruct (Systemd._extract_exec_path _) as [ep|] eqn:Hep; [|done].
    destruct (negb _ && _) eqn:Hcond; [|done].
    apply andb_true_iff in Hcond as [_ Hcond].
    destruct (temp_exec_path_has_hint _ _ Hep Hcond); congruence.
Qed.

(** ** cron: the findings of [run] *)









(** ** systemd: the list of units *)

Lemma first_words_None (lines : list string) :
  Systemd.first_words lines = None <-> exists l, l ∈ lines /\ PyStr.split_ws l = [].
Proof.
  induction lines as [|l lines IH]; cbn [Systemd.first_words].
  - split; [done|]. by intros (l & ?%elem_of_nil & _).
  - destruct (PyStr.split_ws l) as [|w ws] eqn:Hl; cbn [head].
    + split; [|done]. intros _. exists l. split; [by left|done].
    + destruct (Systemd.first_words lines) as [names|].
      * split; [done|]. intros (l' & [->|Hin]%elem_of_cons & Hl'); [congruence|].
        assert (H : Some names = None) by (apply IH; by exists l').
        done.
      * split; [|done]. intros _. destruct (proj1 IH eq_refl) as (l' & Hin & Hl').
        exists l'. split; [by right|done].
Qed.

Lemma first_words_Some (lines names : list string) :
  Systemd.first_words lines = Some names ->
  forall n, n ∈ names <-> exists l, l ∈ lines /\ head (PyStr.split_ws l) = Some n.
Proof.
  revert names. induction lines as [|l lines IH]; intros names; cbn [Systemd.first_words].
  - intros [= <-] n. split; [by intros ?%elem_of_nil|]. by intros (l & ?%elem_of_nil & _).
  - destruct (head (PyStr.split_ws l)) as [w|] eqn:Hl; [|done].
    destruct (Systemd.first_words lines) as [names'|]; [|done].
    intros [= <-] n. rewrite elem_of_cons, (IH names' eq_refl n). split.
    + intros [->|(l' & Hin & Hl')]; [exists l; split; [by left|done]|].
      exists l'. split; [by right|done].
    + intros (l' & [->|Hin]%elem_of_cons & Hl'); [left; congruence|].
      right. by exists l'.
Qed.

(** X23: [_list_units] on the answer of [systemctl].  With a return code
    other than 0 the list is empty.  With the return code 0 the call
    raises (IndexError) exactly when a line of the output has no word;
    otherwise the list holds the first word of every line, each once, in
    ascending order. *)
Theorem list_units_result (rc : Z) (out : string) :
  (Systemd._list_units rc out = None
   <-> rc = 0%Z /\ exists l, l ∈ PyStr.splitlines out /\ PyStr.split_ws l = [])
  /\ (rc <> 0%Z -> Systemd._list_units rc out = Some [])
  /\ (forall names,
        Systemd._list_units rc out = Some names ->
        ascending names
        /\ (rc = 0%Z ->
            forall n, n ∈ names
                      <-> exists l, l ∈ PyStr.splitlines out
                                    /\ head (PyStr.split_ws l) = Some n)).
Proof.
  unfold Systemd._list_units. destruct (Z.eqb_spec rc 0) as [->|Hrc].
  - destruct (Systemd.first_words (PyStr.splitlines out)) as [names|] eqn:Hw.
    + split; [|split; [done|]].
      * split; [done|]. intros [_ Hl]. apply first_words_None in Hl. congruence.
      * intros ? [= <-]. split; [apply ascending_sorted|]. intros _ n.
        rewrite elem_of_sorted, elem_of_list_to_set. by apply first_words_Some.
    + split; [|split; [done|done]].
      split; [|done]. intros _. split; [done|]. by apply first_words_None.
  - split; [|split; [done|]].
    + split; [done|]. by intros [? _].
    + intros ? [= <-]. split; [|done]. split; constructor.
Qed.

Lemma list_units_result_witness :
  Systemd._list_units 0 (String.concat (String newline "")
                           ["a.service enabled enabled"; ""; "b.service disabled enabled"])
  = None.
Proof.
  apply (proj2 (proj1 (list_units_result 0 _))). split; [reflexivity|].
  exists "". split; [|reflexivity].
  apply (bool_decide_unpack _). vm_compute. reflexivity.
Defined.

(** ** output: the JSON text of the findings *)




(** ** cli *)


(** X25: the selection of [_run_checks].  The empty selection and a
    selection that names "all" run the five checks, in the order systemd,
    cron, shell_init, xdg_autostart, runtime_process; a selection that is
    not empty and names none of the six words runs no check at all. *)
Theorem run_checks_selection
    (systemd_run cron_run shell_init_run xdg_autostart_run runtime_process_run
       : list Finding) :
  (forall selected : gset string,
      selected = ∅ \/ "all" ∈ selected ->
      Cli._run_checks systemd_run cron_run shell_init_run xdg_autostart_run
                      runtime_process_run selected
      = systemd_run ++ cron_run ++ shell_init_run ++ xdg_autostart_run
        ++ runtime_process_run)
  /\ (forall selected : gset string,
        selected <> ∅ ->
        (forall c, c ∈ selected ->
                   c ∉ ["all"; "systemd"; "cron"; "shell_init"; "xdg_autostart";
                        "runtime_process"]) ->
        Cli._run_checks systemd_run cron_run shell_init_run xdg_autostart_run
                        runtime_process_run selected
        = []).
Proof.
  split; intros selected.
  - intros Hsel. unfold Cli._run_checks. cbv zeta.
    assert (Hall : bool_decide ("all" ∈ selected) || bool_decide (selected = ∅) = true).
    { destruct Hsel as [->|Hin].
      - rewrite (bool_decide_eq_true_2 (∅ = ∅)) by done. apply orb_true_r.
      - by rewrite (bool_decide_eq_true_2 _ Hin). }
    rewrite Hall. cbn [orb app]. by rewrite <- !app_assoc.
  - intros Hne Hunknown. unfold Cli._run_checks. cbv zeta.
    assert (Hno : forall c, c ∈ ["all"; "systemd"; "cron"; "shell_init"; "xdg_autostart";
                                 "runtime_process"] ->
                            bool_decide (c ∈ selected) = false).
    { intros c Hc. apply bool_decide_eq_false_2. intros Hin. by apply (Hunknown c). }
    rewrite (bool_decide_eq_false_2 _ Hne).
    rewrite !Hno by (rewrite !elem_of_cons; tauto). reflexivity.
Qed.

Lemma run_checks_selection_witness :
  Cli._run_checks
    [mkFinding "systemd.units" "t" "low" "d" [] None []]
    [mkFinding "cron.artifacts" "Cron artifacts" "info" "d" [] None []] [] [] []
    {["crom"]}
  = [].
Proof.
  apply (proj2 (run_checks_selection
                  [mkFinding "systemd.units" "t" "low" "d" [] None []]
                  [mkFinding "cron.artifacts" "Cron artifacts" "info" "d" [] None []]
                  [] [] [])).
  - apply (bool_decide_unpack _). by vm_compute.
  - intros c ->%elem_of_singleton. apply (bool_decide_unpack _). by vm_compute.
Defined.



(** ** runtime_process: comparison with a baseline *)

Lemma runtime_report_description (proc : Z * string) (f : Finding) :
  f ∈ runtime_report proc ->
  description f
  = "Process executable path suggests runtime-only or memory-backed execution. "
    +:+ "This can indicate ephemeral or fileless persistence techniques.".
Proof.
  destruct proc as [pid exe_path]. unfold runtime_report, RuntimeProcess.run_process.
  destruct (runtime_flags_cases exe_path)
    as [(h & _ & _ & ->)|[(_ & _ & ->)|(_ & _ & ->)]].
  - intros ->%list_elem_of_singleton. reflexivity.
  - intros ->%list_elem_of_singleton. reflexivity.
  - by intros ?%elem_of_nil.
Qed.

(** X27: runtime findings are compared by process number.  When a process
    number that was reported in the baseline is reported again with the
    same severity, the comparison reports nothing, whatever the two
    executable paths are. *)
Theorem runtime_same_pid_is_not_reported (pid : Z) (exe_old exe_new v : string)
    (fs_old fs_new : list Finding) :
  RuntimeProcess.run [(pid, exe_old)] = Ok fs_old ->
  RuntimeProcess.run [(pid, exe_new)] = Ok fs_new ->
  runtime_flagged (pid, exe_old) = true ->
  runtime_flagged (pid, exe_new) = true ->
  runtime_risky exe_old = runtime_risky exe_new ->
  diff_baseline (make_baseline fs_old (VStr v)) fs_new = Ok (mkDiff [] [] []).
Proof.
  rewrite !runtime_run_eq. cbn [map concat]. rewrite !app_nil_r.
  intros [= <-] [= <-] Hfo Hfn Hrisky.
  pose proof (runtime_report_cases (pid, exe_old)) as Ho.
  pose proof (runtime_report_cases (pid, exe_new)) as Hn.
  rewrite Hfo in Ho. rewrite Hfn in Hn.
  destruct Ho as (f & Hf & Hcf & Htf & Hsf & Hkf & _).
  destruct Hn as (g & Hg & Hcg & Htg & Hsg & Hkg & _).
  assert (Hdf := runtime_report_description (pid, exe_old) f).
  assert (Hdg := runtime_report_description (pid, exe_new) g).
  rewrite Hf in Hdf |- *. rewrite Hg in Hdg |- *.
  specialize (Hdf ltac:(by left)). specialize (Hdg ltac:(by left)).
  cbn [fst snd] in *.
  assert (Hanchor : forall h : Finding,
             map key (evidence h) = ["pid"; "exe"; "flags"] -> anchor_spec h = title h).
  { intros h Hk. unfold anchor_spec.
    destruct (evidence h) as [|e1 [|e2 [|e3 [|e4 ev]]]]; try discriminate Hk.
    injection Hk as H1 H2 H3. unfold is_anchor_key. cbn [find].
    by rewrite H1, H2, H3. }
  assert (Hid : _stable_id f = _stable_id g).
  { rewrite !stable_id_raw. unfold raw_spec.
    rewrite (Hanchor f Hkf), (Hanchor g Hkg). congruence. }
  rewrite diff_single_eq.
  destruct (decide (_stable_id f = _stable_id g)) as [_|Hne]; [|done].
  destruct (decide (severity f = severity g /\ description f = description g)) as [|Hno];
    [done|].
  exfalso. apply Hno. split; [by rewrite Hsf, Hsg, Hrisky|congruence].
Qed.

Lemma runtime_same_pid_is_not_reported_witness :
  exists fs_old fs_new,
    RuntimeProcess.run [(4242%Z, "/tmp/.cache/updater")] = Ok fs_old
    /\ RuntimeProcess.run [(4242%Z, "/dev/shm/miner")] = Ok fs_new
    /\ diff_baseline (make_baseline fs_old (VStr "0.1.0")) fs_new = Ok (mkDiff [] [] []).
Proof.
  eexists _, _. split; [reflexivity|]. split; [reflexivity|].
  apply (runtime_same_pid_is_not_reported 4242 "/tmp/.cache/updater" "/dev/shm/miner").
  - reflexivity.
  - reflexivity.
  - reflexivity.
  - reflexivity.
  - reflexivity.
Defined.

(** ** systemd: the properties of a unit *)

Lemma parse_kv_fold_untouched (lines : list string) (kv : dict string) (k : string) :
  Forall (fun l => PyStr.contains "=" l = true ->
                   PyStr.strip (PyStr.before "=" l) <> k) lines ->
  dict_get k (fold_left (fun (kv : dict string) line =>
                           if PyStr.contains "=" line
                           then dict_set (PyStr.strip (PyStr.before "=" line))
                                         (PyStr.strip (default "" (PyStr.after "=" line))) kv
                           else kv) lines kv)
  = dict_get k kv.
Proof.
  revert kv. induction lines as [|l lines IH]; intros kv Hl; cbn [fold_left]; [done|].
  apply Forall_cons in Hl as [Hl Hlines]. rewrite IH by done.
  destruct (PyStr.contains "=" l); [|done].
  apply dict_get_set_ne. intros ->. by apply Hl.
Qed.

(** X28: [_parse_kv] keeps, for a key, the value of the last line that
    assigns it: the key is the stripped text before the first "=" of the
    line, and the value the stripped text after that first "=", so a value
    that holds "=" itself stays whole. *)
Theorem parse_kv_last_line_wins (out line : string) (earlier later : list string) :
  PyStr.splitlines out = earlier ++ line :: later ->
  PyStr.contains "=" line = true ->
  Forall (fun l => PyStr.contains "=" l = true ->
                   PyStr.strip (PyStr.before "=" l) <> PyStr.strip (PyStr.before "=" line))
         later ->
  dict_get (PyStr.strip (PyStr.before "=" line)) (Systemd._parse_kv out)
  = Some (PyStr.strip (default "" (PyStr.after "=" line))).
Proof.
  intros Hlines Hline Hlater. unfold Systemd._parse_kv.
  rewrite Hlines, fold_left_app. cbn [fold_left]. rewrite Hline.
  rewrite parse_kv_fold_untouched by done. apply dict_get_set_eq.
Qed.

Lemma parse_kv_last_line_wins_witness :
  dict_get "ExecStart"
    (Systemd._parse_kv
       (String.concat (String newline "")
          ["FragmentPath=/etc/systemd/system/a.service";
           "ExecStart={ path=/bin/true ; argv[]=/bin/true }";
           "no assignment here";
           " ExecStart = { path=/tmp/a ; argv[]=/tmp/a --now }";
           "DropInPaths="]))
  = Some "{ path=/tmp/a ; argv[]=/tmp/a --now }".
Proof.
  apply (parse_kv_last_line_wins _ " ExecStart = { path=/tmp/a ; argv[]=/tmp/a --now }"
           ["FragmentPath=/etc/systemd/system/a.service";
            "ExecStart={ path=/bin/true ; argv[]=/bin/true }";
            "no assignment here"]
           ["DropInPaths="]).
  - vm_compute. reflexivity.
  - reflexivity.
  - repeat constructor. vm_compute. discriminate.
Defined.
